(** * SCB Current Analysis: the data pipeline of [appscbdashboard.py]

    The dashboard reads two tables with pandas, validates and loads them,
    and then filters, thresholds, prunes and normalises the readings before
    they are charted.  This file embeds that pipeline and proves the
    properties the specification states about it.

    Modelling conventions.
    - A pandas column is a typed list: [Float64] holds IEEE binary64
      numbers (the kernel's primitive floats, so [nan], signed zeros and
      division by zero behave as in numpy; integer columns are embedded
      in them), [Datetime] holds instants counted in nanoseconds with
      [None] for [NaT], [Object] holds strings with [None] for a missing
      entry.  pandas holds an instant in 64 bits: [to_datetime] admits
      no instant outside that range, and [ts_sub] raises where a
      difference leaves it.
    - A [DataFrame] is the ordered list of its named columns.  Frames
      produced by [read_csv]/[read_excel] have pairwise distinct column
      names and columns of one length; [frame_wf] states this.  The
      default integer row index is not modelled: no operation on the
      reading table reads it.
    - Python exceptions are the [Raise] outcomes of the [result] monad.
    - [apply_threshold] copies and then updates a frame in place, so it is
      written over a store of frames addressed by references.
    - An upload is read from its start by the first parser that is
      given it.  The upload blocks of the welcome page read an upload
      twice: the second [pd.read_csv] finds it at its end
      ([read_csv_at_end]), the second [pd.read_excel] reads it again.
    - A run of the script is a function of the session state and of what
      the widgets hold in that run.  The answers of the widgets are
      inputs: nothing is assumed about them unless a statement says so. *)

From Stdlib Require Import ZArith Floats Lia.
From stdpp Require Import base option list sorting strings gmap.

Open Scope string_scope.
Open Scope nat_scope.
Set Warnings "-inexact-float".

(** ** Exceptions *)

Inductive exn := KeyError | TypeError | ValueError | AttributeError | NameError.

Inductive result (A : Type) : Type :=
| Ok (a : A)
| Raise (e : exn).

Arguments Ok {A} a.
Arguments Raise {A} e.

#[global] Instance result_ret : MRet result := λ A a, Ok a.

#[global] Instance result_bind : MBind result := λ A B f m,
  match m with
  | Ok a => f a
  | Raise e => Raise e
  end.

#[global] Instance result_fmap : FMap result := λ A B f m,
  match m with
  | Ok a => Ok (f a)
  | Raise e => Raise e
  end.

(** ** Columns, cells and frames *)

(** Nanoseconds since the epoch; [None] is [NaT]. *)
Abbreviation Timestamp := (option Z).

Inductive column :=
| Float64 (xs : list float)
| Datetime (ts : list Timestamp)
| Object (os : list (option string)).

Inductive cell :=
| CFloat (x : float)
| CTime (t : Timestamp)
| CObj (o : option string).

Definition cells (c : column) : list cell :=
  match c with
  | Float64 xs => CFloat <$> xs
  | Datetime ts => CTime <$> ts
  | Object os => CObj <$> os
  end.

Abbreviation DataFrame := (list (string * column)).

(** [df.columns] *)
Definition columns (df : DataFrame) : list string := df.*1.

(** [len(df)] *)
Definition nrows (df : DataFrame) : nat :=
  match df with
  | [] => 0
  | (_, c) :: _ => length (cells c)
  end.

Definition frame_wf (df : DataFrame) : Prop :=
  NoDup (columns df) ∧ ∀ k c, (k, c) ∈ df → length (cells c) = nrows df.

(** [df[k]] *)
Fixpoint getitem (df : DataFrame) (k : string) : result column :=
  match df with
  | [] => Raise KeyError
  | (n, c) :: df' => if decide (n = k) then Ok c else getitem df' k
  end.

(** [df[k] = c]: an existing column is replaced where it stands, a new
    one is appended. *)
Fixpoint setitem (df : DataFrame) (k : string) (c : column) : DataFrame :=
  match df with
  | [] => [(k, c)]
  | (n, c0) :: df' =>
      if decide (n = k) then (n, c) :: df' else (n, c0) :: setitem df' k c
  end.

(** [df.drop(columns=ks)]: a missing label is a [KeyError]. *)
Definition drop_columns (ks : list string) (df : DataFrame) : result DataFrame :=
  if forallb (λ k, bool_decide (k ∈ columns df)) ks
  then Ok (filter (λ p, p.1 ∉ ks) df)
  else Raise KeyError.

(** Selection of the positions a boolean mask marks. *)
Definition mask_select {A} (mask : list bool) (xs : list A) : list A :=
  (filter (λ p, p.1 = true) (zip mask xs)).*2.

Definition column_mask (mask : list bool) (c : column) : column :=
  match c with
  | Float64 xs => Float64 (mask_select mask xs)
  | Datetime ts => Datetime (mask_select mask ts)
  | Object os => Object (mask_select mask os)
  end.

(** [df[mask]] for a boolean series [mask] *)
Definition boolean_index (mask : list bool) (df : DataFrame) : DataFrame :=
  prod_map id (column_mask mask) <$> df.

(** [c.startswith(p)] and [c.endswith(p)] *)
Definition startswith (c p : string) : bool := String.prefix p c.
Definition endswith (c p : string) : bool :=
  String.prefix (String.rev p) (String.rev c).

(** ** Numeric series operations *)

(** [series > threshold]: a datetime column cannot be compared with a
    number, and neither can the strings of an object column. *)
Definition series_gt (c : column) (threshold : float) : result (list bool) :=
  match c with
  | Float64 xs => Ok ((λ v, (threshold <? v)%float) <$> xs)
  | Datetime _ => Raise TypeError
  | Object [] => Ok []
  | Object _ => Raise TypeError
  end.

(** [np.where(mask, x, series)].  On an object column the mask can only
    be empty, see [series_gt]. *)
Definition np_where (mask : list bool) (x : float) (c : column) : result column :=
  match c with
  | Float64 xs => Ok (Float64 (zip_with (λ (b : bool) v, if b then x else v) mask xs))
  | Datetime _ => Raise TypeError
  | Object [] => Ok (Object [])
  | Object _ => Raise TypeError
  end.

(** [series == 0], elementwise; only a number can be equal to zero. *)
Definition series_eq_zero (c : column) : list bool :=
  match c with
  | Float64 xs => (λ v, (v =? 0)%float) <$> xs
  | Datetime ts => (λ _, false) <$> ts
  | Object os => (λ _, false) <$> os
  end.

(** [series.isnull()] *)
Definition isnull (c : column) : list bool :=
  match c with
  | Float64 xs => is_nan <$> xs
  | Datetime ts => (λ t : Timestamp, bool_decide (t = None)) <$> ts
  | Object os => (λ o : option string, bool_decide (o = None)) <$> os
  end.

(** [.all()] and [.any()] of a boolean series *)
Definition all (bs : list bool) : bool := forallb id bs.
Definition any (bs : list bool) : bool := existsb id bs.

(** ** Instants *)

Definition NS_PER_DAY : Z := 86400 * 1000000000.

(** [timedelta(days=n)] *)
Definition timedelta (days : Z) : Z := days * NS_PER_DAY.

Definition ts_max (a b : Timestamp) : Timestamp :=
  match a, b with
  | Some x, Some y => Some (Z.max x y)
  | Some x, None => Some x
  | None, b => b
  end.

(** [series.max()]: missing instants are skipped; [NaT] when none is left. *)
Definition series_max (ts : list Timestamp) : Timestamp := foldr ts_max None ts.

(** pandas keeps an instant as a 64-bit count of nanoseconds and reads
    the least 64-bit integer as [NaT]: the instants of a table lie above
    [INT64_MIN] and not above [INT64_MAX]. *)
Definition INT64_MIN : Z := -9223372036854775808.
Definition INT64_MAX : Z := 9223372036854775807.

(** [t - delta]: [NaT] propagates; a difference below the 64-bit range
    is an [OutOfBoundsDatetime], which is a [ValueError]; the least
    64-bit integer reads as [NaT].  A count that is not above
    [INT64_MIN] is no instant of pandas, and nothing is checked on
    it. *)
Definition ts_sub (t : Timestamp) (delta : Z) : result Timestamp :=
  match t with
  | None => Ok None
  | Some x =>
      if bool_decide (x ≤ INT64_MIN)%Z then Ok (Some (x - delta)%Z)
      else if bool_decide (x - delta < INT64_MIN)%Z then Raise ValueError
      else if bool_decide (x - delta = INT64_MIN)%Z then Ok None
      else Ok (Some (x - delta)%Z)
  end.

(** [t >= bound]; a comparison with [NaT] is false. *)
Definition ts_ge (t bound : Timestamp) : bool :=
  match t, bound with
  | Some x, Some b => bool_decide (b ≤ x)%Z
  | _, _ => false
  end.

(** [series.dt.date]: the calendar day, counted in days since the epoch. *)
Definition dt_date (t : Timestamp) : option Z := (λ x, (x `div` NS_PER_DAY)%Z) <$> t.

Definition date_ge (d : option Z) (bound : Z) : bool :=
  match d with
  | Some x => bool_decide (bound ≤ x)%Z
  | None => false
  end.

Definition date_le (d : option Z) (bound : Z) : bool :=
  match d with
  | Some x => bool_decide (x ≤ bound)%Z
  | None => false
  end.

(** A column for [.dt]: the accessor exists on datetime columns only. *)
Definition as_datetime (c : column) : result (list Timestamp) :=
  match c with
  | Datetime ts => Ok ts
  | _ => Raise AttributeError
  end.

(** A column for [series.max() - timedelta(...)] and [series >= bound]:
    on a column that holds no instants the difference of its maximum and
    a [timedelta] is a [TypeError]. *)
Definition as_instants (c : column) : result (list Timestamp) :=
  match c with
  | Datetime ts => Ok ts
  | _ => Raise TypeError
  end.

(** A column of calendar days that holds no day at all, though it has
    rows: pandas reads [.dt.date] of such a column as a datetime column
    of [NaT] again. *)
Definition all_NaT (ts : list Timestamp) : bool :=
  negb (bool_decide (ts = [])) && forallb (λ t, bool_decide (t = None)) ts.

(** [series.dt.date >= bound] and [series.dt.date <= bound] for a date
    [bound]: a column that pandas reads as datetimes cannot be compared
    with a date, a [TypeError]; otherwise row by row, false on a missing
    day. *)
Definition dates_ge (ts : list Timestamp) (bound : Z) : result (list bool) :=
  if all_NaT ts then Raise TypeError
  else Ok ((λ t, date_ge (dt_date t) bound) <$> ts).

Definition dates_le (ts : list Timestamp) (bound : Z) : result (list bool) :=
  if all_NaT ts then Raise TypeError
  else Ok ((λ t, date_le (dt_date t) bound) <$> ts).

(** ** Labelled frames *)

(** The result of [df.set_index(k)]: the column [k] becomes the row
    labels and leaves the body.  pandas keeps every row and does not ask
    the labels to be distinct. *)
Record IndexedFrame := { index : column; body : DataFrame }.

Definition set_index (k : string) (df : DataFrame) : result IndexedFrame :=
  c ← getitem df k;
  Ok {| index := c; body := filter (λ p, p.1 ≠ k) df |}.

(** The labels as strings: the dashboard looks channel names up. *)
Definition labels (idx : column) : list (option string) :=
  match idx with
  | Object os => os
  | Float64 xs => (λ _, None) <$> xs
  | Datetime ts => (λ _, None) <$> ts
  end.

(** [k in frame.index] *)
Definition index_contains (t : IndexedFrame) (k : string) : bool :=
  bool_decide (Some k ∈ labels (index t)).

(** The values of a column in the rows labelled [k], in row order. *)
Definition rows_labelled (t : IndexedFrame) (k : string) (c : column) : list cell :=
  mask_select ((λ o, bool_decide (o = Some k)) <$> labels (index t)) (cells c).

(** What [.loc[k, col]] evaluates to: the cell when exactly one row
    carries the label, a series of all matching cells when several do. *)
Inductive loc_value :=
| Scalar (v : cell)
| Series (vs : list cell).

(** [frame.loc[k, col]] *)
Definition loc (t : IndexedFrame) (k col : string) : result loc_value :=
  c ← getitem (body t) col;
  match rows_labelled t k c with
  | [] => Raise KeyError
  | [v] => Ok (Scalar v)
  | vs => Ok (Series vs)
  end.

(** [series / divisor] as [series /= divisor] computes it.  Numbers are
    divided elementwise with IEEE semantics, so a zero divisor gives
    [infinity] or [nan] and raises nothing.  A divisor that is a series
    labelled by duplicated names cannot be realigned with the rows of
    the frame. *)
Definition series_div (c : column) (d : loc_value) : result column :=
  match d with
  | Scalar (CFloat x) =>
      match c with
      | Float64 xs => Ok (Float64 ((λ v, (v / x)%float) <$> xs))
      | _ => Raise TypeError
      end
  | Scalar _ => Raise TypeError
  | Series _ => Raise ValueError
  end.

(** ** Template generators *)

Definition generate_cb_template : DataFrame :=
  [ ("Date", Object [Some "2025-01-01"]);
    ("Time", Object [Some "10:00:00"]);
    ("CB_CURRENT_1", Float64 [10.5%float]);
    ("CB_CURRENT_2", Float64 [10.8%float]) ].

Definition generate_dc_template : DataFrame :=
  [ ("CB_INDEX", Object [Some "CB_CURRENT_1"; Some "CB_CURRENT_2"]);
    ("STRINGS", Float64 [24%float; 24%float]) ].

(** ** File validation *)

(** [set(ks).issubset(df.columns)] *)
Definition issubset (ks : list string) (df : DataFrame) : bool :=
  forallb (λ k, bool_decide (k ∈ columns df)) ks.

Definition validate_cb_file (df : DataFrame) : bool * string :=
  if negb (issubset ["Date"; "Time"] df) then
    (false, "Missing Date or Time column")
  else
    let cb_cols := List.filter (λ c, startswith c "CB_CURRENT") (columns df) in
    match cb_cols with
    | [] => (false, "No CB_CURRENT columns found")
    | _ => (true, "Valid CB data file")
    end.

Definition validate_dc_file (df : DataFrame) : result (bool * string) :=
  if negb (issubset ["CB_INDEX"; "STRINGS"] df) then
    Ok (false, "Missing CB_INDEX or STRINGS column")
  else
    strings ← getitem df "STRINGS";
    if any (isnull strings) then
      Ok (false, "STRINGS column contains empty values")
    else
      Ok (true, "Valid DC capacity file").

(** ** Analytics helpers *)

Definition get_scb_columns (df : DataFrame) : list string :=
  List.filter (λ c, startswith c "CB_CURRENT") (columns df).

(** [[s for s in scbs if not (df[s] == 0).all()]] *)
Fixpoint remove_inactive (df : DataFrame) (scbs : list string) : result (list string) :=
  match scbs with
  | [] => Ok []
  | s :: scbs' =>
      c ← getitem df s;
      rest ← remove_inactive df scbs';
      Ok (if negb (all (series_eq_zero c)) then s :: rest else rest)
  end.

(** ** The store of frames *)

Abbreviation ref := nat.
Abbreviation heap := (gmap nat DataFrame).

(** A computation reads and updates the store and returns or raises; what
    it wrote before raising stays written. *)
Definition M (A : Type) : Type := heap → result A * heap.

#[global] Instance M_ret : MRet M := λ A a h, (Ok a, h).

#[global] Instance M_bind : MBind M := λ A B f m h,
  match m h with
  | (Ok a, h') => f a h'
  | (Raise e, h') => (Raise e, h')
  end.

Definition lift {A} (r : result A) : M A := λ h, (r, h).

(** [df.copy()]: a new frame with the contents of the old one. *)
Definition df_copy (df : ref) : M ref := λ h,
  match h !! df with
  | Some T => let df' := fresh (dom h) in (Ok df', <[df' := T]> h)
  | None => (Raise NameError, h)
  end.

Definition df_getitem (df : ref) (k : string) : M column := λ h,
  match h !! df with
  | Some T => (getitem T k, h)
  | None => (Raise NameError, h)
  end.

Definition df_setitem (df : ref) (k : string) (c : column) : M unit := λ h,
  match h !! df with
  | Some T => (Ok (), <[df := setitem T k c]> h)
  | None => (Raise NameError, h)
  end.

Fixpoint for_each {A} (xs : list A) (body : A → M unit) : M unit :=
  match xs with
  | [] => mret ()
  | x :: xs' => body x ≫= λ _, for_each xs' body
  end.

(** One turn of the loop of [apply_threshold]:
    [df[scb] = np.where(df[scb] > threshold, 0, df[scb])]. *)
Definition threshold_column (df : ref) (threshold : float) (scb : string) : M unit :=
  lhs ← df_getitem df scb;
  mask ← lift (series_gt lhs threshold);
  keep ← df_getitem df scb;
  new ← lift (np_where mask 0%float keep);
  df_setitem df scb new.

Definition apply_threshold (df : ref) (scbs : list string) (threshold : float) : M ref :=
  df ← df_copy df;
  for_each scbs (threshold_column df threshold);;
  mret df.

(** ** Data loaders *)

Record UploadedFile := { name : string; payload : string }.

Section Loaders.

(** The parsers of pandas on an upload that has not been read yet, and
    its reading of date-and-time strings: [parse_datetime s] is the
    instant that [s] denotes ([None] when [s] is no date), and
    [same_format s0 s] says that [s] can be read in a column whose first
    entry is [s0]: [s] is written in the format pandas infers from [s0],
    or pandas infers no format from [s0] and reads each entry on its
    own. *)
Variables read_csv read_excel : UploadedFile → result DataFrame.
Variable parse_datetime : string → option Z.
Variable same_format : string → string → bool.

(** [pd.read_csv(file) if file.name.endswith("csv") else pd.read_excel(file)] *)
Definition read_table (file : UploadedFile) : result DataFrame :=
  if endswith (name file) "csv" then read_csv file else read_excel file.

(** [a + sep + b] on string columns; a missing entry stays missing. *)
Definition str_cat (a : column) (sep : string) (b : column) : result (list (option string)) :=
  match a, b with
  | Object xs, Object ys =>
      Ok (zip_with (λ x y, x' ← x; y' ← y; Some (x' +:+ sep +:+ y')) xs ys)
  | _, _ => Raise TypeError
  end.

(** The first entry of a column that is not missing. *)
Definition first_entry (os : list (option string)) : option string :=
  head (omap id os).

(** One string in the format inferred from [s0]: a string that is no
    date, is written in another format, or denotes an instant outside
    the 64-bit range is a [ValueError]. *)
Definition to_timestamp (s0 s : string) : result Timestamp :=
  match parse_datetime s with
  | Some t =>
      if same_format s0 s && bool_decide (INT64_MIN < t ≤ INT64_MAX)%Z
      then Ok (Some t) else Raise ValueError
  | None => Raise ValueError
  end.

(** [pd.to_datetime(series)]: the format is inferred from the first entry
    that is not missing, and every entry is read in it; a missing entry
    becomes [NaT]. *)
Definition to_datetime (os : list (option string)) : result (list Timestamp) :=
  mapM (λ o : option string,
          match o with
          | None => Ok None
          | Some s => to_timestamp (default s (first_entry os)) s
          end) os.

Definition load_cb_file (file : UploadedFile) : result DataFrame :=
  df ← read_table file;
  date ← getitem df "Date";
  time ← getitem df "Time";
  stamp ← str_cat date " " time;
  datetime ← to_datetime stamp;
  drop_columns ["Date"; "Time"] (setitem df "DATETIME" (Datetime datetime)).

Definition load_dc_file (file : UploadedFile) : result IndexedFrame :=
  df ← read_table file;
  set_index "CB_INDEX" df.

End Loaders.

(** [pd.read_csv] on an upload that has been read to its end: nothing is
    left to parse, an [EmptyDataError], which is a [ValueError].
    [pd.read_excel] goes back to the start of the upload before it
    reads, and reads it again. *)
Definition read_csv_at_end (file : UploadedFile) : result DataFrame :=
  Raise ValueError.

(** ** Session state and the two uploads of the welcome page *)

Section Uploads.

Variables read_csv read_excel : UploadedFile → result DataFrame.
Variable parse_datetime : string → option Z.
Variable same_format : string → string → bool.

Inductive Page := WELCOME | DASHBOARD.

Record SessionState := {
  page : Page;
  cb_df : option DataFrame;
  dc_df : option IndexedFrame;
  selected_scbs : list string
}.

Definition initial_state : SessionState :=
  {| page := WELCOME; cb_df := None; dc_df := None; selected_scbs := [] |}.

Definition store_cb (t : DataFrame) (ss : SessionState) : SessionState :=
  {| page := page ss; cb_df := Some t; dc_df := dc_df ss;
     selected_scbs := selected_scbs ss |}.

Definition store_dc (t : IndexedFrame) (ss : SessionState) : SessionState :=
  {| page := page ss; cb_df := cb_df ss; dc_df := Some t;
     selected_scbs := selected_scbs ss |}.

(** What the page shows: [st.success(msg)] or [st.error(msg)], without
    the icon the page puts before the message. *)
Inductive Notice :=
| success (msg : string)
| error (msg : string).

(** The outcome of one upload block: the session state, the flag
    [cb_ok]/[dc_ok] and the notices shown.  An exception anywhere in the
    block is caught and shown; its text is not modelled.  The block reads
    the upload for the validation and hands the same upload, now read to
    its end, to the loader, which reads it a second time. *)
Definition upload_cb (cb_file : UploadedFile) (ss : SessionState)
  : SessionState * bool * list Notice :=
  match read_table read_csv read_excel cb_file with
  | Raise _ => (ss, false, [error "Failed to read CB file"])
  | Ok df =>
      let '(ok, msg) := validate_cb_file df in
      if ok then
        match load_cb_file read_csv_at_end read_excel parse_datetime same_format cb_file with
        | Ok t => (store_cb t ss, true, [success msg])
        | Raise _ => (ss, false, [success msg; error "Failed to read CB file"])
        end
      else (ss, false, [error msg])
  end.

Definition upload_dc (dc_file : UploadedFile) (ss : SessionState)
  : SessionState * bool * list Notice :=
  match read_table read_csv read_excel dc_file ≫= validate_dc_file with
  | Raise _ => (ss, false, [error "Failed to read DC file"])
  | Ok (true, msg) =>
      match load_dc_file read_csv_at_end read_excel dc_file with
      | Ok t => (store_dc t ss, true, [success msg])
      | Raise _ => (ss, false, [success msg; error "Failed to read DC file"])
      end
  | Ok (false, msg) => (ss, false, [error msg])
  end.

End Uploads.

(** ** The dashboard: time filter *)

Inductive DateOption := All | Today | Last7Days | Last15Days | Custom.

#[global] Instance DateOption_eq_dec : EqDecision DateOption.
Proof. solve_decision. Defined.

(** [{"Today": 0, "Last 7 Days": 7, "Last 15 Days": 15}[date_option]] *)
Definition days_of (date_option : DateOption) : result Z :=
  match date_option with
  | Today => Ok 0%Z
  | Last7Days => Ok 7%Z
  | Last15Days => Ok 15%Z
  | _ => Raise KeyError
  end.

(** [df["DATETIME"].dt] *)
Definition datetime_column (df : DataFrame) : result (list Timestamp) :=
  c ← getitem df "DATETIME";
  as_datetime c.

(** [df["DATETIME"]] as the operand of [.max()], of the difference with
    a [timedelta] and of [>=] *)
Definition instants_column (df : DataFrame) : result (list Timestamp) :=
  c ← getitem df "DATETIME";
  as_instants c.

(** The frame that reaches channel discovery: the copy of the loaded
    table after the date range chosen in the sidebar.  [start_date] and
    [end_date] are the two date inputs, in days since the epoch. *)
Definition time_filter (date_option : DateOption) (start_date end_date : Z)
    (df : DataFrame) : result DataFrame :=
  if decide (date_option = Custom) then
    lo ← datetime_column df;
    from ← dates_ge lo start_date;
    hi ← datetime_column df;
    upto ← dates_le hi end_date;
    Ok (boolean_index (zip_with andb from upto) df)
  else if decide (date_option ≠ All) then
    max_dt ← series_max <$> instants_column df;
    days ← days_of date_option;
    ts ← instants_column df;
    bound ← ts_sub max_dt (timedelta days);
    Ok (boolean_index ((λ t, ts_ge t bound) <$> ts) df)
  else Ok df.

(** [df = st.session_state.cb_df.copy()] followed by the date range: the
    frame the sidebar hands to [get_scb_columns] and, later, to
    [apply_threshold].  Before any upload [cb_df] is [None], which has no
    [copy]. *)
Definition sidebar_frame (ss : SessionState) (date_option : DateOption)
    (start_date end_date : Z) : result DataFrame :=
  match cb_df ss with
  | Some df => time_filter date_option start_date end_date df
  | None => Raise AttributeError
  end.

(** ** The dashboard: normalised view *)

Inductive ViewMode := RawCurrent | NormalizedCurrent.

(** The loop
    [for scb in selected: if scb in dc_df.index: plot_df[scb] /= dc_df.loc[scb, "STRINGS"]]. *)
Fixpoint normalize (dc_df : IndexedFrame) (plot_df : DataFrame)
    (selected : list string) : result DataFrame :=
  match selected with
  | [] => Ok plot_df
  | scb :: rest =>
      if index_contains dc_df scb then
        c ← getitem plot_df scb;
        d ← loc dc_df scb "STRINGS";
        q ← series_div c d;
        normalize dc_df (setitem plot_df scb q) rest
      else normalize dc_df plot_df rest
  end.

(** [plot_df] as handed to the chart. *)
Definition plot_frame (mode : ViewMode) (dc_df : IndexedFrame) (df : DataFrame)
    (selected : list string) : result DataFrame :=
  match mode with
  | NormalizedCurrent => normalize dc_df df selected
  | RawCurrent => Ok df
  end.

(** ** The chart *)

Definition NAVY_BG : string := "#0B1F33".
Definition WHITE_BG : string := "#FFFFFF".
Definition TEXT_LIGHT : string := "#F5F7FA".
Definition TEXT_DARK : string := "#1F2937".

(** One [go.Scatter] trace of the figure. *)
Record Trace := {
  trace_x : column;
  trace_y : column;
  trace_mode : string;
  trace_name : string
}.

(** The arguments of [fig.update_layout]: the margin is [(l, r, t, b)]
    and the legend position is [(x, y)]. *)
Record Layout := {
  height : Z;
  hovermode : string;
  legend : float * float;
  margin : Z * Z * Z * Z;
  plot_bgcolor : string;
  paper_bgcolor : string;
  font_color : string
}.

Record Figure := { data : list Trace; layout : Layout }.

(** The loop of [plot_timeseries]: one [fig.add_trace] for each channel. *)
Fixpoint add_traces (df : DataFrame) (scbs : list string) (traces : list Trace)
  : result (list Trace) :=
  match scbs with
  | [] => Ok traces
  | scb :: rest =>
      x ← getitem df "DATETIME";
      y ← getitem df scb;
      add_traces df rest
        (traces ++ [{| trace_x := x; trace_y := y; trace_mode := "lines";
                       trace_name := scb |}])
  end.

Definition plot_timeseries (df : DataFrame) (scbs : list string) : result Figure :=
  traces ← add_traces df scbs [];
  Ok {| data := traces;
        layout := {| height := 420; hovermode := "x unified";
                     legend := (1.02%float, 1%float);
                     margin := (40, 260, 20, 40)%Z;
                     plot_bgcolor := WHITE_BG; paper_bgcolor := WHITE_BG;
                     font_color := TEXT_DARK |} |}.

(** ** The two pages and the router *)

Definition with_page (p : Page) (ss : SessionState) : SessionState :=
  {| page := p; cb_df := cb_df ss; dc_df := dc_df ss;
     selected_scbs := selected_scbs ss |}.

Definition with_selected (scbs : list string) (ss : SessionState) : SessionState :=
  {| page := page ss; cb_df := cb_df ss; dc_df := dc_df ss;
     selected_scbs := scbs |}.

(** [st.button(label, disabled=d)]: whether the button was clicked in
    this run; a disabled button cannot be. *)
Definition button (clicked disabled : bool) : bool := clicked && negb disabled.

(** What the widgets of the welcome page hold in one run of the script:
    the two uploaders and the click on "Proceed to Dashboard". *)
Record WelcomeInputs := {
  cb_file : option UploadedFile;
  dc_file : option UploadedFile;
  proceed_clicked : bool
}.

(** What the widgets of the dashboard hold in one run.  [scb_checkbox]
    answers for the checkbox of a channel, given its label and the
    default it is created with; nothing is assumed about the answer. *)
Record DashboardInputs := {
  threshold_input : float;
  date_option_input : DateOption;
  start_date_input : Z;
  end_date_input : Z;
  remove_inactive_input : bool;
  select_all_clicked : bool;
  clear_all_clicked : bool;
  scb_checkbox : string → bool → bool;
  back_clicked : bool;
  mode_input : ViewMode
}.

(** How a run of a page ends: the chart is shown, the script is run
    again ([st.rerun()]), or an exception stops the run. *)
Inductive Outcome :=
| Rendered (fig : Figure)
| Rerun
| Failed (e : exn).

(** The call [df = apply_threshold(df, scbs, threshold)] on a frame of
    the dashboard, which no other name refers to. *)
Definition call_apply_threshold (df : DataFrame) (scbs : list string)
    (threshold : float) : result DataFrame :=
  match apply_threshold 0 scbs threshold {[ 0 := df ]} with
  | (Ok r, h) =>
      match h !! r with
      | Some T => Ok T
      | None => Raise NameError
      end
  | (Raise e, _) => Raise e
  end.

(** "Select All", "Clear All" and the checkboxes of the channels. *)
Definition select_scbs (inp : DashboardInputs) (scbs : list string)
    (ss : SessionState) : SessionState :=
  let ss := if button (select_all_clicked inp) false
            then with_selected scbs ss else ss in
  let ss := if button (clear_all_clicked inp) false
            then with_selected [] ss else ss in
  let selected :=
    List.filter
      (λ scb, scb_checkbox inp scb (bool_decide (scb ∈ selected_scbs ss))) scbs in
  with_selected selected ss.

(** The main content of the dashboard: threshold, view mode and chart.
    The capacity table is looked at for a selected channel of the
    normalised view only. *)
Definition main_content (inp : DashboardInputs) (df : DataFrame)
    (ss : SessionState) : result Figure :=
  df ← call_apply_threshold df (selected_scbs ss) (threshold_input inp);
  plot_df ← match dc_df ss with
            | Some dc => plot_frame (mode_input inp) dc df (selected_scbs ss)
            | None =>
                match mode_input inp, selected_scbs ss with
                | NormalizedCurrent, _ :: _ => Raise AttributeError
                | _, _ => Ok df
                end
            end;
  plot_timeseries plot_df (selected_scbs ss).

Definition dashboard_page (inp : DashboardInputs) (ss : SessionState)
  : SessionState * Outcome :=
  match sidebar_frame ss (date_option_input inp) (start_date_input inp)
                      (end_date_input inp) with
  | Raise e => (ss, Failed e)
  | Ok df =>
      match (if remove_inactive_input inp
             then remove_inactive df (get_scb_columns df)
             else Ok (get_scb_columns df)) with
      | Raise e => (ss, Failed e)
      | Ok scbs =>
          let ss := select_scbs inp scbs ss in
          if button (back_clicked inp) false then (with_page WELCOME ss, Rerun)
          else
            match main_content inp df ss with
            | Ok fig => (ss, Rendered fig)
            | Raise e => (ss, Failed e)
            end
      end
  end.

Section App.

Variables read_csv read_excel : UploadedFile → result DataFrame.
Variable parse_datetime : string → option Z.
Variable same_format : string → string → bool.

(** The two upload blocks and the button of the welcome page; the flags
    [cb_ok] and [dc_ok] start at [False] in every run. *)
Definition welcome_page (inp : WelcomeInputs) (ss : SessionState)
  : SessionState * list Notice :=
  let '(ss, cb_ok, shown_cb) :=
    match cb_file inp with
    | Some f => upload_cb read_csv read_excel parse_datetime same_format f ss
    | None => (ss, false, [])
    end in
  let '(ss, dc_ok, shown_dc) :=
    match dc_file inp with
    | Some f => upload_dc read_csv read_excel f ss
    | None => (ss, false, [])
    end in
  if button (proceed_clicked inp) (negb (cb_ok && dc_ok))
  then (with_page DASHBOARD ss, (shown_cb ++ shown_dc)%list)
  else (ss, (shown_cb ++ shown_dc)%list).

(** One run of the script: the router shows the page the session is on. *)
Definition run (w : WelcomeInputs) (d : DashboardInputs) (ss : SessionState)
  : SessionState :=
  match page ss with
  | WELCOME => (welcome_page w ss).1
  | DASHBOARD => (dashboard_page d ss).1
  end.

(** A session: the runs of the script from the first one on. *)
Fixpoint session (inputs : list (WelcomeInputs * DashboardInputs))
    (ss : SessionState) : SessionState :=
  match inputs with
  | [] => ss
  | (w, d) :: rest => session rest (run w d ss)
  end.

End App.

(** ** Reference notions used in the statements *)

(** What [np.where(v > threshold, 0, v)] leaves of one value. *)
Definition suppressed (threshold v : float) : float :=
  if (threshold <? v)%float then 0%float else v.

(** A computation that writes to no frame but [df], and keeps [df]. *)
Definition writes_only {A} (df : ref) (m : M A) : Prop :=
  ∀ (h : gmap nat DataFrame) res h', m h = (res, h') →
    (∀ q, q ≠ df → h' !! q = h !! q) ∧ (is_Some (h !! df) → is_Some (h' !! df)).

(** [v == 0] for one cell: only a number can be equal to zero, and both
    signed zeros are. *)
Definition cell_eq_zero (v : cell) : bool :=
  match v with
  | CFloat x => (x =? 0)%float
  | _ => false
  end.

(** [pd.isnull(v)] for one cell. *)
Definition cell_isnull (v : cell) : bool :=
  match v with
  | CFloat x => is_nan x
  | CTime t => bool_decide (t = None)
  | CObj o => bool_decide (o = None)
  end.

(** The positions a mask marks, counted from [i], in increasing order. *)
Fixpoint marked_from (i : nat) (mask : list bool) : list nat :=
  match mask with
  | [] => []
  | b :: mask' =>
      if b then i :: marked_from (S i) mask' else marked_from (S i) mask'
  end.

(** The cells of a column in the rows [idx], in the order of [idx]. *)
Definition take_rows (idx : list nat) (c : column) : list cell :=
  omap (λ i, cells c !! i) idx.

(** The latest instant of a column. *)
Definition latest (ts : list Timestamp) (m : Z) : Prop :=
  Some m ∈ ts ∧ ∀ t, Some t ∈ ts → (t ≤ m)%Z.

(** The latest instant of a column, if it has one, less [n] days is an
    instant pandas can hold. *)
Definition in_range (n : Z) (ts : list Timestamp) : Prop :=
  ∀ m, latest ts m → (INT64_MIN < m - n * NS_PER_DAY)%Z.


(** A column with rows, all of them without an instant. *)
Definition no_instant (ts : list Timestamp) : Prop :=
  ts ≠ [] ∧ ∀ t, t ∈ ts → t = None.

(** The tables a date range can be taken of: in the mode "Custom" a
    column that has rows has an instant; in a relative mode the window
    starts at an instant pandas can hold. *)
Definition date_range_ok (date_option : DateOption) (ts : list Timestamp) : Prop :=
  match date_option with
  | All => True
  | Today => in_range 0 ts
  | Last7Days => in_range 7 ts
  | Last15Days => in_range 15 ts
  | Custom => ts = [] ∨ ∃ t, Some t ∈ ts
  end.

(** What the date range checks before it selects rows: the start of the
    window in a relative mode, the kind of the calendar days in the mode
    "Custom". *)
Definition window_start (date_option : DateOption) (ts : list Timestamp)
  : result Timestamp :=
  match date_option with
  | All => Ok None
  | Today => ts_sub (series_max ts) (timedelta 0)
  | Last7Days => ts_sub (series_max ts) (timedelta 7)
  | Last15Days => ts_sub (series_max ts) (timedelta 15)
  | Custom => if all_NaT ts then Raise TypeError else Ok None
  end.

(** Whether the date range keeps a row with the instant [t], in a
    relative mode with a window that starts at [bound]. *)
Definition keeps (date_option : DateOption) (start_date end_date : Z)
    (bound : Timestamp) (t : Timestamp) : bool :=
  match date_option with
  | All => true
  | Custom => date_ge (dt_date t) start_date && date_le (dt_date t) end_date
  | _ => ts_ge t bound
  end.

(** The trace [plot_timeseries] draws for the channel [s] of [df]. *)
Definition trace_of (df : DataFrame) (s : string) (tr : Trace) : Prop :=
  trace_name tr = s ∧ trace_mode tr = "lines" ∧
  getitem df "DATETIME" = Ok (trace_x tr) ∧ getitem df s = Ok (trace_y tr).

(** What holds of a reading table and of a capacity table that the
    welcome page has stored, and of the session as a whole. *)
Definition cb_table_ok (T : DataFrame) : Prop :=
  (∃ ts, getitem T "DATETIME" = Ok (Datetime ts)) ∧
  ("Date" ∉ columns T) ∧ ("Time" ∉ columns T) ∧
  get_scb_columns T ≠ [].

Definition dc_table_ok (t : IndexedFrame) : Prop :=
  ("CB_INDEX" ∉ columns (body t)) ∧
  ∃ c, getitem (body t) "STRINGS" = Ok c ∧ ∀ v, v ∈ cells c → cell_isnull v = false.

Definition session_ok (ss : SessionState) : Prop :=
  (page ss = DASHBOARD → is_Some (cb_df ss) ∧ is_Some (dc_df ss)) ∧
  (∀ T, cb_df ss = Some T → cb_table_ok T) ∧
  (∀ t, dc_df ss = Some t → dc_table_ok t).

(** ** Tables used as concrete inputs *)

(** The readings of the end-to-end scenario of the specification, with
    three instants eight days apart in total. *)
Definition readings : DataFrame :=
  [ ("DATETIME", Datetime [Some 0%Z; Some (timedelta 1); Some (timedelta 8)]);
    ("CB_CURRENT_1", Float64 [50%float; 250%float; 10%float]);
    ("CB_CURRENT_2", Float64 [0%float; 0%float; 0%float]) ].

Definition store0 : gmap nat DataFrame := {[ 0%nat := readings ]}.

(** A capacity file that names one channel twice, and one whose string
    counts are zero and negative. *)
Definition dup_capacity : DataFrame :=
  [ ("CB_INDEX", Object [Some "CB_CURRENT_1"; Some "CB_CURRENT_1"]);
    ("STRINGS", Float64 [24%float; 12%float]) ].

Definition zero_capacity : DataFrame :=
  [ ("CB_INDEX", Object [Some "CB_CURRENT_1"; Some "CB_CURRENT_2"]);
    ("STRINGS", Float64 [0%float; (-3)%float]) ].

Definition dc_csv : UploadedFile :=
  {| name := "dc.csv"; payload := "CB_INDEX,STRINGS" |}.

(** The capacity template once loaded. *)
Definition capacity : IndexedFrame :=
  {| index := Object [Some "CB_CURRENT_1"; Some "CB_CURRENT_2"];
     body := [("STRINGS", Float64 [24%float; 24%float])] |}.

(** The two templates as uploads, as text and as workbooks; a reader of
    uploads that knows the templates by their file names; a reader of
    dates that knows the one row of the reading template (10:00 on 1
    January 2025, in nanoseconds), and one format of dates. *)
Definition cb_csv : UploadedFile :=
  {| name := "cb.csv"; payload := "Date,Time,CB_CURRENT_1,CB_CURRENT_2" |}.

Definition cb_xlsx : UploadedFile :=
  {| name := "cb.xlsx"; payload := "Date,Time,CB_CURRENT_1,CB_CURRENT_2" |}.

Definition dc_xlsx : UploadedFile :=
  {| name := "dc.xlsx"; payload := "CB_INDEX,STRINGS" |}.

Definition read_template (file : UploadedFile) : result DataFrame :=
  if decide (name file = "cb.csv") then Ok generate_cb_template
  else if decide (name file = "dc.csv") then Ok generate_dc_template
  else if decide (name file = "cb.xlsx") then Ok generate_cb_template
  else if decide (name file = "dc.xlsx") then Ok generate_dc_template
  else Raise ValueError.

Definition parse_template (s : string) : option Z :=
  if decide (s = "2025-01-01 10:00:00") then Some 1735725600000000000%Z else None.

Definition one_format (s0 s : string) : bool := true.

(** Readings taken one day after the least instant pandas can hold, and
    readings whose one row has no instant. *)
Definition early_readings : DataFrame :=
  [ ("DATETIME", Datetime [Some (INT64_MIN + 1 + NS_PER_DAY)%Z]);
    ("CB_CURRENT_1", Float64 [50%float]) ].

Definition undated_readings : DataFrame :=
  [ ("DATETIME", Datetime [None]);
    ("CB_CURRENT_1", Float64 [50%float]) ].

(** A run of the dashboard with the default threshold in which "Select
    All" is clicked, inactive channels are removed and every checkbox
    answers with its default; and a session that holds [readings]. *)
Definition show_all : DashboardInputs :=
  {| threshold_input := 200%float; date_option_input := All;
     start_date_input := 0; end_date_input := 0;
     remove_inactive_input := true;
     select_all_clicked := true; clear_all_clicked := false;
     scb_checkbox := λ _ v, v;
     back_clicked := false; mode_input := RawCurrent |}.

Definition on_dashboard : SessionState :=
  {| page := DASHBOARD; cb_df := Some readings; dc_df := Some capacity;
     selected_scbs := [] |}.



(** A reading file whose dates were read as numbers. *)
Definition numeric_dates : DataFrame :=
  [ ("Date", Float64 [20250101%float]);
    ("Time", Object [Some "10:00:00"]);
    ("CB_CURRENT_1", Float64 [10.5%float]) ].

(** * Properties *)

(** ** Floating-point order *)

Lemma SFcompare_antisym a b :
  SFcompare b a = option_map CompOpp (SFcompare a b).
Proof.
  destruct a as [[]|[]| |[] m1 e1], b as [[]|[]| |[] m2 e2]; simpl; try reflexivity;
    rewrite (Z.compare_antisym e2 e1); destruct (e2 ?= e1)%Z; simpl; try reflexivity;
    f_equal; rewrite (Pos.compare_cont_antisym m1 m2 Eq); simpl;
    rewrite ?CompOpp_involutive; reflexivity.
Qed.

Lemma leb_true_ltb_false (x y : float) :
  (x <=? y)%float = true → (y <? x)%float = false.
Proof.
  rewrite leb_spec, ltb_spec. unfold SFleb, SFltb.
  rewrite (SFcompare_antisym (Prim2SF x) (Prim2SF y)).
  by destruct (SFcompare (Prim2SF x) (Prim2SF y)) as [[]|].
Qed.

(** ** Frames *)

Lemma getitem_setitem_eq (df : DataFrame) k c :
  getitem (setitem df k c) k = Ok c.
Proof.
  induction df as [|[n c0] df IH]; simpl.
  - by rewrite decide_True.
  - destruct (decide (n = k)) as [->|Hne]; simpl.
    + by rewrite decide_True.
    + by rewrite decide_False.
Qed.

Lemma getitem_setitem_ne (df : DataFrame) k k' c :
  k ≠ k' → getitem (setitem df k c) k' = getitem df k'.
Proof.
  intros Hne. induction df as [|[n c0] df IH]; simpl.
  - by rewrite decide_False.
  - destruct (decide (n = k)) as [->|Hnk]; simpl.
    + by rewrite !decide_False.
    + by rewrite IH.
Qed.

Lemma getitem_Ok_elem_of (df : DataFrame) k c :
  getitem df k = Ok c → (k, c) ∈ df.
Proof.
  induction df as [|[n c0] df IH]; simpl; [done|].
  destruct (decide (n = k)) as [->|Hne].
  - intros [= ->]. left.
  - intros H. right. by apply IH.
Qed.

Lemma getitem_Ok_columns (df : DataFrame) k c :
  getitem df k = Ok c → k ∈ columns df.
Proof.
  intros H%getitem_Ok_elem_of. unfold columns.
  apply list_elem_of_fmap. by exists (k, c).
Qed.

Lemma getitem_columns (df : DataFrame) k :
  k ∈ columns df → ∃ c, getitem df k = Ok c.
Proof.
  unfold columns. induction df as [|[n c0] df IH]; simpl.
  - by intros ?%elem_of_nil.
  - destruct (decide (n = k)) as [->|Hne]; [by eauto|].
    intros [?|?]%elem_of_cons; [congruence|by apply IH].
Qed.

Lemma columns_setitem (df : DataFrame) k c :
  k ∈ columns df → columns (setitem df k c) = columns df.
Proof.
  unfold columns. induction df as [|[n c0] df IH]; simpl.
  - by intros ?%elem_of_nil.
  - destruct (decide (n = k)) as [->|Hne]; simpl; [done|].
    intros [?|?]%elem_of_cons; [congruence|]. f_equal. by apply IH.
Qed.

(** ** Threshold suppression *)

Lemma suppressed_idemp threshold v :
  suppressed threshold (suppressed threshold v) = suppressed threshold v.
Proof.
  unfold suppressed. destruct (threshold <? v)%float eqn:E.
  - by destruct (threshold <? 0)%float.
  - by rewrite E.
Qed.

Lemma np_where_gt (xs : list float) threshold :
  zip_with (λ (b : bool) v, if b then 0%float else v)
           ((λ v, (threshold <? v)%float) <$> xs) xs
  = suppressed threshold <$> xs.
Proof. induction xs as [|x xs IH]; [done|]. cbn [fmap list_fmap zip_with]. by f_equal. Qed.

Lemma threshold_column_Float64 (h : gmap nat DataFrame) df T threshold scb xs :
  h !! df = Some T →
  getitem T scb = Ok (Float64 xs) →
  threshold_column df threshold scb h
  = (Ok (), <[df := setitem T scb (Float64 (suppressed threshold <$> xs))]> h).
Proof.
  intros Hh Hg. unfold threshold_column, mbind, M_bind, df_getitem, df_setitem, lift.
  rewrite Hh, Hg. cbv beta iota. rewrite Hh, Hg. cbv beta iota.
  unfold series_gt, np_where. cbv beta iota. rewrite Hh. by rewrite np_where_gt.
Qed.

Lemma for_each_threshold (scbs : list string) threshold df :
  ∀ (h : gmap nat DataFrame) T,
    h !! df = Some T →
    (∀ s, s ∈ scbs → ∃ xs, getitem T s = Ok (Float64 xs)) →
    ∃ T', for_each scbs (threshold_column df threshold) h = (Ok (), <[df := T']> h) ∧
          columns T' = columns T ∧
          (∀ s, s ∉ scbs → getitem T' s = getitem T s) ∧
          (∀ s xs, s ∈ scbs → getitem T s = Ok (Float64 xs) →
                   getitem T' s = Ok (Float64 (suppressed threshold <$> xs))).
Proof.
  induction scbs as [|scb scbs IH]; intros h T Hh Hcols.
  - exists T. split_and!; [|done|done|].
    + simpl. unfold mret, M_ret. by rewrite insert_id.
    + by intros s xs ?%elem_of_nil.
  - destruct (Hcols scb) as [xs Hxs]; [left|].
    set (T1 := setitem T scb (Float64 (suppressed threshold <$> xs))).
    destruct (IH (<[df := T1]> h) T1) as (T' & Hrun & Hnames & Hout & Hin).
    { apply lookup_insert_eq. }
    { intros s Hs. destruct (decide (scb = s)) as [<-|Hne].
      - eexists. apply getitem_setitem_eq.
      - unfold T1. rewrite getitem_setitem_ne by done. apply Hcols. by right. }
    exists T'. split_and!.
    + simpl. unfold mbind, M_bind.
      rewrite (threshold_column_Float64 h df T threshold scb xs Hh Hxs).
      fold T1. rewrite Hrun. by rewrite insert_insert_eq.
    + rewrite Hnames. apply columns_setitem. by eapply getitem_Ok_columns.
    + intros s Hs. apply not_elem_of_cons in Hs as [Hne Hs].
      rewrite (Hout s Hs). unfold T1. by rewrite getitem_setitem_ne.
    + intros s ys Hs Hys. destruct (decide (s ∈ scbs)) as [Hin'|Hnin].
      * destruct (decide (scb = s)) as [<-|Hne].
        -- rewrite Hxs in Hys. injection Hys as <-.
           rewrite (Hin scb (suppressed threshold <$> xs) Hin' (getitem_setitem_eq _ _ _)).
           do 2 f_equal. rewrite <- list_fmap_compose. apply list_fmap_ext.
           intros i v _. apply suppressed_idemp.
        -- apply (Hin s ys Hin'). unfold T1. by rewrite getitem_setitem_ne.
      * apply elem_of_cons in Hs as [->|Hs]; [|done].
        rewrite (Hout scb Hnin). unfold T1. rewrite getitem_setitem_eq.
        rewrite Hxs in Hys. by injection Hys as <-.
Qed.

(** C1.  On a frame whose selected channels are numeric columns,
    [apply_threshold] returns a frame with the same columns in which, in
    every selected column, a value strictly above the threshold has become
    exactly [0] and a value at most the threshold is what it was, and in
    which every column that is not selected is the column of the input. *)
Theorem apply_threshold_spec (h : gmap nat DataFrame) (df : ref) (T : DataFrame)
    (scbs : list string) (threshold : float) :
  h !! df = Some T →
  (∀ s, s ∈ scbs → ∃ xs, getitem T s = Ok (Float64 xs)) →
  ∃ df' h' T',
    apply_threshold df scbs threshold h = (Ok df', h') ∧
    h' !! df' = Some T' ∧
    columns T' = columns T ∧
    (∀ s xs, s ∈ scbs → getitem T s = Ok (Float64 xs) →
       ∃ ys, getitem T' s = Ok (Float64 ys) ∧ length ys = length xs ∧
         ∀ i v, xs !! i = Some v →
           ((threshold <? v)%float = true → ys !! i = Some 0%float) ∧
           ((v <=? threshold)%float = true → ys !! i = Some v)) ∧
    (∀ s, s ∉ scbs → getitem T' s = getitem T s).
Proof.
  intros Hh Hcols.
  set (df' := fresh (dom h)).
  destruct (for_each_threshold scbs threshold df' (<[df' := T]> h) T)
    as (T' & Hrun & Hnames & Hout & Hin); [apply lookup_insert_eq|done|].
  exists df', (<[df' := T']> h), T'. split_and!; [| |done| |done].
  - unfold apply_threshold, mbind, M_bind, df_copy. rewrite Hh. cbv zeta.
    fold df'. rewrite Hrun. by rewrite insert_insert_eq.
  - apply lookup_insert_eq.
  - intros s xs Hs Hxs. exists (suppressed threshold <$> xs).
    split_and!; [by apply Hin|by rewrite length_fmap|].
    intros i v Hv. rewrite list_lookup_fmap, Hv. simpl. unfold suppressed. split.
    + by intros ->.
    + by intros ->%leb_true_ltb_false.
Qed.

Lemma apply_threshold_spec_witness :
  ∃ df' h' T',
    apply_threshold 0%nat ["CB_CURRENT_1"] 200%float store0 = (Ok df', h') ∧
    h' !! df' = Some T' ∧
    columns T' = columns readings ∧
    getitem T' "CB_CURRENT_2" = getitem readings "CB_CURRENT_2".
Proof.
  destruct (apply_threshold_spec store0 0%nat readings ["CB_CURRENT_1"] 200%float)
    as (df' & h' & T' & Hrun & Hh' & Hnames & _ & Hout).
  - reflexivity.
  - intros s ->%list_elem_of_singleton. eexists. reflexivity.
  - exists df', h', T'. split_and!; [done|done|done|].
    apply Hout. by intros [=]%list_elem_of_singleton.
Defined.

(** ** The input of [apply_threshold] is not mutated *)

Lemma writes_only_bind {A B} df (m : M A) (f : A → M B) :
  writes_only df m → (∀ a, writes_only df (f a)) → writes_only df (m ≫= f).
Proof.
  intros Hm Hf h res h' Hrun. unfold mbind, M_bind in Hrun.
  destruct (m h) as [[a|e] h1] eqn:E.
  - destruct (Hm _ _ _ E) as [Hm1 Hm2]. destruct (Hf a _ _ _ Hrun) as [Hf1 Hf2].
    split; [|by auto]. intros q Hq. by rewrite Hf1, Hm1.
  - injection Hrun as <- <-. by eapply Hm.
Qed.

Lemma writes_only_lift {A} df (r : result A) : writes_only df (lift r).
Proof. intros h res h' [= <- <-]. by split. Qed.

Lemma writes_only_ret {A} df (a : A) : writes_only df (mret a).
Proof. intros h res h' [= <- <-]. by split. Qed.

Lemma writes_only_getitem df k : writes_only df (df_getitem df k).
Proof.
  intros h res h' Hrun. unfold df_getitem in Hrun.
  destruct (h !! df) eqn:E; injection Hrun as <- <-; split; rewrite ?E; done.
Qed.

Lemma writes_only_setitem df k c : writes_only df (df_setitem df k c).
Proof.
  intros h res h' Hrun. unfold df_setitem in Hrun.
  destruct (h !! df) eqn:E; injection Hrun as <- <-; [|split; rewrite ?E; done]. split.
  - intros q Hq. by rewrite lookup_insert_ne.
  - intros _. rewrite lookup_insert_eq. by eexists.
Qed.

Lemma writes_only_threshold_column df threshold scb :
  writes_only df (threshold_column df threshold scb).
Proof.
  unfold threshold_column.
  repeat (apply writes_only_bind; [|intros ?]);
    auto using writes_only_getitem, writes_only_lift, writes_only_setitem.
Qed.

Lemma writes_only_for_each {A} df (xs : list A) (body : A → M unit) :
  (∀ x, writes_only df (body x)) → writes_only df (for_each xs body).
Proof.
  intros Hbody. induction xs as [|x xs IH]; simpl.
  - apply writes_only_ret.
  - by apply writes_only_bind.
Qed.

(** C8.  Whatever [apply_threshold] returns or raises, every frame that
    was in the store before the call, the input among them, holds
    afterwards what it held before; the frame returned is a new one. *)
Theorem apply_threshold_no_mutation (h : gmap nat DataFrame) (df : ref)
    (scbs : list string) (threshold : float) res h' :
  apply_threshold df scbs threshold h = (res, h') →
  (∀ q, is_Some (h !! q) → h' !! q = h !! q) ∧
  (∀ df', res = Ok df' → h !! df' = None ∧ is_Some (h' !! df') ∧ df' ≠ df).
Proof.
  intros Hrun. unfold apply_threshold, mbind, M_bind, df_copy in Hrun.
  destruct (h !! df) as [T|] eqn:Hh.
  - cbv zeta in Hrun. set (new := fresh (dom h)) in Hrun.
    assert (h !! new = None) as Hnew.
    { apply not_elem_of_dom. apply is_fresh. }
    destruct (for_each scbs (threshold_column new threshold) (<[new := T]> h))
      as [r h1] eqn:Hloop.
    destruct (writes_only_for_each new scbs _
                (writes_only_threshold_column new threshold) _ _ _ Hloop)
      as [Hother Hkept].
    assert (∀ q, is_Some (h !! q) → h1 !! q = h !! q) as Hold.
    { intros q Hq. assert (q ≠ new) by (intros ->; rewrite Hnew in Hq; by destruct Hq).
      rewrite Hother by done. by apply lookup_insert_ne. }
    destruct r as [[]|e]; injection Hrun as <- <-; (split; [exact Hold|]).
    + intros df' [= <-]. split_and!; [done| |congruence].
      apply Hkept. rewrite lookup_insert_eq. by eexists.
    + by intros df' [=].
  - injection Hrun as <- <-. split; [done|]. by intros df' [=].
Qed.

Lemma apply_threshold_no_mutation_witness :
  (apply_threshold 0%nat ["CB_CURRENT_1"] 200%float store0).2 !! 0%nat = Some readings.
Proof.
  destruct (apply_threshold 0%nat ["CB_CURRENT_1"] 200%float store0) as [res h'] eqn:E.
  destruct (apply_threshold_no_mutation store0 0%nat ["CB_CURRENT_1"] 200%float res h' E)
    as [Hold _].
  simpl. rewrite Hold; [reflexivity|]. by eexists.
Defined.

(** ** Inactive channels *)

Lemma series_eq_zero_cells (c : column) :
  series_eq_zero c = cell_eq_zero <$> cells c.
Proof. destruct c; simpl; by rewrite <- list_fmap_compose. Qed.

Lemma all_true_iff (bs : list bool) : all bs = true ↔ ∀ b, b ∈ bs → b = true.
Proof.
  unfold all. rewrite forallb_forall. setoid_rewrite <- list_elem_of_In. done.
Qed.

Lemma all_series_eq_zero (c : column) :
  all (series_eq_zero c) = true ↔ ∀ v, v ∈ cells c → cell_eq_zero v = true.
Proof.
  rewrite all_true_iff, series_eq_zero_cells. split.
  - intros H v Hv. apply H. apply list_elem_of_fmap. by exists v.
  - intros H b (v & -> & Hv)%list_elem_of_fmap. by apply H.
Qed.

Lemma remove_inactive_Ok (df : DataFrame) (scbs : list string) :
  (∀ s, s ∈ scbs → s ∈ columns df) →
  ∃ kept, remove_inactive df scbs = Ok kept ∧
    kept `sublist_of` scbs ∧
    ∀ s, s ∈ kept ↔
         s ∈ scbs ∧ ∃ c, getitem df s = Ok c ∧ all (series_eq_zero c) = false.
Proof.
  induction scbs as [|scb scbs IH]; intros Hcols.
  - exists []. split_and!; [done|done|]. intros s. split.
    + by intros ?%elem_of_nil.
    + by intros [?%elem_of_nil _].
  - destruct IH as (kept & Hrun & Hsub & Hmem).
    { intros s Hs. apply Hcols. by right. }
    destruct (getitem_columns df scb) as [c Hc]; [apply Hcols; left|].
    simpl. rewrite Hc, Hrun. simpl.
    destruct (all (series_eq_zero c)) eqn:Hz; simpl; eexists; (split; [done|]).
    + split; [by apply sublist_cons|]. intros s. rewrite Hmem, elem_of_cons. split.
      * intros [Hs Hact]. by split; [right|].
      * intros [[->|Hs] (c' & Hc' & Hact)]; [congruence|]. split; [done|by eauto].
    + split; [by apply sublist_skip|]. intros s. rewrite !elem_of_cons, Hmem. split.
      * intros [->|[Hs Hact]]; [by eauto|]. by split; [right|].
      * intros [[->|Hs] Hact]; [by left|by right].
Qed.

(** C2.  [remove_inactive] returns a subsequence of the channels it is
    given, in their order.  A channel whose column is zero in every row,
    which includes every channel of a frame without rows, is left out; a
    channel with a value that is not zero is kept. *)
Theorem remove_inactive_spec (df : DataFrame) (scbs : list string) :
  (∀ s, s ∈ scbs → s ∈ columns df) →
  ∃ kept, remove_inactive df scbs = Ok kept ∧
    kept `sublist_of` scbs ∧
    (∀ s c, s ∈ scbs → getitem df s = Ok c →
       ((∀ v, v ∈ cells c → cell_eq_zero v = true) → s ∉ kept) ∧
       ((∃ v, v ∈ cells c ∧ cell_eq_zero v = false) → s ∈ kept)) ∧
    (frame_wf df → nrows df = 0%nat → kept = []).
Proof.
  intros Hcols. destruct (remove_inactive_Ok df scbs Hcols) as (kept & Hrun & Hsub & Hmem).
  exists kept. split_and!; [done|done| |].
  - intros s c Hs Hc. split.
    + intros Hzero (_ & c' & Hc' & Hact)%Hmem.
      assert (c' = c) as -> by congruence.
      apply all_series_eq_zero in Hzero. congruence.
    + intros (v & Hv & Hnz). apply Hmem. split; [done|]. exists c. split; [done|].
      destruct (all (series_eq_zero c)) eqn:Hall; [|done].
      rewrite all_series_eq_zero in Hall. specialize (Hall v Hv). congruence.
  - intros [_ Hlen] Hrows. destruct kept as [|s kept]; [done|].
    assert (s ∈ s :: kept) as (_ & c & Hc & Hact)%Hmem by left.
    assert (cells c = []) as Hnil.
    { apply nil_length_inv. rewrite <- Hrows. eapply Hlen, getitem_Ok_elem_of, Hc. }
    rewrite series_eq_zero_cells, Hnil in Hact. done.
Qed.

Lemma remove_inactive_spec_witness :
  ∃ kept, remove_inactive readings ["CB_CURRENT_1"; "CB_CURRENT_2"] = Ok kept ∧
          "CB_CURRENT_1" ∈ kept ∧ "CB_CURRENT_2" ∉ kept.
Proof.
  destruct (remove_inactive_spec readings ["CB_CURRENT_1"; "CB_CURRENT_2"])
    as (kept & Hrun & _ & Hmem & _).
  - intros s Hs. unfold columns, readings. simpl.
    apply elem_of_cons in Hs as [->|Hs]; [right; left|].
    apply list_elem_of_singleton in Hs as ->. do 2 right; left.
  - exists kept. split_and!; [done| |].
    + eapply (Hmem "CB_CURRENT_1"); [left|reflexivity|].
      exists (CFloat 50%float). split; [left|reflexivity].
    + eapply (Hmem "CB_CURRENT_2"); [right; left|reflexivity|].
      intros v Hv. simpl in Hv. repeat (apply elem_of_cons in Hv as [->|Hv]; [reflexivity|]).
      by apply elem_of_nil in Hv.
Defined.

(** ** Boolean indexing keeps the marked rows *)

Lemma mask_select_nil_r {A} (mask : list bool) : mask_select mask (@nil A) = [].
Proof. by destruct mask. Qed.

Lemma mask_select_cons {A} b (mask : list bool) (x : A) xs :
  mask_select (b :: mask) (x :: xs)
  = if b then x :: mask_select mask xs else mask_select mask xs.
Proof.
  unfold mask_select. simpl. rewrite filter_cons. simpl.
  destruct b; by case_decide.
Qed.

Lemma mask_select_fmap {A B} (f : A → B) (mask : list bool) (xs : list A) :
  mask_select mask (f <$> xs) = f <$> mask_select mask xs.
Proof.
  revert xs. induction mask as [|b mask IH]; intros [|x xs]; try done.
  rewrite fmap_cons, !mask_select_cons, IH. by destruct b.
Qed.

Lemma marked_from_ge i mask j : j ∈ marked_from i mask → i ≤ j.
Proof.
  revert i. induction mask as [|b mask IH]; intros i; simpl.
  - by intros ?%elem_of_nil.
  - destruct b.
    + intros [->|Hj%IH]%elem_of_cons; lia.
    + intros Hj%IH. lia.
Qed.

Lemma marked_from_elem_of i mask j :
  j ∈ marked_from i mask ↔ ∃ k, j = i + k ∧ mask !! k = Some true.
Proof.
  revert i. induction mask as [|b mask IH]; intros i; simpl.
  - split; [by intros ?%elem_of_nil|by intros (k & _ & ?)].
  - assert (j ∈ marked_from (S i) mask ↔
            ∃ k, j = i + S k ∧ (b :: mask) !! S k = Some true) as Htail.
    { rewrite IH. split; intros (k & -> & Hk); exists k; (split; [lia|done]). }
    destruct b.
    + rewrite elem_of_cons, Htail. split.
      * intros [->|(k & -> & Hk)]; [exists 0; split; [lia|done]|by exists (S k)].
      * intros ([|k] & -> & Hk); [left; lia|right; by exists k].
    + rewrite Htail. split.
      * intros (k & -> & Hk). by exists (S k).
      * intros ([|k] & -> & Hk); [done|by exists k].
Qed.

Lemma marked_from_sorted i mask : StronglySorted lt (marked_from i mask).
Proof.
  revert i. induction mask as [|b mask IH]; intros i; simpl; [constructor|].
  destruct b; [|done]. constructor; [done|].
  apply Forall_forall. intros j Hj%marked_from_ge. lia.
Qed.

Lemma omap_None {A B} (f : A → option B) l : (∀ x, f x = None) → omap f l = [].
Proof.
  intros Hf. induction l as [|x l IH]; [done|]. simpl. rewrite Hf. exact IH.
Qed.

Lemma mask_select_marked {A} (mask : list bool) (xs : list A) i :
  mask_select mask xs = omap (λ j, xs !! (j - i)) (marked_from i mask).
Proof.
  revert xs i. induction mask as [|b mask IH]; intros xs i; [by destruct xs|].
  destruct xs as [|x xs].
  - rewrite mask_select_nil_r. symmetry. by apply omap_None.
  - rewrite mask_select_cons, (IH xs (S i)). simpl.
    assert (omap (λ j, xs !! (j - S i)) (marked_from (S i) mask)
            = omap (λ j, (x :: xs) !! (j - i)) (marked_from (S i) mask)) as ->.
    { apply list_omap_ext, Forall_Forall2_diag, Forall_forall.
      intros j Hj%marked_from_ge. by replace (j - i) with (S (j - S i)) by lia. }
    destruct b; [|done]. simpl. by rewrite Nat.sub_diag.
Qed.

Lemma cells_column_mask mask c idx :
  idx = marked_from 0 mask → cells (column_mask mask c) = take_rows idx c.
Proof.
  intros ->. unfold take_rows. rewrite <- (list_omap_ext (λ j, cells c !! (j - 0))
    (λ i, cells c !! i) (marked_from 0 mask) (marked_from 0 mask)).
  - rewrite <- mask_select_marked. destruct c; simpl; by rewrite mask_select_fmap.
  - apply Forall_Forall2_diag, Forall_forall. intros j _. by rewrite Nat.sub_0_r.
Qed.

Lemma columns_boolean_index mask (df : DataFrame) :
  columns (boolean_index mask df) = columns df.
Proof.
  unfold columns, boolean_index. rewrite <- list_fmap_compose.
  apply list_fmap_ext. by intros i [k c] _.
Qed.

Lemma getitem_boolean_index mask (df : DataFrame) k :
  getitem (boolean_index mask df) k = column_mask mask <$> getitem df k.
Proof.
  induction df as [|[n c] df IH]; simpl; [done|].
  destruct (decide (n = k)); [done|apply IH].
Qed.

(** The frame [df[keep(df["DATETIME"])]] consists of the rows of [df]
    whose instant satisfies [keep], in their order. *)
Lemma boolean_index_rows (df : DataFrame) (keep : Timestamp → bool) ts :
  ∃ idx,
    StronglySorted lt idx ∧
    (∀ i, i ∈ idx ↔ ∃ t, ts !! i = Some t ∧ keep t = true) ∧
    columns (boolean_index (keep <$> ts) df) = columns df ∧
    ∀ k c, getitem df k = Ok c →
      ∃ c', getitem (boolean_index (keep <$> ts) df) k = Ok c' ∧
            cells c' = take_rows idx c.
Proof.
  exists (marked_from 0 (keep <$> ts)). split_and!.
  - apply marked_from_sorted.
  - intros i. rewrite marked_from_elem_of. split.
    + intros (k & -> & Hk). simpl. rewrite list_lookup_fmap in Hk.
      destruct (ts !! k) as [t|]; [|done]. exists t. split; [done|]. by injection Hk.
    + intros (t & Ht & Hkeep). exists i. split; [done|].
      by rewrite list_lookup_fmap, Ht, <- Hkeep.
  - apply columns_boolean_index.
  - intros k c Hc. exists (column_mask (keep <$> ts) c). split.
    + by rewrite getitem_boolean_index, Hc.
    + by apply cells_column_mask.
Qed.

(** ** The date range *)

Lemma series_max_None ts : series_max ts = None → ∀ t, t ∈ ts → t = None.
Proof.
  induction ts as [|[x|] ts IH]; simpl.
  - by intros _ t ?%elem_of_nil.
  - by destruct (series_max ts).
  - intros H t [->|Ht]%elem_of_cons; [done|by apply IH].
Qed.

Lemma series_max_Some ts m :
  series_max ts = Some m → Some m ∈ ts ∧ ∀ t, Some t ∈ ts → (t ≤ m)%Z.
Proof.
  revert m. induction ts as [|[x|] ts IH]; intros m; simpl.
  - done.
  - destruct (series_max ts) as [y|] eqn:Hmax; simpl; intros [= <-].
    + destruct (IH y eq_refl) as [Hin Hub]. split.
      * destruct (Z.max_spec x y) as [[_ ->]|[_ ->]]; [by right|left].
      * intros t [[= ->]|Ht%Hub]%elem_of_cons; lia.
    + split; [left|]. intros t [[= ->]|Ht]%elem_of_cons; [lia|].
      by apply (series_max_None ts Hmax) in Ht.
  - intros [Hin Hub]%IH. split; [by right|].
    intros t [?|Ht]%elem_of_cons; [done|by apply Hub].
Qed.

Lemma series_max_is_max ts m :
  Some m ∈ ts → (∀ t, Some t ∈ ts → (t ≤ m)%Z) → series_max ts = Some m.
Proof.
  intros Hin Hub. destruct (series_max ts) as [m'|] eqn:Hmax.
  - destruct (series_max_Some ts m' Hmax) as [Hin' Hub'].
    f_equal. apply Z.le_antisymm; auto.
  - by apply (series_max_None ts Hmax) in Hin.
Qed.

Lemma zip_with_fmap_same {A B C D} (f : B → C → D) (g1 : A → B) (g2 : A → C) l :
  zip_with f (g1 <$> l) (g2 <$> l) = (λ x, f (g1 x) (g2 x)) <$> l.
Proof. induction l as [|x l IH]; [done|]. cbn [fmap list_fmap zip_with]. by f_equal. Qed.

Lemma datetime_column_Ok (df : DataFrame) ts :
  getitem df "DATETIME" = Ok (Datetime ts) → datetime_column df = Ok ts.
Proof. intros H. unfold datetime_column. by rewrite H. Qed.

Lemma instants_column_Ok (df : DataFrame) ts :
  getitem df "DATETIME" = Ok (Datetime ts) → instants_column df = Ok ts.
Proof. intros H. unfold instants_column. by rewrite H. Qed.

(** ** Instants that pandas can hold *)

Lemma ts_sub_in_range (m delta : Z) :
  (INT64_MIN < m - delta)%Z → ts_sub (Some m) delta = Ok (Some (m - delta)%Z).
Proof.
  intros Hr. unfold ts_sub. destruct (bool_decide (m ≤ INT64_MIN)%Z); [done|].
  rewrite bool_decide_eq_false_2 by lia. by rewrite bool_decide_eq_false_2 by lia.
Qed.


Lemma ts_sub_zero (t : Timestamp) : ts_sub t (timedelta 0) = Ok t.
Proof.
  destruct t as [x|]; [|done]. unfold ts_sub, timedelta.
  replace (x - 0 * NS_PER_DAY)%Z with x by lia.
  destruct (bool_decide (x ≤ INT64_MIN)%Z) eqn:E; [done|].
  apply bool_decide_eq_false in E.
  rewrite bool_decide_eq_false_2 by lia. by rewrite bool_decide_eq_false_2 by lia.
Qed.

(** A difference that is returned is [NaT] or the difference of the
    counts. *)
Lemma ts_sub_Ok (t : Timestamp) (delta : Z) (b : Timestamp) :
  ts_sub t delta = Ok b → b = None ∨ ∃ x, t = Some x ∧ b = Some (x - delta)%Z.
Proof.
  destruct t as [x|]; simpl; [|intros [= <-]; by left].
  repeat case_bool_decide; intros [= <-]; eauto.
Qed.

Lemma all_NaT_true (ts : list Timestamp) : all_NaT ts = true ↔ no_instant ts.
Proof.
  unfold all_NaT, no_instant.
  rewrite andb_true_iff, negb_true_iff, bool_decide_eq_false, forallb_forall.
  setoid_rewrite <- list_elem_of_In. by setoid_rewrite bool_decide_eq_true.
Qed.

Lemma all_NaT_false (ts : list Timestamp) :
  ts = [] ∨ (∃ t, Some t ∈ ts) → all_NaT ts = false.
Proof.
  intros H. apply not_true_iff_false. rewrite all_NaT_true. intros [Hne Hall].
  destruct H as [->|[t Ht]]; [done|]. by apply Hall in Ht.
Qed.

Lemma latest_series_max (ts : list Timestamp) (m : Z) :
  latest ts m ↔ series_max ts = Some m.
Proof.
  split.
  - intros [Hin Hub]. by apply series_max_is_max.
  - apply series_max_Some.
Qed.

Lemma window_in_range (n : Z) (ts : list Timestamp) :
  in_range n ts →
  ts_sub (series_max ts) (timedelta n)
  = Ok ((λ m, (m - n * NS_PER_DAY)%Z) <$> series_max ts).
Proof.
  intros Hr. destruct (series_max ts) as [m|] eqn:Hmax; [|done].
  apply ts_sub_in_range. unfold timedelta. by apply Hr, latest_series_max.
Qed.


(** What the date range does to a table with instants [ts]. *)
Lemma time_filter_run (df : DataFrame) date_option start_date end_date ts :
  getitem df "DATETIME" = Ok (Datetime ts) →
  time_filter date_option start_date end_date df
  = bound ← window_start date_option ts;
    Ok (match date_option with
        | All => df
        | _ => boolean_index (keeps date_option start_date end_date bound <$> ts) df
        end).
Proof.
  intros Hts. unfold time_filter.
  rewrite (datetime_column_Ok df ts Hts), (instants_column_Ok df ts Hts).
  destruct date_option; try reflexivity.
  rewrite decide_True by done. cbn [mbind result_bind window_start].
  unfold dates_ge, dates_le. destruct (all_NaT ts); [done|].
  cbn [mbind result_bind]. by rewrite zip_with_fmap_same.
Qed.

Lemma window_start_Ok date_option (ts : list Timestamp) :
  date_range_ok date_option ts →
  window_start date_option ts
  = Ok (match date_option with
        | Today => (λ m, (m - 0 * NS_PER_DAY)%Z) <$> series_max ts
        | Last7Days => (λ m, (m - 7 * NS_PER_DAY)%Z) <$> series_max ts
        | Last15Days => (λ m, (m - 15 * NS_PER_DAY)%Z) <$> series_max ts
        | _ => None
        end).
Proof.
  destruct date_option; simpl; try done; try apply window_in_range.
  intros H. by rewrite all_NaT_false.
Qed.

(** C5, as the specification has it, fails on a table whose readings
    were taken one day after the least instant pandas can hold: the
    start of the window of "Last 7 Days" lies before that instant, and
    the filter raises [OutOfBoundsDatetime], a [ValueError], where the
    claim has it retain the one row. *)
Lemma time_filter_last_days_counterexample :
  getitem early_readings "DATETIME"
  = Ok (Datetime [Some (INT64_MIN + 1 + NS_PER_DAY)%Z]) ∧
  latest [Some (INT64_MIN + 1 + NS_PER_DAY)%Z] (INT64_MIN + 1 + NS_PER_DAY) ∧
  time_filter Last7Days 0 0 early_readings = Raise ValueError ∧
  ¬ ∃ df', time_filter Last7Days 0 0 early_readings = Ok df'.
Proof.
  split_and!; [reflexivity| |reflexivity|by intros [df' [=]]].
  split; [left|]. by intros t [[= ->]|?%elem_of_nil]%elem_of_cons.
Qed.

(** C5, with the range of instants.  In the modes "Today", "Last 7
    Days" and "Last 15 Days", with [N] = 0, 7 and 15, on a table whose
    latest instant less [N] days is an instant pandas can hold, the
    filter keeps the rows whose instant is at least the latest instant of
    the table less [N] days, and no other row, in their order; a row that
    lies exactly [N] days before the latest instant is kept. *)
Theorem time_filter_last_days (df : DataFrame) (date_option : DateOption) (N : Z)
    (start_date end_date : Z) (ts : list Timestamp) (m : Z) :
  (date_option, N) ∈ [(Today, 0%Z); (Last7Days, 7%Z); (Last15Days, 15%Z)] →
  getitem df "DATETIME" = Ok (Datetime ts) →
  Some m ∈ ts →
  (∀ t, Some t ∈ ts → (t ≤ m)%Z) →
  (INT64_MIN < m - N * NS_PER_DAY)%Z →
  ∃ df' idx,
    time_filter date_option start_date end_date df = Ok df' ∧
    columns df' = columns df ∧
    StronglySorted lt idx ∧
    (∀ i, i ∈ idx ↔ ∃ t, ts !! i = Some (Some t) ∧ (m - N * NS_PER_DAY ≤ t)%Z) ∧
    (∀ k c, getitem df k = Ok c →
            ∃ c', getitem df' k = Ok c' ∧ cells c' = take_rows idx c) ∧
    (∀ i, ts !! i = Some (Some (m - N * NS_PER_DAY)%Z) → i ∈ idx).
Proof.
  intros Hmode Hts Hin Hub Hrange.
  set (keep := λ t : Timestamp, ts_ge t (Some (m - N * NS_PER_DAY)%Z)).
  assert (time_filter date_option start_date end_date df
          = Ok (boolean_index (keep <$> ts) df)) as Hrun.
  { rewrite (time_filter_run df _ _ _ ts Hts).
    assert (ts_sub (series_max ts) (timedelta N) = Ok (Some (m - N * NS_PER_DAY)%Z))
      as Hbound.
    { rewrite (series_max_is_max ts m Hin Hub). by apply ts_sub_in_range. }
    repeat (apply elem_of_cons in Hmode as [[= -> ->]|Hmode];
            [cbn [window_start]; by rewrite Hbound|]).
    by apply elem_of_nil in Hmode. }
  destruct (boolean_index_rows df keep ts) as (idx & Hsorted & Hmem & Hcols & Hrows).
  assert (∀ i, i ∈ idx ↔ ∃ t, ts !! i = Some (Some t) ∧ (m - N * NS_PER_DAY ≤ t)%Z)
    as Hmem'.
  { intros i. rewrite Hmem. unfold keep, ts_ge. split.
    - intros ([t|] & Ht & Hk); [|done]. exists t. split; [done|].
      by apply bool_decide_eq_true in Hk.
    - intros (t & Ht & Hle). exists (Some t). split; [done|].
      by apply bool_decide_eq_true. }
  exists (boolean_index (keep <$> ts) df), idx. split_and!; try done.
  intros i Hi. apply Hmem'. eexists. split; [done|lia].
Qed.

Lemma time_filter_last_days_witness :
  ∃ df' idx,
    time_filter Last7Days 0 0 readings = Ok df' ∧
    (∀ i, i ∈ idx ↔ ∃ t, [Some 0%Z; Some (timedelta 1); Some (timedelta 8)] !! i
                          = Some (Some t) ∧ (timedelta 8 - 7 * NS_PER_DAY ≤ t)%Z) ∧
    (∀ k c, getitem readings k = Ok c →
            ∃ c', getitem df' k = Ok c' ∧ cells c' = take_rows idx c) ∧
    1 ∈ idx.
Proof.
  destruct (time_filter_last_days readings Last7Days 7 0 0
              [Some 0%Z; Some (timedelta 1); Some (timedelta 8)] (timedelta 8))
    as (df' & idx & Hrun & _ & _ & Hmem & Hrows & Hedge).
  - right; left.
  - reflexivity.
  - do 2 right; left.
  - intros t Ht. repeat (apply elem_of_cons in Ht as [[= ->]|Ht]; [by vm_compute|]).
    by apply elem_of_nil in Ht.
  - by vm_compute.
  - exists df', idx. split_and!; [done|done|done|]. by apply Hedge.
Defined.

(** C6, as the specification has it, fails on a table whose one row has
    no instant: with a start date after the end date the filter raises
    [TypeError] at the comparison with the start date, where the claim
    has it return a table with zero rows and raise nothing. *)
Lemma time_filter_custom_counterexample :
  getitem undated_readings "DATETIME" = Ok (Datetime [None]) ∧
  time_filter Custom 5 1 undated_readings = Raise TypeError ∧
  ¬ ∃ df', time_filter Custom 5 1 undated_readings = Ok df' ∧ nrows df' = 0.
Proof.
  split_and!; [reflexivity|reflexivity|by intros [df' [[=] _]]].
Qed.

(** C6, on a column that has an instant.  In the mode "Custom", on a
    table whose [DATETIME] column has no rows or has an instant in some
    row, the filter keeps the rows whose calendar day lies between the
    start and the end date, both included, and no other row, in their
    order; it raises nothing, and when the start date is after the end
    date the frame it returns has no rows. *)
Theorem time_filter_custom (df : DataFrame) (start_date end_date : Z)
    (ts : list Timestamp) :
  getitem df "DATETIME" = Ok (Datetime ts) →
  ts = [] ∨ (∃ t, Some t ∈ ts) →
  ∃ df' idx,
    time_filter Custom start_date end_date df = Ok df' ∧
    columns df' = columns df ∧
    StronglySorted lt idx ∧
    (∀ i, i ∈ idx ↔ ∃ t, ts !! i = Some (Some t) ∧
                         (start_date ≤ t `div` NS_PER_DAY ≤ end_date)%Z) ∧
    (∀ k c, getitem df k = Ok c →
            ∃ c', getitem df' k = Ok c' ∧ cells c' = take_rows idx c) ∧
    ((end_date < start_date)%Z →
       idx = [] ∧ nrows df' = 0 ∧ ∀ k c', getitem df' k = Ok c' → cells c' = []).
Proof.
  intros Hts Hdated.
  set (keep := λ t : Timestamp,
         date_ge (dt_date t) start_date && date_le (dt_date t) end_date).
  assert (time_filter Custom start_date end_date df
          = Ok (boolean_index (keep <$> ts) df)) as Hrun.
  { rewrite (time_filter_run df _ _ _ ts Hts). cbn [window_start].
    by rewrite (all_NaT_false ts Hdated). }
  destruct (boolean_index_rows df keep ts) as (idx & Hsorted & Hmem & Hcols & Hrows).
  assert (∀ i, i ∈ idx ↔ ∃ t, ts !! i = Some (Some t) ∧
                              (start_date ≤ t `div` NS_PER_DAY ≤ end_date)%Z) as Hmem'.
  { intros i. rewrite Hmem. unfold keep, date_ge, date_le, dt_date. split.
    - intros ([t|] & Ht & Hk); [|done]. exists t. split; [done|]. simpl in Hk.
      apply andb_true_iff in Hk as [H1%bool_decide_eq_true H2%bool_decide_eq_true]. lia.
    - intros (t & Ht & Hle). exists (Some t). split; [done|]. simpl.
      apply andb_true_iff. split; apply bool_decide_eq_true; lia. }
  exists (boolean_index (keep <$> ts) df), idx. split_and!; try done.
  intros Hinv.
  assert (idx = []) as ->.
  { destruct idx as [|i idx]; [done|].
    assert (i ∈ i :: idx) as (t & _ & Hle)%Hmem' by left. lia. }
  assert (∀ k c', getitem (boolean_index (keep <$> ts) df) k = Ok c' → cells c' = [])
    as Hempty.
  { intros k c' Hc'.
    destruct (getitem_columns df k) as [c Hc].
    { rewrite <- Hcols. by eapply getitem_Ok_columns. }
    destruct (Hrows k c Hc) as (c'' & Hc'' & Hcells).
    assert (c'' = c') as -> by congruence. exact Hcells. }
  split_and!; [done| |done].
  unfold nrows. destruct (boolean_index (keep <$> ts) df) as [|[k c'] rest] eqn:E; [done|].
  rewrite (Hempty k c'); [done|]. simpl. by rewrite decide_True.
Qed.

Lemma time_filter_custom_witness :
  ∃ df', time_filter Custom 5 1 readings = Ok df' ∧ nrows df' = 0.
Proof.
  destruct (time_filter_custom readings 5 1
              [Some 0%Z; Some (timedelta 1); Some (timedelta 8)])
    as (df' & idx & Hrun & _ & _ & _ & _ & Hinv).
  - reflexivity.
  - right. exists 0%Z. left.
  - exists df'. split; [done|]. apply Hinv. lia.
Defined.

(** C7.  In the mode "All" the frame that reaches channel discovery and
    thresholding is the loaded table: no row is removed and nothing is
    raised. *)
Theorem time_filter_all (T : DataFrame) (ss : SessionState) (start_date end_date : Z) :
  time_filter All start_date end_date T = Ok T ∧
  sidebar_frame (store_cb T ss) All start_date end_date = Ok T.
Proof. split; reflexivity. Qed.

(** ** Looking a channel up in the capacity table *)

Lemma mask_select_cells mask c :
  mask_select mask (cells c) = take_rows (marked_from 0 mask) c.
Proof.
  rewrite <- (cells_column_mask mask c _ eq_refl).
  destruct c; simpl; by rewrite mask_select_fmap.
Qed.

Lemma length_take_rows idx c :
  (∀ i, i ∈ idx → i < length (cells c)) → length (take_rows idx c) = length idx.
Proof.
  unfold take_rows. induction idx as [|i idx IH]; intros Hlt; [done|].
  destruct (lookup_lt_is_Some_2 (cells c) i) as [v Hv]; [apply Hlt; left|].
  simpl. rewrite Hv. simpl. f_equal. apply IH. intros j Hj. apply Hlt. by right.
Qed.

Lemma labelled_rows (t : IndexedFrame) (k : string) (c : column) :
  ∃ idx, StronglySorted lt idx ∧
         (∀ i, i ∈ idx ↔ labels (index t) !! i = Some (Some k)) ∧
         rows_labelled t k c = take_rows idx c.
Proof.
  exists (marked_from 0 ((λ o, bool_decide (o = Some k)) <$> labels (index t))).
  split_and!.
  - apply marked_from_sorted.
  - intros i. rewrite marked_from_elem_of. split.
    + intros (j & -> & Hj). simpl. rewrite list_lookup_fmap in Hj.
      destruct (labels (index t) !! j) as [o|]; [|done].
      injection Hj as Hj%bool_decide_eq_true. by subst.
    + intros Hi. exists i. split; [done|].
      rewrite list_lookup_fmap, Hi. simpl. by rewrite bool_decide_eq_true_2.
  - apply mask_select_cells.
Qed.

Lemma sorted_singleton (idx : list nat) i :
  StronglySorted lt idx → i ∈ idx → (∀ j, j ∈ idx → j = i) → idx = [i].
Proof.
  intros Hsorted Hi Hall. destruct idx as [|a idx]; [by apply elem_of_nil in Hi|].
  assert (a = i) as -> by (apply Hall; left).
  destruct idx as [|b idx]; [done|].
  assert (b = i) as -> by (apply Hall; right; left).
  apply StronglySorted_inv in Hsorted as [_ Hlt].
  apply Forall_cons in Hlt as [Hlt _]. lia.
Qed.

(** A label carried by exactly one row selects the cell of that row. *)
Lemma loc_unique_label (t : IndexedFrame) (k col : string) (c : column) i v :
  getitem (body t) col = Ok c →
  (∀ j, labels (index t) !! j = Some (Some k) ↔ j = i) →
  cells c !! i = Some v →
  loc t k col = Ok (Scalar v).
Proof.
  intros Hc Huniq Hv. unfold loc. rewrite Hc. cbn [mbind result_bind].
  destruct (labelled_rows t k c) as (idx & Hsorted & Hmem & ->).
  rewrite (sorted_singleton idx i Hsorted).
  - unfold take_rows. simpl. by rewrite Hv.
  - by apply Hmem, Huniq.
  - intros j Hj. by apply Huniq, Hmem.
Qed.

Lemma index_contains_true (t : IndexedFrame) k i :
  labels (index t) !! i = Some (Some k) → index_contains t k = true.
Proof.
  intros Hi. apply bool_decide_eq_true. by eapply list_elem_of_lookup_2.
Qed.

Lemma index_contains_false (t : IndexedFrame) k :
  Some k ∉ labels (index t) → index_contains t k = false.
Proof. intros Hk. by apply bool_decide_eq_false. Qed.

(** ** Normalisation *)

Lemma normalize_skip dc_df plot_df scb rest :
  Some scb ∉ labels (index dc_df) →
  normalize dc_df plot_df (scb :: rest) = normalize dc_df plot_df rest.
Proof. intros H. simpl. by rewrite index_contains_false. Qed.

Lemma normalize_divide dc_df plot_df scb rest strings xs i d :
  getitem (body dc_df) "STRINGS" = Ok (Float64 strings) →
  (∀ j, labels (index dc_df) !! j = Some (Some scb) ↔ j = i) →
  strings !! i = Some d →
  getitem plot_df scb = Ok (Float64 xs) →
  normalize dc_df plot_df (scb :: rest)
  = normalize dc_df (setitem plot_df scb (Float64 ((λ v, (v / d)%float) <$> xs))) rest.
Proof.
  intros Hstrings Huniq Hd Hxs. simpl.
  rewrite (index_contains_true dc_df scb i) by by apply Huniq.
  rewrite Hxs. cbn [mbind result_bind].
  rewrite (loc_unique_label dc_df scb "STRINGS" (Float64 strings) i (CFloat d));
    [done|done|done|].
  simpl. by rewrite list_lookup_fmap, Hd.
Qed.

(** C3.  Over a capacity table in which no selected channel labels two
    rows, normalisation raises nothing: the column of a selected channel
    that is a key of the capacity table is divided, value by value, by
    the string count of that key; the column of a selected channel that
    is no key, and every column that is not selected, stays as it was. *)
Theorem normalize_spec (dc_df : IndexedFrame) (plot_df : DataFrame)
    (selected : list string) (strings : list float) :
  NoDup selected →
  (∀ s, s ∈ selected → ∃ xs, getitem plot_df s = Ok (Float64 xs)) →
  getitem (body dc_df) "STRINGS" = Ok (Float64 strings) →
  length strings = length (labels (index dc_df)) →
  (∀ s i j, s ∈ selected →
            labels (index dc_df) !! i = Some (Some s) →
            labels (index dc_df) !! j = Some (Some s) → i = j) →
  ∃ plot_df',
    normalize dc_df plot_df selected = Ok plot_df' ∧
    columns plot_df' = columns plot_df ∧
    (∀ s i d xs, s ∈ selected →
       labels (index dc_df) !! i = Some (Some s) → strings !! i = Some d →
       getitem plot_df s = Ok (Float64 xs) →
       getitem plot_df' s = Ok (Float64 ((λ v, (v / d)%float) <$> xs))) ∧
    (∀ s, s ∈ selected → Some s ∉ labels (index dc_df) →
          getitem plot_df' s = getitem plot_df s) ∧
    (∀ s, s ∉ selected → getitem plot_df' s = getitem plot_df s).
Proof.
  intros Hnodup Hcols Hstrings Hlen Huniq. revert plot_df Hcols.
  induction selected as [|scb rest IH]; intros plot_df Hcols.
  - exists plot_df. split_and!; try done.
    by intros s i d xs ?%elem_of_nil.
  - apply NoDup_cons in Hnodup as [Hfresh Hnodup].
    assert (∀ s i j, s ∈ rest →
              labels (index dc_df) !! i = Some (Some s) →
              labels (index dc_df) !! j = Some (Some s) → i = j) as Huniq'.
    { intros s i j Hs. apply Huniq. by right. }
    destruct (decide (Some scb ∈ labels (index dc_df))) as [Hin|Hout].
    + apply list_elem_of_lookup_1 in Hin as [i Hi].
      assert (∀ j, labels (index dc_df) !! j = Some (Some scb) ↔ j = i) as Hat.
      { intros j. split; [|by intros ->]. intros Hj. eapply Huniq; [left|done|done]. }
      destruct (lookup_lt_is_Some_2 strings i) as [d Hd].
      { rewrite Hlen. by eapply lookup_lt_Some. }
      destruct (Hcols scb) as [xs Hxs]; [left|].
      set (plot_df1 := setitem plot_df scb (Float64 ((λ v, (v / d)%float) <$> xs))).
      assert (∀ s, s ≠ scb → getitem plot_df1 s = getitem plot_df s) as Hsame.
      { intros s Hs. unfold plot_df1. by rewrite getitem_setitem_ne. }
      destruct (IH Hnodup Huniq' plot_df1) as (plot_df' & Hrun & Hnames & Hdiv & Habs & Hrest).
      { intros s Hs. rewrite Hsame by (intros ->; done). apply Hcols. by right. }
      exists plot_df'. split_and!.
      * by rewrite (normalize_divide dc_df plot_df scb rest strings xs i d).
      * rewrite Hnames. apply columns_setitem. by eapply getitem_Ok_columns.
      * intros s j d' xs' [->|Hs]%elem_of_cons Hj Hd' Hxs'.
        -- apply Hat in Hj as ->. rewrite Hd in Hd'. injection Hd' as <-.
           rewrite Hxs in Hxs'. injection Hxs' as <-.
           rewrite (Hrest scb Hfresh). apply getitem_setitem_eq.
        -- apply (Hdiv s j d' xs' Hs Hj Hd'). rewrite Hsame; [done|]. by intros ->.
      * intros s [->|Hs]%elem_of_cons Hno.
        -- exfalso. apply Hno. by eapply list_elem_of_lookup_2.
        -- rewrite (Habs s Hs Hno). apply Hsame. by intros ->.
      * intros s [Hne Hs]%not_elem_of_cons. rewrite (Hrest s Hs). by apply Hsame.
    + destruct (IH Hnodup Huniq' plot_df) as (plot_df' & Hrun & Hnames & Hdiv & Habs & Hrest).
      { intros s Hs. apply Hcols. by right. }
      exists plot_df'. split_and!.
      * by rewrite normalize_skip.
      * done.
      * intros s j d' xs' [->|Hs]%elem_of_cons Hj Hd' Hxs'.
        -- exfalso. apply Hout. by eapply list_elem_of_lookup_2.
        -- by apply (Hdiv s j d' xs').
      * intros s [->|Hs]%elem_of_cons Hno; [by apply Hrest|by apply Habs].
      * intros s [Hne Hs]%not_elem_of_cons. by apply Hrest.
Qed.

Lemma normalize_spec_witness :
  ∃ plot_df',
    normalize capacity readings ["CB_CURRENT_1"] = Ok plot_df' ∧
    getitem plot_df' "CB_CURRENT_1"
    = Ok (Float64 ((λ v, (v / 24)%float) <$> [50%float; 250%float; 10%float])) ∧
    getitem plot_df' "CB_CURRENT_2" = getitem readings "CB_CURRENT_2".
Proof.
  destruct (normalize_spec capacity readings ["CB_CURRENT_1"] [24%float; 24%float])
    as (plot_df' & Hrun & _ & Hdiv & _ & Hrest).
  - apply NoDup_singleton.
  - intros s ->%list_elem_of_singleton. eexists. reflexivity.
  - reflexivity.
  - reflexivity.
  - intros s i j ->%list_elem_of_singleton Hi Hj.
    destruct i as [|[|[|i]]]; try discriminate Hi.
    destruct j as [|[|[|j]]]; try discriminate Hj. reflexivity.
  - exists plot_df'. split_and!; [done| |].
    + apply (Hdiv "CB_CURRENT_1" 0); [left|reflexivity|reflexivity|reflexivity].
    + apply Hrest. by intros [=]%list_elem_of_singleton.
Defined.

(** ** The capacity table keeps duplicated channel names *)

Lemma getitem_filter_ne (df : DataFrame) k k0 :
  k ≠ k0 → getitem (filter (λ p, p.1 ≠ k0) df) k = getitem df k.
Proof.
  intros Hne. induction df as [|[n c] df IH]; [done|].
  rewrite filter_cons. simpl. destruct (decide (n ≠ k0)) as [Hn|Hn]; simpl.
  - by rewrite IH.
  - apply dec_stable in Hn. subst n. by rewrite decide_False.
Qed.

(** C4, as the code has it.  [load_dc_file] keeps every row of the
    capacity file under its [CB_INDEX] label.  Looking a channel up gives
    the string count of its row when exactly one row names the channel,
    the string counts of all its rows, in file order, when several rows
    do, and a [KeyError] when none does. *)
Theorem load_dc_file_keeps_rows (read_csv read_excel : UploadedFile → result DataFrame)
    (file : UploadedFile) (df : DataFrame) (keys : list (option string))
    (strings : list float) :
  read_table read_csv read_excel file = Ok df →
  getitem df "CB_INDEX" = Ok (Object keys) →
  getitem df "STRINGS" = Ok (Float64 strings) →
  length keys = length strings →
  ∃ t, load_dc_file read_csv read_excel file = Ok t ∧
       index t = Object keys ∧
       ∀ k, ∃ idx,
         StronglySorted lt idx ∧
         (∀ i, i ∈ idx ↔ keys !! i = Some (Some k)) ∧
         length (take_rows idx (Float64 strings)) = length idx ∧
         match idx with
         | [] => loc t k "STRINGS" = Raise KeyError
         | [i] => ∃ d, strings !! i = Some d ∧
                       loc t k "STRINGS" = Ok (Scalar (CFloat d))
         | _ => loc t k "STRINGS" = Ok (Series (take_rows idx (Float64 strings)))
         end.
Proof.
  intros Hread Hkeys Hstrings Hlen.
  set (t := {| index := Object keys; body := filter (λ p, p.1 ≠ "CB_INDEX") df |}).
  exists t. split_and!; [|done|].
  - unfold load_dc_file, set_index. rewrite Hread. cbn [mbind result_bind].
    by rewrite Hkeys.
  - intros k.
    destruct (labelled_rows t k (Float64 strings)) as (idx & Hsorted & Hmem & Hrows).
    assert (length (take_rows idx (Float64 strings)) = length idx) as Hall.
    { apply length_take_rows. intros i Hi%Hmem. simpl in Hi.
      apply lookup_lt_Some in Hi. simpl. rewrite length_fmap. lia. }
    exists idx. split_and!; [done|done|done|].
    assert (loc t k "STRINGS"
            = match take_rows idx (Float64 strings) with
              | [] => Raise KeyError
              | [v] => Ok (Scalar v)
              | vs => Ok (Series vs)
              end) as ->.
    { unfold loc. simpl. rewrite getitem_filter_ne by done.
      rewrite Hstrings. cbn [mbind result_bind]. by rewrite Hrows. }
    destruct idx as [|i [|j idx]].
    + done.
    + destruct (lookup_lt_is_Some_2 strings i) as [d Hd].
      { rewrite <- Hlen. eapply lookup_lt_Some. apply Hmem. left. }
      exists d. split; [done|]. unfold take_rows. simpl.
      by rewrite list_lookup_fmap, Hd.
    + destruct (take_rows (i :: j :: idx) (Float64 strings)) as [|v1 [|v2 vs]];
        by try discriminate Hall.
Qed.

Lemma load_dc_file_keeps_rows_witness :
  ∃ t, load_dc_file (λ _, Ok dup_capacity) (λ _, Raise ValueError) dc_csv = Ok t ∧
       index t = Object [Some "CB_CURRENT_1"; Some "CB_CURRENT_1"].
Proof.
  destruct (load_dc_file_keeps_rows (λ _, Ok dup_capacity) (λ _, Raise ValueError)
              dc_csv dup_capacity [Some "CB_CURRENT_1"; Some "CB_CURRENT_1"]
              [24%float; 12%float])
    as (t & Hload & Hindex & _); [reflexivity..|].
  by exists t.
Defined.

(** C4, as the specification has it, fails: of two rows that name the
    same channel the later one does not replace the earlier one.  The
    lookup returns both string counts, the earlier one first. *)
Lemma load_dc_file_last_wins_counterexample :
  ∃ t, load_dc_file (λ _, Ok dup_capacity) (λ _, Raise ValueError) dc_csv = Ok t ∧
       loc t "CB_CURRENT_1" "STRINGS" = Ok (Series [CFloat 24%float; CFloat 12%float]) ∧
       loc t "CB_CURRENT_1" "STRINGS" ≠ Ok (Scalar (CFloat 12%float)).
Proof.
  eexists. split_and!; [reflexivity|reflexivity|discriminate].
Qed.

(** ** Validation *)

Lemma issubset_true ks (df : DataFrame) :
  issubset ks df = true ↔ ∀ k, k ∈ ks → k ∈ columns df.
Proof.
  unfold issubset. rewrite forallb_forall. setoid_rewrite <- list_elem_of_In.
  by setoid_rewrite bool_decide_eq_true.
Qed.

Lemma issubset_pair k1 k2 (df : DataFrame) :
  issubset [k1; k2] df = false ↔ k1 ∉ columns df ∨ k2 ∉ columns df.
Proof.
  unfold issubset. simpl. rewrite andb_true_r, andb_false_iff.
  by rewrite !bool_decide_eq_false.
Qed.

Lemma filter_startswith_nil (cs : list string) p :
  List.filter (λ c, startswith c p) cs = [] ↔ ∀ c, c ∈ cs → startswith c p = false.
Proof.
  induction cs as [|c cs IH]; simpl.
  - split; [by intros _ c ?%elem_of_nil|done].
  - destruct (startswith c p) eqn:E.
    + split; [done|]. intros H. specialize (H c). rewrite E in H.
      by discriminate H; left.
    + rewrite IH. split.
      * intros H c' [->|Hc']%elem_of_cons; [done|by apply H].
      * intros H c' Hc'. apply H. by right.
Qed.

(** C9.  A table without a [Date] or without a [Time] column is
    rejected with the message "Missing Date or Time column"; the
    validator rejects a table exactly when one of these two columns is
    missing or no column name starts with [CB_CURRENT]; and an upload
    that is rejected leaves the session state as it was, so that no table
    is stored. *)
Theorem validate_cb_file_spec (read_csv read_excel : UploadedFile → result DataFrame)
    (parse_datetime : string → option Z) (same_format : string → string → bool)
    (file : UploadedFile) (df : DataFrame) (ss : SessionState) :
  ("Date" ∉ columns df ∨ "Time" ∉ columns df →
     validate_cb_file df = (false, "Missing Date or Time column")) ∧
  ((validate_cb_file df).1 = false ↔
     "Date" ∉ columns df ∨ "Time" ∉ columns df ∨
     ∀ c, c ∈ columns df → startswith c "CB_CURRENT" = false) ∧
  (read_table read_csv read_excel file = Ok df →
   (validate_cb_file df).1 = false →
     upload_cb read_csv read_excel parse_datetime same_format file ss
     = (ss, false, [error (validate_cb_file df).2])).
Proof.
  split_and!.
  - intros H%issubset_pair. unfold validate_cb_file. by rewrite H.
  - unfold validate_cb_file.
    destruct (issubset ["Date"; "Time"] df) eqn:Hsub; simpl.
    + pose proof (filter_startswith_nil (columns df) "CB_CURRENT") as Hnil.
      assert (∀ k, k ∈ ["Date"; "Time"] → k ∈ columns df) as Hin
        by by apply issubset_true.
      destruct (List.filter _ (columns df)) as [|c cs]; simpl.
      * split; [|done]. intros _. do 2 right. by apply Hnil.
      * split; [done|]. intros [H|[H|H]].
        -- exfalso. apply H, Hin. left.
        -- exfalso. apply H, Hin. right; left.
        -- by apply Hnil in H.
    + split; [|done]. intros _. apply issubset_pair in Hsub. tauto.
  - intros Hread Hfail. unfold upload_cb. rewrite Hread.
    destruct (validate_cb_file df) as [ok msg]. simpl in Hfail. by subst ok.
Qed.

Lemma isnull_cells (c : column) : isnull c = cell_isnull <$> cells c.
Proof. destruct c; simpl; by rewrite <- list_fmap_compose. Qed.

Lemma any_false_iff (bs : list bool) : any bs = false ↔ ∀ b, b ∈ bs → b = false.
Proof.
  unfold any. induction bs as [|b bs IH]; simpl.
  - split; [by intros _ b ?%elem_of_nil|done].
  - rewrite orb_false_iff, IH. split.
    + intros [-> H] b' [->|Hb']%elem_of_cons; [done|by apply H].
    + intros H. split; [apply H; left|]. intros b' Hb'. apply H. by right.
Qed.

(** C10.  A capacity table with the columns [CB_INDEX] and [STRINGS] and
    no missing string count is accepted whatever the string counts are:
    their sign is never looked at.  The normalised view then divides by
    whatever count the table holds for a channel, zero included, and
    nothing stands between a zero count and the division. *)
Theorem validate_dc_file_no_sign_check (df : DataFrame) (strings : column) :
  "CB_INDEX" ∈ columns df →
  getitem df "STRINGS" = Ok strings →
  (∀ v, v ∈ cells strings → cell_isnull v = false) →
  validate_dc_file df = Ok (true, "Valid DC capacity file") ∧
  ∀ keys counts plot_df scb xs i d,
    getitem df "CB_INDEX" = Ok (Object keys) →
    strings = Float64 counts →
    (∀ j, keys !! j = Some (Some scb) ↔ j = i) →
    counts !! i = Some d →
    getitem plot_df scb = Ok (Float64 xs) →
    ∃ dc_df,
      set_index "CB_INDEX" df = Ok dc_df ∧
      normalize dc_df plot_df [scb]
      = Ok (setitem plot_df scb (Float64 ((λ v, (v / d)%float) <$> xs))).
Proof.
  intros Hindex Hstrings Hnonnull. split.
  - unfold validate_dc_file.
    assert (issubset ["CB_INDEX"; "STRINGS"] df = true) as ->.
    { apply issubset_true. intros k [->|Hk]%elem_of_cons; [done|].
      apply list_elem_of_singleton in Hk as ->. by eapply getitem_Ok_columns. }
    simpl. rewrite Hstrings. cbn [mbind result_bind].
    assert (any (isnull strings) = false) as ->; [|done].
    apply any_false_iff. rewrite isnull_cells.
    intros b (v & -> & Hv)%list_elem_of_fmap. by apply Hnonnull.
  - intros keys counts plot_df scb xs i d Hkeys -> Hat Hd Hxs.
    eexists. split.
    + unfold set_index. rewrite Hkeys. reflexivity.
    + rewrite (normalize_divide _ plot_df scb [] counts xs i d); try done.
      simpl. by rewrite getitem_filter_ne.
Qed.

Lemma validate_dc_file_no_sign_check_witness :
  validate_dc_file zero_capacity = Ok (true, "Valid DC capacity file") ∧
  ∃ dc_df,
    set_index "CB_INDEX" zero_capacity = Ok dc_df ∧
    normalize dc_df readings ["CB_CURRENT_1"]
    = Ok (setitem readings "CB_CURRENT_1"
            (Float64 ((λ v, (v / 0)%float) <$> [50%float; 250%float; 10%float]))).
Proof.
  destruct (validate_dc_file_no_sign_check zero_capacity (Float64 [0%float; (-3)%float]))
    as [Hvalid Hdiv].
  - left.
  - reflexivity.
  - intros v Hv. simpl in Hv.
    repeat (apply elem_of_cons in Hv as [->|Hv]; [reflexivity|]).
    by apply elem_of_nil in Hv.
  - split; [done|].
    apply (Hdiv [Some "CB_CURRENT_1"; Some "CB_CURRENT_2"] [0%float; (-3)%float]
             readings "CB_CURRENT_1" [50%float; 250%float; 10%float] 0 0%float);
      try reflexivity.
    intros j. split; [|by intros ->].
    destruct j as [|[|[|j]]]; by try discriminate.
Defined.

(** ** The scenarios of the specification, evaluated *)

Example threshold_scenario :
  ∃ h', apply_threshold 0 ["CB_CURRENT_1"] 200%float store0 = (Ok 1, h') ∧
        (T ← h' !! 1; Some (getitem T "CB_CURRENT_1"))
        = Some (Ok (Float64 [50%float; 0%float; 10%float])) ∧
        h' !! 0 = Some readings.
Proof. eexists. split_and!; reflexivity. Qed.

Example active_scenario :
  remove_inactive [("CB_CURRENT_1", Float64 [50%float; 0%float; 10%float])]
                  ["CB_CURRENT_1"] = Ok ["CB_CURRENT_1"].
Proof. reflexivity. Qed.

Example normalize_scenario :
  normalize {| index := Object [Some "CB_CURRENT_1"];
               body := [("STRINGS", Float64 [24%float])] |}
            [("CB_CURRENT_1", Float64 [48%float; 0%float; 10%float])]
            ["CB_CURRENT_1"]
  = Ok [("CB_CURRENT_1", Float64 [2%float; 0%float; (10 / 24)%float])].
Proof. reflexivity. Qed.

Example zero_division_scenario :
  series_div (Float64 [50%float; 0%float; (-1)%float]) (Scalar (CFloat 0%float))
  = Ok (Float64 [infinity; nan; neg_infinity]).
Proof. reflexivity. Qed.

Example templates_valid :
  validate_cb_file generate_cb_template = (true, "Valid CB data file") ∧
  validate_dc_file generate_dc_template = Ok (true, "Valid DC capacity file") ∧
  set_index "CB_INDEX" generate_dc_template = Ok capacity ∧
  get_scb_columns generate_cb_template = ["CB_CURRENT_1"; "CB_CURRENT_2"].
Proof. split_and!; reflexivity. Qed.

(** * Further properties of the pipeline *)

(** ** The validators decide between their messages *)

Lemma get_scb_columns_nil (df : DataFrame) :
  get_scb_columns df = [] ↔ ∀ c, c ∈ columns df → startswith c "CB_CURRENT" = false.
Proof. apply filter_startswith_nil. Qed.

(** X1.  [validate_cb_file] answers with exactly one of three messages:
    it accepts a table when [Date] and [Time] are columns and channel
    discovery finds a channel, it reports that no channel column exists
    when only the channels are missing, and it reports a missing [Date]
    or [Time] column before it looks for channels. *)
Theorem validate_cb_file_outcomes (df : DataFrame) :
  (validate_cb_file df = (true, "Valid CB data file") ↔
     "Date" ∈ columns df ∧ "Time" ∈ columns df ∧ get_scb_columns df ≠ []) ∧
  (validate_cb_file df = (false, "No CB_CURRENT columns found") ↔
     "Date" ∈ columns df ∧ "Time" ∈ columns df ∧ get_scb_columns df = []) ∧
  (validate_cb_file df = (false, "Missing Date or Time column") ↔
     "Date" ∉ columns df ∨ "Time" ∉ columns df).
Proof.
  unfold validate_cb_file. fold (get_scb_columns df).
  destruct (issubset ["Date"; "Time"] df) eqn:Hsub; simpl.
  - assert ("Date" ∈ columns df ∧ "Time" ∈ columns df) as [Hd Ht].
    { rewrite issubset_true in Hsub.
      split; apply Hsub; [left|right; left]. }
    destruct (get_scb_columns df) as [|c cs]; split_and!; split;
      try done; try (intros [? [? ?]]; done); intros [?|?]; done.
  - apply issubset_pair in Hsub.
    split_and!; split; try done; intros (? & ? & ?); destruct Hsub; done.
Qed.

Lemma any_true_iff (bs : list bool) : any bs = true ↔ true ∈ bs.
Proof.
  unfold any. rewrite existsb_exists. setoid_rewrite <- list_elem_of_In. split.
  - by intros ([] & ? & ?).
  - intros ?. by exists true.
Qed.

(** X2.  [validate_dc_file] never raises.  It accepts a table exactly
    when [CB_INDEX] and [STRINGS] are columns and no string count is
    missing; it reports missing columns exactly when one of the two is
    no column, and an empty value exactly when both are columns and some
    string count is missing. *)
Theorem validate_dc_file_outcomes (df : DataFrame) :
  ∃ ok msg,
    validate_dc_file df = Ok (ok, msg) ∧
    (ok = true ↔
       "CB_INDEX" ∈ columns df ∧
       ∃ c, getitem df "STRINGS" = Ok c ∧ ∀ v, v ∈ cells c → cell_isnull v = false) ∧
    (msg = "Missing CB_INDEX or STRINGS column" ↔
       "CB_INDEX" ∉ columns df ∨ "STRINGS" ∉ columns df) ∧
    (msg = "STRINGS column contains empty values" ↔
       "CB_INDEX" ∈ columns df ∧
       ∃ c v, getitem df "STRINGS" = Ok c ∧ v ∈ cells c ∧ cell_isnull v = true).
Proof.
  unfold validate_dc_file.
  destruct (issubset ["CB_INDEX"; "STRINGS"] df) eqn:Hsub; simpl.
  - assert ("CB_INDEX" ∈ columns df ∧ "STRINGS" ∈ columns df) as [Hi Hs].
    { rewrite issubset_true in Hsub. split; apply Hsub; [left|right; left]. }
    destruct (getitem_columns df "STRINGS" Hs) as [c Hc]. rewrite Hc.
    cbn [mbind result_bind].
    destruct (any (isnull c)) eqn:Hany; do 2 eexists; (split; [done|]).
    + apply any_true_iff in Hany. rewrite isnull_cells in Hany.
      apply list_elem_of_fmap in Hany as (v & Hv & Hin).
      split_and!; split; try done.
      * intros (_ & c' & [= <-] & Hnone). rewrite Hnone in Hv; done.
      * intros [?|?]; done.
      * intros _. split; [done|]. by exists c, v.
    + rewrite any_false_iff, isnull_cells in Hany.
      split_and!; split; try done.
      * intros _. split; [done|]. exists c. split; [done|].
        intros v Hv. apply Hany. apply list_elem_of_fmap. by exists v.
      * intros [?|?]; done.
      * intros (_ & c' & v & [= <-] & Hv & Hnull).
        rewrite (Hany (cell_isnull v)) in Hnull; [done|].
        apply list_elem_of_fmap. by exists v.
  - apply issubset_pair in Hsub. do 2 eexists. split; [done|].
    split_and!; split; try done.
    + intros (Hi & c & Hc & _). apply getitem_Ok_columns in Hc. by destruct Hsub.
    + intros (Hi & c & v & Hc & _). apply getitem_Ok_columns in Hc. by destruct Hsub.
Qed.

(** ** Loading the reading file *)

Lemma mapM_result_Ok {A B} (f : A → result B) (g : A → B) (l : list A) :
  (∀ x, x ∈ l → f x = Ok (g x)) → mapM f l = Ok (g <$> l).
Proof.
  induction l as [|x l IH]; intros Hf; [done|].
  cbn [mapM]. rewrite (Hf x) by left. rewrite IH; [done|].
  intros y Hy. apply Hf. by right.
Qed.

Lemma mapM_result_Raise {A B} (f : A → result B) (e : exn) (l : list A) (x : A) :
  x ∈ l → f x = Raise e →
  (∀ y e', y ∈ l → f y = Raise e' → e' = e) →
  mapM f l = Raise e.
Proof.
  intros Hin Hx Honly. induction l as [|a l IH]; [by apply elem_of_nil in Hin|].
  cbn [mapM]. destruct (f a) as [b|e'] eqn:Ha.
  - apply elem_of_cons in Hin as [->|Hin]; [congruence|].
    cbn [mbind result_bind]. rewrite IH; [done|done|].
    intros y e' Hy. apply Honly. by right.
  - cbn [mbind result_bind]. f_equal. apply (Honly a); [left|done].
Qed.

Lemma first_entry_Some (os : list (option string)) (s0 : string) :
  first_entry os = Some s0 →
  ∃ i, os !! i = Some (Some s0) ∧ ∀ j, j < i → os !! j = Some None.
Proof.
  unfold first_entry. induction os as [|[s|] os IH]; simpl; [done| |].
  - intros [= ->]. exists 0. split; [done|]. intros j Hj. lia.
  - intros (i & Hi & Hbefore)%IH. exists (S i). split; [done|].
    intros [|j] Hj; [done|]. apply Hbefore. lia.
Qed.

Lemma first_entry_None (os : list (option string)) (s : string) :
  first_entry os = None → Some s ∉ os.
Proof.
  unfold first_entry. induction os as [|[s'|] os IH]; simpl.
  - by intros _ ?%elem_of_nil.
  - done.
  - intros H [[=]|Hin]%elem_of_cons. by apply IH.
Qed.

Lemma to_timestamp_Raise parse_datetime same_format (s0 s : string) e :
  to_timestamp parse_datetime same_format s0 s = Raise e → e = ValueError.
Proof.
  unfold to_timestamp. destruct (parse_datetime s); [|by intros [= <-]].
  destruct (_ && _); [done|by intros [= <-]].
Qed.

(** [pd.to_datetime] returns the instants the strings denote when each
    of them is a date in the format of the first and an instant pandas
    can hold; it raises [ValueError] when one of them is no date. *)
Lemma to_datetime_Ok parse_datetime same_format (os : list (option string)) :
  (∀ s0 s, first_entry os = Some s0 → Some s ∈ os →
     ∃ t, parse_datetime s = Some t ∧ same_format s0 s = true ∧
          (INT64_MIN < t ≤ INT64_MAX)%Z) →
  to_datetime parse_datetime same_format os = Ok ((λ o, o ≫= parse_datetime) <$> os).
Proof.
  intros Hparse. unfold to_datetime. apply mapM_result_Ok.
  intros [s|] Hin; [|done].
  destruct (first_entry os) as [s0|] eqn:Hfirst.
  - destruct (Hparse s0 s eq_refl Hin) as (t & Ht & Hfmt & Hrange).
    unfold to_timestamp. simpl. rewrite Ht, Hfmt.
    by rewrite bool_decide_eq_true_2.
  - by apply (first_entry_None os s) in Hfirst.
Qed.

Lemma to_datetime_Raise parse_datetime same_format (os : list (option string)) s :
  Some s ∈ os → parse_datetime s = None →
  to_datetime parse_datetime same_format os = Raise ValueError.
Proof.
  intros Hin Hs. unfold to_datetime.
  apply (mapM_result_Raise _ _ _ (Some s)); [done| |].
  - unfold to_timestamp. by rewrite Hs.
  - intros [y|] e' _; [|done]. apply to_timestamp_Raise.
Qed.

(** ** The second read of an upload *)

Lemma load_cb_file_at_end_csv read_excel parse_datetime same_format file :
  endswith (name file) "csv" = true →
  load_cb_file read_csv_at_end read_excel parse_datetime same_format file
  = Raise ValueError.
Proof. intros Hcsv. unfold load_cb_file, read_table. by rewrite Hcsv. Qed.

Lemma load_cb_file_at_end_other read_csv read_excel parse_datetime same_format file :
  endswith (name file) "csv" = false →
  load_cb_file read_csv_at_end read_excel parse_datetime same_format file
  = load_cb_file read_csv read_excel parse_datetime same_format file.
Proof. intros Hcsv. unfold load_cb_file, read_table. by rewrite Hcsv. Qed.

Lemma load_dc_file_at_end_csv read_excel file :
  endswith (name file) "csv" = true →
  load_dc_file read_csv_at_end read_excel file = Raise ValueError.
Proof. intros Hcsv. unfold load_dc_file, read_table. by rewrite Hcsv. Qed.

Lemma load_dc_file_at_end_other read_csv read_excel file :
  endswith (name file) "csv" = false →
  load_dc_file read_csv_at_end read_excel file = load_dc_file read_csv read_excel file.
Proof. intros Hcsv. unfold load_dc_file, read_table. by rewrite Hcsv. Qed.

Lemma columns_setitem_new (df : DataFrame) k c :
  k ∉ columns df → columns (setitem df k c) = (columns df ++ [k])%list.
Proof.
  unfold columns. induction df as [|[n c0] df IH]; simpl; [done|].
  intros [Hne Hk]%not_elem_of_cons. rewrite decide_False by done.
  simpl. f_equal. by apply IH.
Qed.

Lemma columns_filter_out (df : DataFrame) (ks : list string) :
  columns (filter (λ p, p.1 ∉ ks) df) = filter (λ k, k ∉ ks) (columns df).
Proof.
  unfold columns. induction df as [|[n c] df IH]; [done|].
  rewrite filter_cons, fmap_cons, filter_cons. cbn [fst].
  destruct (decide (n ∉ ks)); [rewrite fmap_cons|]; by rewrite IH.
Qed.

Lemma getitem_filter_out (df : DataFrame) (ks : list string) k :
  k ∉ ks → getitem (filter (λ p, p.1 ∉ ks) df) k = getitem df k.
Proof.
  intros Hk. induction df as [|[n c] df IH]; [done|].
  rewrite filter_cons. simpl. destruct (decide (n ∉ ks)) as [Hn|Hn]; simpl.
  - by rewrite IH.
  - rewrite decide_False; [done|]. intros ->. done.
Qed.

Lemma get_scb_columns_cons n c (df : DataFrame) :
  get_scb_columns ((n, c) :: df)
  = if startswith n "CB_CURRENT" then n :: get_scb_columns df else get_scb_columns df.
Proof. done. Qed.

Lemma get_scb_columns_setitem (df : DataFrame) k c :
  startswith k "CB_CURRENT" = false →
  get_scb_columns (setitem df k c) = get_scb_columns df.
Proof.
  intros Hk. induction df as [|[n c0] df IH]; simpl.
  - by rewrite get_scb_columns_cons, Hk.
  - destruct (decide (n = k)) as [->|Hne]; rewrite !get_scb_columns_cons.
    + done.
    + by rewrite IH.
Qed.

Lemma get_scb_columns_filter_out (df : DataFrame) (ks : list string) :
  (∀ k, k ∈ ks → startswith k "CB_CURRENT" = false) →
  get_scb_columns (filter (λ p, p.1 ∉ ks) df) = get_scb_columns df.
Proof.
  intros Hks. induction df as [|[n c] df IH]; [done|].
  rewrite filter_cons. simpl. destruct (decide (n ∉ ks)) as [Hn|Hn].
  - rewrite !get_scb_columns_cons. by rewrite IH.
  - apply dec_stable in Hn. rewrite get_scb_columns_cons, (Hks n Hn). apply IH.
Qed.

Lemma drop_columns_Ok (ks : list string) (df : DataFrame) :
  (∀ k, k ∈ ks → k ∈ columns df) →
  drop_columns ks df = Ok (filter (λ p, p.1 ∉ ks) df).
Proof.
  intros Hks. unfold drop_columns.
  assert (forallb (λ k, bool_decide (k ∈ columns df)) ks = true) as ->; [|done].
  apply forallb_forall. intros k Hk%list_elem_of_In. apply bool_decide_eq_true. auto.
Qed.

Lemma columns_setitem_elem_of (df : DataFrame) k c k' :
  k' ∈ columns df → k' ∈ columns (setitem df k c).
Proof.
  intros Hk'. destruct (decide (k ∈ columns df)) as [Hk|Hk].
  - by rewrite columns_setitem.
  - rewrite columns_setitem_new by done. apply elem_of_app. by left.
Qed.

(** The strings [load_cb_file] hands to [pd.to_datetime]. *)
Lemma str_cat_Object ds sep tms :
  str_cat (Object ds) sep (Object tms)
  = Ok (zip_with (λ x y, x' ← x; y' ← y; Some (x' +:+ sep +:+ y')) ds tms).
Proof. done. Qed.

Lemma load_cb_file_run read_csv read_excel parse_datetime same_format file
    (df : DataFrame) ds tms dts :
  read_table read_csv read_excel file = Ok df →
  getitem df "Date" = Ok (Object ds) →
  getitem df "Time" = Ok (Object tms) →
  to_datetime parse_datetime same_format
    (zip_with (λ x y, x' ← x; y' ← y; Some (x' +:+ " " +:+ y')) ds tms) = Ok dts →
  load_cb_file read_csv read_excel parse_datetime same_format file
  = Ok (filter (λ p, p.1 ∉ ["Date"; "Time"]) (setitem df "DATETIME" (Datetime dts))).
Proof.
  intros Hread Hd Ht Hdts. unfold load_cb_file.
  rewrite Hread. cbn [mbind result_bind]. rewrite Hd, Ht. cbn [mbind result_bind].
  rewrite str_cat_Object. cbn [mbind result_bind]. rewrite Hdts. cbn [mbind result_bind].
  apply drop_columns_Ok. intros k Hk. apply columns_setitem_elem_of.
  apply elem_of_cons in Hk as [->|Hk]; [by eapply getitem_Ok_columns|].
  apply list_elem_of_singleton in Hk as ->. by eapply getitem_Ok_columns.
Qed.

(** X3.  On a file whose [Date] and [Time] columns hold strings that all
    combine to a date, to an instant pandas can hold, written in the
    format pandas infers from the first row that has a date and a time,
    [load_cb_file] returns a table without [Date] and [Time] and with a
    [DATETIME] column that holds, row by row, the parsed "date time"
    string, and [NaT] where the date or the time is missing.  Every other
    column is the column of the file, and channel discovery finds the
    channels of the file. *)
Theorem load_cb_file_shape (read_csv read_excel : UploadedFile → result DataFrame)
    (parse_datetime : string → option Z) (same_format : string → string → bool)
    (file : UploadedFile) (df : DataFrame) (ds tms : list (option string)) :
  read_table read_csv read_excel file = Ok df →
  getitem df "Date" = Ok (Object ds) →
  getitem df "Time" = Ok (Object tms) →
  (∀ i d t, ds !! i = Some (Some d) → tms !! i = Some (Some t) →
            ∃ x, parse_datetime (d +:+ " " +:+ t) = Some x ∧
                 (INT64_MIN < x ≤ INT64_MAX)%Z) →
  (∀ i0 d0 t0 i d t,
     ds !! i0 = Some (Some d0) → tms !! i0 = Some (Some t0) →
     (∀ j, j < i0 → ds !! j = Some None ∨ tms !! j = Some None) →
     ds !! i = Some (Some d) → tms !! i = Some (Some t) →
     same_format (d0 +:+ " " +:+ t0) (d +:+ " " +:+ t) = true) →
  ∃ T dts,
    load_cb_file read_csv read_excel parse_datetime same_format file = Ok T ∧
    getitem T "DATETIME" = Ok (Datetime dts) ∧
    length dts = length ds `min` length tms ∧
    (∀ i d t, ds !! i = Some (Some d) → tms !! i = Some (Some t) →
              dts !! i = Some (parse_datetime (d +:+ " " +:+ t))) ∧
    (∀ i, ds !! i = Some None ∨ tms !! i = Some None →
          i < length dts → dts !! i = Some None) ∧
    ("Date" ∉ columns T) ∧ ("Time" ∉ columns T) ∧
    (∀ k, k ∉ ["Date"; "Time"; "DATETIME"] → getitem T k = getitem df k) ∧
    get_scb_columns T = get_scb_columns df.
Proof.
  intros Hread Hd Ht Hparse Hformat.
  set (stamp := zip_with (λ x y : option string,
                            x' ← x; y' ← y; Some (x' +:+ " " +:+ y')) ds tms).
  assert (∀ i, stamp !! i = x ← ds !! i; y ← tms !! i;
                 Some (x' ← x; y' ← y; Some (x' +:+ " " +:+ y'))) as Hstamp.
  { intros i. unfold stamp. apply lookup_zip_with. }
  assert (∀ i s, stamp !! i = Some (Some s) →
            ∃ d t, ds !! i = Some (Some d) ∧ tms !! i = Some (Some t) ∧
                   s = d +:+ " " +:+ t) as Hsome.
  { intros i s Hi. rewrite Hstamp in Hi.
    destruct (ds !! i) as [[d|]|]; destruct (tms !! i) as [[t|]|];
      simpl in Hi; try done.
    injection Hi as <-. by exists d, t. }
  assert (∀ i, stamp !! i = Some None →
            ds !! i = Some None ∨ tms !! i = Some None) as Hnone.
  { intros i Hi. rewrite Hstamp in Hi.
    destruct (ds !! i) as [[d|]|]; destruct (tms !! i) as [[t|]|];
      simpl in Hi; try done; by eauto. }
  assert (to_datetime parse_datetime same_format stamp
          = Ok ((λ o, o ≫= parse_datetime) <$> stamp)) as Hdts.
  { apply to_datetime_Ok.
    intros s0 s (i0 & Hi0 & Hbefore)%first_entry_Some [i Hi]%list_elem_of_lookup_1.
    destruct (Hsome i0 s0 Hi0) as (d0 & t0 & Hd0 & Ht0 & ->).
    destruct (Hsome i s Hi) as (d & t & Hdi & Hti & ->).
    destruct (Hparse i d t Hdi Hti) as (x & Hx & Hrange).
    exists x. split; [done|]. split; [|done].
    apply (Hformat i0 d0 t0 i d t); try done.
    intros j Hj. by apply Hnone, Hbefore. }
  eexists _, ((λ o, o ≫= parse_datetime) <$> stamp). split_and!.
  - by eapply load_cb_file_run.
  - rewrite getitem_filter_out.
    + apply getitem_setitem_eq.
    + intros H. repeat (apply elem_of_cons in H as [[=]|H]). by apply elem_of_nil in H.
  - rewrite length_fmap. unfold stamp. apply length_zip_with.
  - intros i d t Hdi Hti. rewrite list_lookup_fmap, Hstamp, Hdi, Hti. done.
  - intros i Hmissing Hlt. rewrite length_fmap in Hlt.
    apply lookup_lt_is_Some_2 in Hlt as [o Ho].
    rewrite list_lookup_fmap, Ho. rewrite Hstamp in Ho.
    destruct (ds !! i) as [[d|]|]; destruct (tms !! i) as [[t|]|];
      simpl in Ho; try done; try (by destruct Hmissing); by injection Ho as <-.
  - rewrite columns_filter_out. intros [H _]%list_elem_of_filter. apply H. left.
  - rewrite columns_filter_out. intros [H _]%list_elem_of_filter. apply H. right; left.
  - intros k Hk. rewrite getitem_filter_out.
    + apply getitem_setitem_ne. intros <-. apply Hk. do 2 right; left.
    + intros Hin. apply Hk.
      apply elem_of_cons in Hin as [->|Hin]; [left|].
      apply list_elem_of_singleton in Hin as ->. right; left.
  - rewrite get_scb_columns_filter_out.
    + by apply get_scb_columns_setitem.
    + intros k Hk. by repeat (apply elem_of_cons in Hk as [->|Hk]; [done|]);
        apply elem_of_nil in Hk.
Qed.

Lemma load_cb_file_shape_witness :
  ∃ T, load_cb_file read_template read_template parse_template one_format cb_csv = Ok T ∧
       getitem T "DATETIME" = Ok (Datetime [Some 1735725600000000000%Z]) ∧
       get_scb_columns T = ["CB_CURRENT_1"; "CB_CURRENT_2"].
Proof.
  destruct (load_cb_file_shape read_template read_template parse_template one_format
              cb_csv generate_cb_template [Some "2025-01-01"] [Some "10:00:00"])
    as (T & dts & Hload & Hdt & Hlen & Hrow & _ & _ & _ & _ & Hscb);
    [reflexivity|reflexivity|reflexivity| |done|].
  - intros [|i] d t Hd Ht; [|done]. injection Hd as <-. injection Ht as <-.
    eexists. split; [reflexivity|]. by vm_compute.
  - exists T. split_and!; [done| |by rewrite Hscb].
    rewrite Hdt. do 2 f_equal.
    destruct dts as [|x [|y dts]]; try discriminate Hlen.
    specialize (Hrow 0 "2025-01-01" "10:00:00" eq_refl eq_refl).
    by injection Hrow as ->.
Defined.

(** X4.  A reading file that the validator accepts is still rejected when
    one of its rows has a date and a time that do not combine to a date:
    [load_cb_file] raises [ValueError], and the upload block, which has
    already shown the validator's message, shows the failure, stores no
    table and leaves [cb_ok] false. *)
Theorem load_cb_file_bad_date (read_csv read_excel : UploadedFile → result DataFrame)
    (parse_datetime : string → option Z) (same_format : string → string → bool)
    (file : UploadedFile) (df : DataFrame)
    (ds tms : list (option string)) (i : nat) (d t : string) (ss : SessionState) :
  read_table read_csv read_excel file = Ok df →
  (validate_cb_file df).1 = true →
  getitem df "Date" = Ok (Object ds) →
  getitem df "Time" = Ok (Object tms) →
  ds !! i = Some (Some d) →
  tms !! i = Some (Some t) →
  parse_datetime (d +:+ " " +:+ t) = None →
  load_cb_file read_csv read_excel parse_datetime same_format file = Raise ValueError ∧
  upload_cb read_csv read_excel parse_datetime same_format file ss
  = (ss, false, [success "Valid CB data file"; error "Failed to read CB file"]).
Proof.
  intros Hread Hvalid Hd Ht Hdi Hti Hbad.
  assert (load_cb_file read_csv read_excel parse_datetime same_format file
          = Raise ValueError) as Hload.
  { unfold load_cb_file. rewrite Hread. cbn [mbind result_bind].
    rewrite Hd, Ht. cbn [mbind result_bind]. rewrite str_cat_Object.
    cbn [mbind result_bind].
    rewrite (to_datetime_Raise parse_datetime same_format _ (d +:+ " " +:+ t));
      [done| |done].
    apply list_elem_of_lookup. exists i. by rewrite lookup_zip_with, Hdi, Hti. }
  split; [done|]. unfold upload_cb. rewrite Hread.
  assert (load_cb_file read_csv_at_end read_excel parse_datetime same_format file
          = Raise ValueError) as ->.
  { destruct (endswith (name file) "csv") eqn:Hcsv.
    - by apply load_cb_file_at_end_csv.
    - by rewrite (load_cb_file_at_end_other read_csv). }
  unfold validate_cb_file in *.
  destruct (negb (issubset ["Date"; "Time"] df)); [done|].
  by destruct (List.filter _ (columns df)).
Qed.

Lemma load_cb_file_bad_date_witness :
  load_cb_file read_template read_template (λ _, None) one_format cb_csv
  = Raise ValueError ∧
  upload_cb read_template read_template (λ _, None) one_format cb_csv initial_state
  = (initial_state, false,
     [success "Valid CB data file"; error "Failed to read CB file"]).
Proof.
  by apply (load_cb_file_bad_date read_template read_template (λ _, None) one_format
              cb_csv generate_cb_template [Some "2025-01-01"] [Some "10:00:00"] 0
              "2025-01-01" "10:00:00" initial_state).
Defined.

(** ** Loading the capacity file *)

Lemma columns_filter_ne (df : DataFrame) k :
  k ∉ columns (filter (λ p, p.1 ≠ k) df).
Proof.
  unfold columns. intros (p & -> & Hp)%list_elem_of_fmap.
  by apply list_elem_of_filter in Hp as [Hne _].
Qed.

(** X5.  A capacity file that [validate_dc_file] accepts loads when it
    is read from its start: the labels of the table are the [CB_INDEX]
    column of the file, its body has no [CB_INDEX] column and every
    other column of the file, and its [STRINGS] column has no missing
    value.  The upload block, which has read the upload once for the
    validation, stores that table and sets [dc_ok] when the name of the
    file does not end in [csv].  When it does, the second read finds the
    upload at its end: the block shows the validator's message and then
    the failure, stores no table and leaves [dc_ok] false. *)
Theorem validated_dc_file_loads (read_csv read_excel : UploadedFile → result DataFrame)
    (file : UploadedFile) (df : DataFrame) (msg : string) (ss : SessionState) :
  read_table read_csv read_excel file = Ok df →
  validate_dc_file df = Ok (true, msg) →
  ∃ t, load_dc_file read_csv read_excel file = Ok t ∧
       upload_dc read_csv read_excel file ss
       = (if endswith (name file) "csv"
          then (ss, false, [success msg; error "Failed to read DC file"])
          else (store_dc t ss, true, [success msg])) ∧
       getitem df "CB_INDEX" = Ok (index t) ∧
       ("CB_INDEX" ∉ columns (body t)) ∧
       (∀ k, k ≠ "CB_INDEX" → getitem (body t) k = getitem df k) ∧
       ∃ c, getitem (body t) "STRINGS" = Ok c ∧
            ∀ v, v ∈ cells c → cell_isnull v = false.
Proof.
  intros Hread Hvalid.
  assert ("CB_INDEX" ∈ columns df ∧
          ∃ c, getitem df "STRINGS" = Ok c ∧ any (isnull c) = false)
    as [Hindex (c & Hc & Hnull)].
  { unfold validate_dc_file in Hvalid.
    destruct (issubset ["CB_INDEX"; "STRINGS"] df) eqn:Hsub; [|done].
    rewrite issubset_true in Hsub. split; [apply Hsub; left|].
    simpl in Hvalid. destruct (getitem df "STRINGS") as [c|] eqn:Hc; [|done].
    exists c. split; [done|]. cbn [mbind result_bind] in Hvalid.
    by destruct (any (isnull c)). }
  destruct (getitem_columns df "CB_INDEX" Hindex) as [labels Hlabels].
  set (t := {| index := labels; body := filter (λ p, p.1 ≠ "CB_INDEX") df |}).
  assert (load_dc_file read_csv read_excel file = Ok t) as Hload.
  { unfold load_dc_file, set_index. rewrite Hread. cbn [mbind result_bind].
    by rewrite Hlabels. }
  exists t. split_and!; [done| |done|apply columns_filter_ne| |].
  - unfold upload_dc. rewrite Hread. cbn [mbind result_bind]. rewrite Hvalid.
    destruct (endswith (name file) "csv") eqn:Hcsv.
    + by rewrite load_dc_file_at_end_csv.
    + by rewrite (load_dc_file_at_end_other read_csv), Hload.
  - intros k Hk. by apply getitem_filter_ne.
  - exists c. split; [unfold t; cbn [body]; by rewrite getitem_filter_ne|].
    rewrite any_false_iff, isnull_cells in Hnull.
    intros v Hv. apply Hnull. apply list_elem_of_fmap. by exists v.
Qed.

Lemma validated_dc_file_loads_witness :
  (∃ t, load_dc_file read_template read_template dc_xlsx = Ok t ∧
        upload_dc read_template read_template dc_xlsx initial_state
        = (store_dc t initial_state, true, [success "Valid DC capacity file"])) ∧
  upload_dc read_template read_template dc_csv initial_state
  = (initial_state, false,
     [success "Valid DC capacity file"; error "Failed to read DC file"]).
Proof.
  split.
  - destruct (validated_dc_file_loads read_template read_template dc_xlsx
                generate_dc_template "Valid DC capacity file" initial_state)
      as (t & Hload & Hup & _); [reflexivity|reflexivity|].
    by exists t.
  - destruct (validated_dc_file_loads read_template read_template dc_csv
                generate_dc_template "Valid DC capacity file" initial_state)
      as (t & _ & Hup & _); [reflexivity|reflexivity|].
    exact Hup.
Defined.

(** ** The date range as a whole *)

Lemma mask_select_nil_l {A} (xs : list A) : mask_select [] xs = [].
Proof. done. Qed.

Lemma mask_select_sublist {A} (mask : list bool) (xs : list A) :
  mask_select mask xs `sublist_of` xs.
Proof.
  revert xs. induction mask as [|b mask IH]; intros [|x xs];
    rewrite ?mask_select_nil_r, ?mask_select_nil_l; try apply sublist_nil_l.
  rewrite mask_select_cons. destruct b; [by apply sublist_skip|by apply sublist_cons].
Qed.

Lemma mask_select_self {A} (f : A → bool) (xs : list A) :
  mask_select (f <$> xs) xs = List.filter f xs.
Proof.
  induction xs as [|x xs IH]; [done|].
  rewrite fmap_cons, mask_select_cons. simpl. rewrite IH. by destruct (f x).
Qed.

Lemma mask_select_mono {A B} (f g : A → bool) (ts : list A) (xs : list B) :
  (∀ t, t ∈ ts → f t = true → g t = true) →
  mask_select (f <$> ts) xs `sublist_of` mask_select (g <$> ts) xs.
Proof.
  revert xs. induction ts as [|t ts IH]; intros xs Hfg; [done|].
  destruct xs as [|x xs]; [by rewrite !mask_select_nil_r|].
  rewrite !fmap_cons, !mask_select_cons.
  assert (mask_select (f <$> ts) xs `sublist_of` mask_select (g <$> ts) xs) as Hrest.
  { apply IH. intros t' Ht'. apply Hfg. by right. }
  destruct (f t) eqn:Hf.
  - rewrite (Hfg t) by (done || left). by apply sublist_skip.
  - destruct (g t); [by apply sublist_cons|done].
Qed.

Lemma length_mask_select_le {A B} (mask : list bool) (xs : list A) (ys : list B) :
  length mask ≤ length ys →
  length (mask_select mask xs) ≤ length (mask_select mask ys).
Proof.
  revert xs ys. induction mask as [|b mask IH]; intros xs ys Hlen; [done|].
  destruct ys as [|y ys]; [simpl in Hlen; lia|].
  destruct xs as [|x xs]; [rewrite mask_select_nil_r; simpl; lia|].
  rewrite !mask_select_cons. simpl in Hlen.
  specialize (IH xs ys ltac:(lia)). destruct b; simpl; lia.
Qed.

Lemma length_mask_select_eq {A B} (mask : list bool) (xs : list A) (ys : list B) :
  length xs = length ys →
  length (mask_select mask xs) = length (mask_select mask ys).
Proof.
  revert xs ys. induction mask as [|b mask IH]; intros xs ys Hlen; [done|].
  destruct xs as [|x xs], ys as [|y ys]; try done.
  rewrite !mask_select_cons. simpl in Hlen.
  specialize (IH xs ys ltac:(lia)). destruct b; simpl; lia.
Qed.

Lemma mask_select_all_true {A} (mask : list bool) (xs : list A) :
  (∀ b, b ∈ mask → b = true) → length xs ≤ length mask →
  mask_select mask xs = xs.
Proof.
  revert xs. induction mask as [|b mask IH]; intros xs Hall Hlen.
  - destruct xs; [done|simpl in Hlen; lia].
  - destruct xs as [|x xs]; [done|].
    rewrite mask_select_cons, (Hall b) by left. f_equal.
    apply IH; [|simpl in Hlen; lia]. intros b' Hb'. apply Hall. by right.
Qed.

Lemma cells_column_mask_select mask c :
  cells (column_mask mask c) = mask_select mask (cells c).
Proof. destruct c; simpl; by rewrite mask_select_fmap. Qed.

Lemma column_mask_all_true mask c :
  (∀ b, b ∈ mask → b = true) → length (cells c) ≤ length mask →
  column_mask mask c = c.
Proof.
  intros Hall Hlen. destruct c; simpl in *; rewrite length_fmap in Hlen;
    by rewrite mask_select_all_true.
Qed.

Lemma boolean_index_all_true mask (df : DataFrame) :
  (∀ b, b ∈ mask → b = true) →
  (∀ k c, (k, c) ∈ df → length (cells c) ≤ length mask) →
  boolean_index mask df = df.
Proof.
  intros Hall Hlen. unfold boolean_index.
  induction df as [|[k c] df IH]; [done|].
  rewrite fmap_cons. f_equal.
  - unfold prod_map. simpl. f_equal. apply column_mask_all_true; [done|].
    apply (Hlen k). left.
  - apply IH. intros k' c' Hin. apply (Hlen k'). by right.
Qed.

Lemma elem_of_boolean_index mask (df : DataFrame) k c' :
  (k, c') ∈ boolean_index mask df → ∃ c, (k, c) ∈ df ∧ c' = column_mask mask c.
Proof.
  unfold boolean_index. intros ([k0 c] & [= -> ->] & Hin)%list_elem_of_fmap.
  by exists c.
Qed.

Lemma getitem_not_columns (df : DataFrame) k :
  k ∉ columns df → getitem df k = Raise KeyError.
Proof.
  intros Hk. destruct (getitem df k) as [c|e] eqn:E.
  - by apply getitem_Ok_columns in E.
  - clear Hk. induction df as [|[n c] df IH]; simpl in E; [congruence|].
    destruct (decide (n = k)); [done|by apply IH].
Qed.

Lemma get_scb_columns_columns (df df' : DataFrame) :
  columns df' = columns df → get_scb_columns df' = get_scb_columns df.
Proof. unfold get_scb_columns. by intros ->. Qed.

Lemma boolean_index_wf mask (df : DataFrame) :
  frame_wf df → frame_wf (boolean_index mask df) ∧ nrows (boolean_index mask df) ≤ nrows df.
Proof.
  intros [Hnodup Hlen]. destruct df as [|[k0 c0] df]; [done|].
  assert (nrows (boolean_index mask ((k0, c0) :: df))
          = length (mask_select mask (cells c0))) as Hrows.
  { simpl. by rewrite cells_column_mask_select. }
  split; [split|].
  - by rewrite columns_boolean_index.
  - intros k c' (c & Hin & ->)%elem_of_boolean_index.
    rewrite Hrows, cells_column_mask_select.
    apply length_mask_select_eq. by rewrite (Hlen k c Hin).
  - rewrite Hrows. apply sublist_length, mask_select_sublist.
Qed.

(** The date range on a table it can be taken of. *)
Lemma time_filter_in_range (df : DataFrame) date_option start_date end_date ts :
  getitem df "DATETIME" = Ok (Datetime ts) →
  date_range_ok date_option ts →
  ∃ bound,
    window_start date_option ts = Ok bound ∧
    time_filter date_option start_date end_date df
    = Ok (match date_option with
          | All => df
          | _ => boolean_index (keeps date_option start_date end_date bound <$> ts) df
          end).
Proof.
  intros Hts Hok. eexists. split; [by apply window_start_Ok|].
  by rewrite (time_filter_run df _ _ _ ts Hts), window_start_Ok.
Qed.

(** X6.  On a table with a [DATETIME] column of instants that the date
    range can be taken of (in the mode "Custom" the column has no rows
    or has an instant in some row; in a relative mode the latest instant
    less the days of the mode is an instant pandas can hold) the date
    range raises nothing.  The table it returns has the columns of the
    input in their order, so channel discovery finds the same channels;
    each column is a subsequence of the input column and a numeric
    column stays numeric; a rectangular table stays rectangular and
    gains no row. *)
Theorem time_filter_keeps_shape (df : DataFrame) (date_option : DateOption)
    (start_date end_date : Z) (ts : list Timestamp) :
  getitem df "DATETIME" = Ok (Datetime ts) →
  date_range_ok date_option ts →
  ∃ df',
    time_filter date_option start_date end_date df = Ok df' ∧
    columns df' = columns df ∧
    get_scb_columns df' = get_scb_columns df ∧
    (∃ ts', getitem df' "DATETIME" = Ok (Datetime ts') ∧ ts' `sublist_of` ts) ∧
    (∀ k xs, getitem df k = Ok (Float64 xs) →
             ∃ xs', getitem df' k = Ok (Float64 xs') ∧ xs' `sublist_of` xs) ∧
    (∀ k c, getitem df k = Ok c →
            ∃ c', getitem df' k = Ok c' ∧ cells c' `sublist_of` cells c) ∧
    (frame_wf df → frame_wf df' ∧ nrows df' ≤ nrows df).
Proof.
  intros Hts Hok.
  destruct (time_filter_in_range df date_option start_date end_date ts Hts Hok)
    as (bound & _ & Hrun).
  eexists. split; [exact Hrun|].
  destruct (decide (date_option = All)) as [->|Hmode].
  { split_and!; try done; by eauto. }
  set (mask := keeps date_option start_date end_date bound <$> ts).
  assert (match date_option with
          | All => df
          | _ => boolean_index mask df
          end = boolean_index mask df) as -> by by destruct date_option.
  split_and!.
  - apply columns_boolean_index.
  - apply get_scb_columns_columns, columns_boolean_index.
  - exists (mask_select mask ts). split; [|apply mask_select_sublist].
    by rewrite getitem_boolean_index, Hts.
  - intros k xs Hxs. exists (mask_select mask xs).
    split; [|apply mask_select_sublist]. by rewrite getitem_boolean_index, Hxs.
  - intros k c Hc. exists (column_mask mask c).
    split; [by rewrite getitem_boolean_index, Hc|].
    rewrite cells_column_mask_select. apply mask_select_sublist.
  - apply boolean_index_wf.
Qed.

Lemma readings_in_range (n : Z) :
  (0 ≤ n ≤ 15)%Z → in_range n [Some 0%Z; Some (timedelta 1); Some (timedelta 8)].
Proof.
  intros Hn m [Hin _]. unfold INT64_MIN, NS_PER_DAY.
  repeat (apply elem_of_cons in Hin as [[= ->]|Hin];
          [unfold timedelta, NS_PER_DAY; lia|]).
  by apply elem_of_nil in Hin.
Qed.

Lemma time_filter_keeps_shape_witness :
  ∃ df', time_filter Last7Days 0 0 readings = Ok df' ∧
         get_scb_columns df' = ["CB_CURRENT_1"; "CB_CURRENT_2"].
Proof.
  destruct (time_filter_keeps_shape readings Last7Days 0 0
              [Some 0%Z; Some (timedelta 1); Some (timedelta 8)])
    as (df' & Hrun & _ & Hscb & _); [reflexivity|apply readings_in_range; lia|].
  exists df'. split; [done|]. by rewrite Hscb.
Defined.

(** X7.  Without a [DATETIME] column the date range raises [KeyError] in
    every mode but "All", which does not look at the column. *)
Theorem time_filter_missing_datetime (df : DataFrame) (date_option : DateOption)
    (start_date end_date : Z) :
  "DATETIME" ∉ columns df →
  time_filter date_option start_date end_date df
  = if decide (date_option = All) then Ok df else Raise KeyError.
Proof.
  intros Hmissing%getitem_not_columns.
  unfold time_filter, datetime_column, instants_column.
  rewrite Hmissing. by destruct date_option.
Qed.

Lemma time_filter_missing_datetime_witness :
  time_filter Today 0 0 generate_cb_template = Raise KeyError ∧
  time_filter All 0 0 generate_cb_template = Ok generate_cb_template.
Proof.
  assert ("DATETIME" ∉ columns generate_cb_template) as Hmissing.
  { unfold columns, generate_cb_template. simpl. intros H.
    repeat (apply elem_of_cons in H as [[=]|H]). by apply elem_of_nil in H. }
  split.
  - exact (time_filter_missing_datetime generate_cb_template Today 0 0 Hmissing).
  - exact (time_filter_missing_datetime generate_cb_template All 0 0 Hmissing).
Defined.

Lemma ts_ge_window (mx : Timestamp) (n n' : Z) t :
  (n ≤ n')%Z →
  ts_ge t ((λ m, (m - n * NS_PER_DAY)%Z) <$> mx) = true →
  ts_ge t ((λ m, (m - n' * NS_PER_DAY)%Z) <$> mx) = true.
Proof.
  intros Hn. destruct t as [x|], mx as [m|]; simpl; try done.
  rewrite !bool_decide_eq_true. unfold NS_PER_DAY. lia.
Qed.

Lemma in_range_mono (n n' : Z) (ts : list Timestamp) :
  (n ≤ n')%Z → in_range n' ts → in_range n ts.
Proof.
  intros Hn Hr m Hm. specialize (Hr m Hm). unfold NS_PER_DAY in *. lia.
Qed.

(** X8.  The three relative ranges nest.  On a table whose latest
    instant less 15 days is an instant pandas can hold, all three
    return, and in every column what "Today" keeps is a subsequence of
    what "Last 7 Days" keeps, which is a subsequence of what "Last 15
    Days" keeps, which is a subsequence of the column of the table. *)
Theorem time_filter_windows_nest (df : DataFrame) (start_date end_date : Z)
    (ts : list Timestamp) :
  getitem df "DATETIME" = Ok (Datetime ts) →
  in_range 15 ts →
  ∃ d0 d7 d15,
    time_filter Today start_date end_date df = Ok d0 ∧
    time_filter Last7Days start_date end_date df = Ok d7 ∧
    time_filter Last15Days start_date end_date df = Ok d15 ∧
    ∀ k c, getitem df k = Ok c →
      ∃ c0 c7 c15,
        getitem d0 k = Ok c0 ∧ getitem d7 k = Ok c7 ∧ getitem d15 k = Ok c15 ∧
        cells c0 `sublist_of` cells c7 ∧
        cells c7 `sublist_of` cells c15 ∧
        cells c15 `sublist_of` cells c.
Proof.
  intros Hts H15.
  assert (in_range 7 ts) as H7 by by apply (in_range_mono 7 15).
  assert (in_range 0 ts) as H0 by by apply (in_range_mono 0 15).
  do 3 eexists. rewrite !(time_filter_run df _ _ _ ts Hts).
  rewrite (window_start_Ok Today), (window_start_Ok Last7Days),
    (window_start_Ok Last15Days) by done.
  split_and!; [reflexivity..|].
  intros k c Hc. do 3 eexists.
  split_and!; [by rewrite getitem_boolean_index, Hc..| | |];
    rewrite !cells_column_mask_select.
  - apply mask_select_mono. intros t _. by apply ts_ge_window.
  - apply mask_select_mono. intros t _. by apply ts_ge_window.
  - apply mask_select_sublist.
Qed.

Lemma time_filter_windows_nest_witness :
  ∃ d0 d7,
    time_filter Today 0 0 readings = Ok d0 ∧
    time_filter Last7Days 0 0 readings = Ok d7 ∧
    ∃ c0 c7, getitem d0 "CB_CURRENT_1" = Ok c0 ∧ getitem d7 "CB_CURRENT_1" = Ok c7 ∧
             cells c0 `sublist_of` cells c7.
Proof.
  destruct (time_filter_windows_nest readings 0 0
              [Some 0%Z; Some (timedelta 1); Some (timedelta 8)])
    as (d0 & d7 & d15 & H0 & H7 & _ & Hcols);
    [reflexivity|apply readings_in_range; lia|].
  destruct (Hcols "CB_CURRENT_1" (Float64 [50%float; 250%float; 10%float]))
    as (c0 & c7 & c15 & Hc0 & Hc7 & _ & Hsub & _); [reflexivity|].
  exists d0, d7. split_and!; [done|done|]. by exists c0, c7.
Defined.

(** X9.  "Today" does not select a calendar day: of a table with a
    latest instant it keeps the rows at exactly that instant, and at
    least one of them, whatever the earlier readings of the same day. *)
Theorem time_filter_today_latest (df : DataFrame) (start_date end_date : Z)
    (ts : list Timestamp) (m : Z) :
  getitem df "DATETIME" = Ok (Datetime ts) →
  Some m ∈ ts →
  (∀ t, Some t ∈ ts → (t ≤ m)%Z) →
  ∃ d0 ts0,
    time_filter Today start_date end_date df = Ok d0 ∧
    getitem d0 "DATETIME" = Ok (Datetime ts0) ∧
    ts0 ≠ [] ∧
    ∀ t, t ∈ ts0 → t = Some m.
Proof.
  intros Hts Hin Hub.
  set (keep := λ t : Timestamp, ts_ge t (Some m)).
  exists (boolean_index (keep <$> ts) df), (List.filter keep ts).
  assert (∀ t, keep t = true ↔ ∃ x, t = Some x ∧ (m ≤ x)%Z) as Hkeep.
  { intros t. unfold keep. destruct t as [x|]; simpl.
    - rewrite bool_decide_eq_true. split.
      + intros Hx. by exists x.
      + by intros (x' & [= <-] & Hx).
    - split; [done|]. by intros (x & ? & _). }
  split_and!.
  - rewrite (time_filter_run df Today start_date end_date ts Hts).
    cbn [window_start]. by rewrite ts_sub_zero, (series_max_is_max ts m Hin Hub).
  - by rewrite getitem_boolean_index, Hts, <- mask_select_self.
  - intros Hnil. assert (Some m ∈ List.filter keep ts) as H.
    { apply list_elem_of_In, filter_In. split; [by apply list_elem_of_In|].
      apply Hkeep. by exists m. }
    rewrite Hnil in H. by apply elem_of_nil in H.
  - intros t [Ht Hk]%list_elem_of_In%filter_In.
    apply Hkeep in Hk as (x & -> & Hx). apply list_elem_of_In in Ht.
    f_equal. specialize (Hub x Ht). lia.
Qed.

Lemma time_filter_today_latest_witness :
  ∃ d0 ts0, time_filter Today 0 0 readings = Ok d0 ∧
            getitem d0 "DATETIME" = Ok (Datetime ts0) ∧
            ∀ t, t ∈ ts0 → t = Some (timedelta 8).
Proof.
  destruct (time_filter_today_latest readings 0 0
              [Some 0%Z; Some (timedelta 1); Some (timedelta 8)] (timedelta 8))
    as (d0 & ts0 & Hrun & Hdt & _ & Hall).
  - reflexivity.
  - do 2 right; left.
  - intros t Ht. repeat (apply elem_of_cons in Ht as [[= ->]|Ht]; [by vm_compute|]).
    by apply elem_of_nil in Ht.
  - by exists d0, ts0.
Defined.

(** The start of a window that the filter has returned for is the start
    of the window of the rows it kept. *)
Lemma window_filtered (ts : list Timestamp) (n : Z) (b : Timestamp) :
  (0 ≤ n)%Z →
  ts_sub (series_max ts) (timedelta n) = Ok b →
  ts_sub (series_max (List.filter (λ t, ts_ge t b) ts)) (timedelta n) = Ok b.
Proof.
  intros Hn Hb. destruct (ts_sub_Ok _ _ _ Hb) as [->|(x & Hmax & ->)].
  - destruct (series_max (List.filter (λ t, ts_ge t None) ts)) as [m'|] eqn:Hmax';
      [|done].
    apply series_max_Some in Hmax' as [Hin _].
    apply list_elem_of_In, filter_In in Hin as [_ Hkeep]. done.
  - destruct (series_max_Some ts x Hmax) as [Hin Hub].
    rewrite (series_max_is_max _ x); [by rewrite <- Hmax| |].
    + apply list_elem_of_In, filter_In. split; [by apply list_elem_of_In|].
      simpl. apply bool_decide_eq_true. unfold timedelta, NS_PER_DAY. lia.
    + intros y [Hy _]%list_elem_of_In%filter_In. by apply Hub, list_elem_of_In.
Qed.

Lemma keeps_filtered date_option start_date end_date (ts : list Timestamp) b :
  window_start date_option ts = Ok b →
  window_start date_option
    (List.filter (keeps date_option start_date end_date b) ts) = Ok b.
Proof.
  destruct date_option; cbn [window_start keeps]; try done.
  - by apply window_filtered.
  - by apply window_filtered.
  - by apply window_filtered.
  - destruct (all_NaT ts); [done|]. intros [= <-].
    rewrite all_NaT_false; [done|].
    set (kept := List.filter _ ts).
    assert (∀ t, t ∈ kept → ∃ x, t = Some x) as Hkept.
    { intros t [_ Hkeep]%list_elem_of_In%filter_In.
      destruct t as [x|]; [by exists x|done]. }
    destruct kept as [|t rest]; [by left|]. right.
    destruct (Hkept t) as [x ->]; [left|]. exists x. left.
Qed.

(** X10.  The date range is idempotent: applied with the same choices
    to the table it returned, it returns that table unchanged.  For the
    relative ranges this is because the latest instant of a table is
    among the rows they keep. *)
Theorem time_filter_idempotent (df df' : DataFrame) (date_option : DateOption)
    (start_date end_date : Z) (ts : list Timestamp) :
  getitem df "DATETIME" = Ok (Datetime ts) →
  time_filter date_option start_date end_date df = Ok df' →
  time_filter date_option start_date end_date df' = Ok df'.
Proof.
  intros Hts Hrun. rewrite (time_filter_run df _ _ _ ts Hts) in Hrun.
  destruct (window_start date_option ts) as [b|] eqn:Hb; [|done].
  cbn [mbind result_bind] in Hrun. injection Hrun as <-.
  destruct (decide (date_option = All)) as [->|Hmode]; [done|].
  set (keep := keeps date_option start_date end_date b).
  assert (match date_option with
          | All => df
          | _ => boolean_index (keep <$> ts) df
          end = boolean_index (keep <$> ts) df) as -> by by destruct date_option.
  assert (getitem (boolean_index (keep <$> ts) df) "DATETIME"
          = Ok (Datetime (List.filter keep ts))) as Hts'.
  { by rewrite getitem_boolean_index, Hts, <- mask_select_self. }
  rewrite (time_filter_run _ _ _ _ _ Hts').
  pose proof (keeps_filtered date_option start_date end_date ts b Hb) as Hb'.
  fold keep in Hb'. rewrite Hb'. cbn [mbind result_bind].
  assert (boolean_index (keep <$> List.filter keep ts) (boolean_index (keep <$> ts) df)
          = boolean_index (keep <$> ts) df) as Hsame.
  { apply boolean_index_all_true.
    - intros ? (t & -> & Ht)%list_elem_of_fmap.
      by apply list_elem_of_In, filter_In in Ht as [_ Ht].
    - intros k c' (c & Hin & ->)%elem_of_boolean_index.
      rewrite length_fmap, <- mask_select_self, cells_column_mask_select.
      apply length_mask_select_le. by rewrite length_fmap. }
  fold keep. rewrite Hsame. by destruct date_option.
Qed.

Lemma time_filter_idempotent_witness :
  ∃ df', time_filter Last7Days 0 0 readings = Ok df' ∧
         time_filter Last7Days 0 0 df' = Ok df'.
Proof.
  eexists. split; [reflexivity|].
  by apply (time_filter_idempotent readings _ Last7Days 0 0
              [Some 0%Z; Some (timedelta 1); Some (timedelta 8)]).
Defined.

(** ** More on thresholding *)

(** The run of [apply_threshold] on numeric channels. *)
Lemma apply_threshold_run (h : gmap nat DataFrame) (df : ref) (T : DataFrame)
    (scbs : list string) (threshold : float) :
  h !! df = Some T →
  (∀ s, s ∈ scbs → ∃ xs, getitem T s = Ok (Float64 xs)) →
  ∃ T',
    apply_threshold df scbs threshold h
    = (Ok (fresh (dom h)), <[fresh (dom h) := T']> h) ∧
    columns T' = columns T ∧
    (∀ s, s ∉ scbs → getitem T' s = getitem T s) ∧
    (∀ s xs, s ∈ scbs → getitem T s = Ok (Float64 xs) →
             getitem T' s = Ok (Float64 (suppressed threshold <$> xs))).
Proof.
  intros Hh Hcols. set (df' := fresh (dom h)).
  destruct (for_each_threshold scbs threshold df' (<[df' := T]> h) T)
    as (T' & Hrun & Hnames & Hout & Hin); [apply lookup_insert_eq|done|].
  exists T'. split_and!; try done.
  unfold apply_threshold, mbind, M_bind, df_copy. rewrite Hh. cbv zeta.
  fold df'. rewrite Hrun. by rewrite insert_insert_eq.
Qed.

Lemma suppressed_bounded threshold v :
  (threshold <? 0)%float = false → (threshold <? suppressed threshold v)%float = false.
Proof.
  intros H0. unfold suppressed. by destruct (threshold <? v)%float eqn:E.
Qed.

(** X11.  With a threshold that is not negative, no value of a selected
    channel is above the threshold after [apply_threshold].  (Below zero
    the zeros written for suppressed values are themselves above the
    threshold, so the hypothesis is needed.) *)
Theorem apply_threshold_bounded (h : gmap nat DataFrame) (df : ref) (T : DataFrame)
    (scbs : list string) (threshold : float) :
  h !! df = Some T →
  (∀ s, s ∈ scbs → ∃ xs, getitem T s = Ok (Float64 xs)) →
  (threshold <? 0)%float = false →
  ∃ df' h' T',
    apply_threshold df scbs threshold h = (Ok df', h') ∧
    h' !! df' = Some T' ∧
    ∀ s ys v, s ∈ scbs → getitem T' s = Ok (Float64 ys) → v ∈ ys →
              (threshold <? v)%float = false.
Proof.
  intros Hh Hcols H0.
  destruct (apply_threshold_run h df T scbs threshold Hh Hcols)
    as (T' & Hrun & _ & _ & Hin).
  do 3 eexists. split_and!; [done|apply lookup_insert_eq|].
  intros s ys v Hs Hys Hv. destruct (Hcols s Hs) as [xs Hxs].
  rewrite (Hin s xs Hs Hxs) in Hys. injection Hys as <-.
  apply list_elem_of_fmap in Hv as (x & -> & _). by apply suppressed_bounded.
Qed.

Lemma apply_threshold_bounded_witness :
  ∃ df' h' T',
    apply_threshold 0 ["CB_CURRENT_1"] 200%float store0 = (Ok df', h') ∧
    h' !! df' = Some T' ∧
    ∀ ys v, getitem T' "CB_CURRENT_1" = Ok (Float64 ys) → v ∈ ys →
            (200 <? v)%float = false.
Proof.
  destruct (apply_threshold_bounded store0 0 readings ["CB_CURRENT_1"] 200%float)
    as (df' & h' & T' & Hrun & Hh' & Hbound).
  - reflexivity.
  - intros s ->%list_elem_of_singleton. eexists. reflexivity.
  - reflexivity.
  - exists df', h', T'. split_and!; [done|done|].
    intros ys v. apply Hbound. left.
Defined.

(** X12.  [apply_threshold] is idempotent: thresholding the frame it
    returned once more, with the same channels and threshold, gives a
    frame with the same columns holding the same values. *)
Theorem apply_threshold_idempotent (h : gmap nat DataFrame) (df : ref) (T : DataFrame)
    (scbs : list string) (threshold : float) :
  h !! df = Some T →
  (∀ s, s ∈ scbs → ∃ xs, getitem T s = Ok (Float64 xs)) →
  ∃ df1 h1 T1 df2 h2 T2,
    apply_threshold df scbs threshold h = (Ok df1, h1) ∧
    h1 !! df1 = Some T1 ∧
    apply_threshold df1 scbs threshold h1 = (Ok df2, h2) ∧
    h2 !! df2 = Some T2 ∧
    columns T2 = columns T1 ∧
    ∀ k, getitem T2 k = getitem T1 k.
Proof.
  intros Hh Hcols.
  destruct (apply_threshold_run h df T scbs threshold Hh Hcols)
    as (T1 & Hrun1 & Hnames1 & Hout1 & Hin1).
  set (df1 := fresh (dom h)) in *. set (h1 := <[df1 := T1]> h) in *.
  assert (h1 !! df1 = Some T1) as Hh1 by apply lookup_insert_eq.
  assert (∀ s, s ∈ scbs → ∃ xs, getitem T1 s = Ok (Float64 xs)) as Hcols1.
  { intros s Hs. destruct (Hcols s Hs) as [xs Hxs]. eexists. by apply Hin1. }
  destruct (apply_threshold_run h1 df1 T1 scbs threshold Hh1 Hcols1)
    as (T2 & Hrun2 & Hnames2 & Hout2 & Hin2).
  exists df1, h1, T1. do 2 eexists. exists T2.
  split_and!; [done|done|done|apply lookup_insert_eq|done|].
  intros k. destruct (decide (k ∈ scbs)) as [Hk|Hk]; [|by apply Hout2].
  destruct (Hcols k Hk) as [xs Hxs].
  rewrite (Hin2 k _ Hk (Hin1 k xs Hk Hxs)), (Hin1 k xs Hk Hxs).
  do 2 f_equal. rewrite <- list_fmap_compose. apply list_fmap_ext.
  intros i v _. apply suppressed_idemp.
Qed.

Lemma apply_threshold_idempotent_witness :
  ∃ df1 h1 T1 df2 h2 T2,
    apply_threshold 0 ["CB_CURRENT_1"] 200%float store0 = (Ok df1, h1) ∧
    h1 !! df1 = Some T1 ∧
    apply_threshold df1 ["CB_CURRENT_1"] 200%float h1 = (Ok df2, h2) ∧
    h2 !! df2 = Some T2 ∧
    getitem T2 "CB_CURRENT_1" = getitem T1 "CB_CURRENT_1".
Proof.
  destruct (apply_threshold_idempotent store0 0 readings ["CB_CURRENT_1"] 200%float)
    as (df1 & h1 & T1 & df2 & h2 & T2 & H1 & H2 & H3 & H4 & _ & Hsame).
  - reflexivity.
  - intros s ->%list_elem_of_singleton. eexists. reflexivity.
  - exists df1, h1, T1, df2, h2, T2. by split_and!.
Defined.

Lemma for_each_app {A} (xs ys : list A) (body : A → M unit) (h : gmap nat DataFrame) :
  for_each (xs ++ ys) body h
  = match for_each xs body h with
    | (Ok _, h') => for_each ys body h'
    | (Raise e, h') => (Raise e, h')
    end.
Proof.
  revert h. induction xs as [|x xs IH]; intros h; [done|].
  simpl. unfold mbind, M_bind. destruct (body x h) as [[[]|e] h1]; [apply IH|done].
Qed.

(** X13.  A selected channel that is no column of the frame makes
    [apply_threshold] raise [KeyError]; the frame that was passed in
    holds what it held. *)
Theorem apply_threshold_missing_channel (h : gmap nat DataFrame) (df : ref)
    (T : DataFrame) (pre post : list string) (s : string) (threshold : float) :
  h !! df = Some T →
  (∀ s', s' ∈ pre → ∃ xs, getitem T s' = Ok (Float64 xs)) →
  s ∉ columns T →
  ∃ h', apply_threshold df (pre ++ s :: post) threshold h = (Raise KeyError, h') ∧
        h' !! df = Some T.
Proof.
  intros Hh Hpre Hs. set (df' := fresh (dom h)).
  assert (df' ≠ df) as Hne.
  { intros Heq. assert (h !! df' = None) as Hnone by apply not_elem_of_dom, is_fresh.
    rewrite Heq in Hnone. congruence. }
  destruct (for_each_threshold pre threshold df' (<[df' := T]> h) T)
    as (T1 & Hrun & Hnames & _ & _); [apply lookup_insert_eq|done|].
  rewrite insert_insert_eq in Hrun.
  exists (<[df' := T1]> h). split; [|by rewrite lookup_insert_ne].
  unfold apply_threshold, mbind, M_bind, df_copy. rewrite Hh. cbv zeta. fold df'.
  rewrite for_each_app, Hrun. simpl.
  unfold mbind, M_bind, threshold_column, mbind, M_bind, df_getitem.
  rewrite lookup_insert_eq, getitem_not_columns; [done|]. by rewrite Hnames.
Qed.

Lemma apply_threshold_missing_channel_witness :
  ∃ h', apply_threshold 0 ["CB_CURRENT_1"; "CB_CURRENT_9"] 200%float store0
        = (Raise KeyError, h') ∧
        h' !! 0 = Some readings.
Proof.
  apply (apply_threshold_missing_channel store0 0 readings ["CB_CURRENT_1"] []
           "CB_CURRENT_9" 200%float).
  - reflexivity.
  - intros s ->%list_elem_of_singleton. eexists. reflexivity.
  - unfold columns, readings. simpl. intros H.
    repeat (apply elem_of_cons in H as [[=]|H]). by apply elem_of_nil in H.
Defined.

(** ** More on inactive channels *)

Lemma getitem_Raise (df : DataFrame) k e :
  getitem df k = Raise e → e = KeyError ∧ k ∉ columns df.
Proof.
  intros He. destruct (decide (k ∈ columns df)) as [Hk|Hk].
  - destruct (getitem_columns df k Hk) as [c Hc]. congruence.
  - rewrite getitem_not_columns in He by done. by injection He as <-.
Qed.

(** X14.  [remove_inactive] returns exactly when every channel it is
    given is a column of the frame; otherwise it raises [KeyError], and
    nothing else. *)
Theorem remove_inactive_outcomes (df : DataFrame) (scbs : list string) :
  match remove_inactive df scbs with
  | Ok kept => ∀ s, s ∈ scbs → s ∈ columns df
  | Raise e => e = KeyError ∧ ∃ s, s ∈ scbs ∧ s ∉ columns df
  end.
Proof.
  induction scbs as [|scb scbs IH]; simpl.
  - by intros s ?%elem_of_nil.
  - destruct (getitem df scb) as [c|e] eqn:Hc; cbn [mbind result_bind].
    + destruct (remove_inactive df scbs) as [kept|e]; cbn [mbind result_bind].
      * intros s [->|Hs]%elem_of_cons; [by eapply getitem_Ok_columns|by apply IH].
      * destruct IH as [-> (s & Hs & Hmiss)]. split; [done|].
        exists s. split; [by right|done].
    + apply getitem_Raise in Hc as [-> Hmiss]. split; [done|].
      exists scb. split; [left|done].
Qed.

Lemma remove_inactive_all_active (df : DataFrame) (scbs : list string) :
  (∀ s, s ∈ scbs → ∃ c, getitem df s = Ok c ∧ all (series_eq_zero c) = false) →
  remove_inactive df scbs = Ok scbs.
Proof.
  induction scbs as [|scb scbs IH]; intros Hact; [done|].
  destruct (Hact scb) as (c & Hc & Hz); [left|].
  simpl. rewrite Hc, IH by (intros s Hs; apply Hact; by right).
  cbn [mbind result_bind]. by rewrite Hz.
Qed.

(** X15.  [remove_inactive] is idempotent, and the channels it keeps are
    columns of the frame: pruning the pruned list changes nothing. *)
Theorem remove_inactive_idempotent (df : DataFrame) (scbs kept : list string) :
  remove_inactive df scbs = Ok kept →
  remove_inactive df kept = Ok kept ∧ ∀ s, s ∈ kept → s ∈ columns df.
Proof.
  intros Hrun.
  pose proof (remove_inactive_outcomes df scbs) as Hcols. rewrite Hrun in Hcols.
  destruct (remove_inactive_Ok df scbs Hcols) as (kept' & Hrun' & _ & Hmem).
  assert (kept' = kept) as -> by congruence. split.
  - apply remove_inactive_all_active. intros s (_ & Hact)%Hmem. done.
  - intros s (Hs & _)%Hmem. by apply Hcols.
Qed.

Lemma remove_inactive_idempotent_witness :
  remove_inactive readings ["CB_CURRENT_1"] = Ok ["CB_CURRENT_1"] ∧
  ∀ s, s ∈ ["CB_CURRENT_1"] → s ∈ columns readings.
Proof.
  by apply (remove_inactive_idempotent readings ["CB_CURRENT_1"; "CB_CURRENT_2"]).
Defined.

(** ** The chart *)

Lemma add_traces_spec (df : DataFrame) (scbs : list string) (traces : list Trace) :
  match add_traces df scbs traces with
  | Ok all_traces =>
      ∃ new, all_traces = (traces ++ new)%list ∧ Forall2 (trace_of df) scbs new
  | Raise e =>
      e = KeyError ∧ scbs ≠ [] ∧
      ("DATETIME" ∉ columns df ∨ ∃ s, s ∈ scbs ∧ s ∉ columns df)
  end.
Proof.
  revert traces. induction scbs as [|scb scbs IH]; intros traces; simpl.
  - exists []. by rewrite app_nil_r.
  - destruct (getitem df "DATETIME") as [x|e] eqn:Hx; cbn [mbind result_bind].
    2:{ apply getitem_Raise in Hx as [-> Hmiss]. by split_and!; [| |left]. }
    destruct (getitem df scb) as [y|e] eqn:Hy; cbn [mbind result_bind].
    2:{ apply getitem_Raise in Hy as [-> Hmiss]. split_and!; [done|done|].
        right. exists scb. split; [left|done]. }
    specialize (IH (traces ++ [{| trace_x := x; trace_y := y; trace_mode := "lines";
                                 trace_name := scb |}])%list).
    destruct (add_traces df scbs _) as [all_traces|e].
    + destruct IH as (new & -> & Hnew). eexists (_ :: new).
      split; [by rewrite <- app_assoc|]. by constructor.
    + destruct IH as (-> & _ & [Hmiss|(s & Hs & Hmiss)]); split_and!; try done.
      * by left.
      * right. exists s. split; [by right|done].
Qed.

(** X16.  [plot_timeseries] draws one line for each channel it is given,
    in the order given: the trace is named after the channel, its [x] is
    the [DATETIME] column and its [y] the column of the channel.  With
    no channel it returns a figure without traces and reads no column.
    Its only failure is a [KeyError], for a [DATETIME] or channel column
    that is missing while there is a channel to draw. *)
Theorem plot_timeseries_spec (df : DataFrame) (scbs : list string) :
  match plot_timeseries df scbs with
  | Ok fig => Forall2 (trace_of df) scbs (data fig)
  | Raise e =>
      e = KeyError ∧ scbs ≠ [] ∧
      ("DATETIME" ∉ columns df ∨ ∃ s, s ∈ scbs ∧ s ∉ columns df)
  end.
Proof.
  unfold plot_timeseries. pose proof (add_traces_spec df scbs []) as H.
  destruct (add_traces df scbs []) as [traces|e]; cbn [mbind result_bind].
  - by destruct H as (new & -> & Hnew).
  - done.
Qed.

(** ** The welcome page *)

Lemma load_cb_file_inv read_csv read_excel parse_datetime same_format file
    (df T : DataFrame) :
  read_table read_csv read_excel file = Ok df →
  load_cb_file read_csv read_excel parse_datetime same_format file = Ok T →
  (∃ ts, getitem T "DATETIME" = Ok (Datetime ts)) ∧
  ("Date" ∉ columns T) ∧ ("Time" ∉ columns T) ∧
  get_scb_columns T = get_scb_columns df.
Proof.
  intros Hread Hload. unfold load_cb_file in Hload. rewrite Hread in Hload.
  cbn [mbind result_bind] in Hload.
  destruct (getitem df "Date") as [date|]; [|done].
  destruct (getitem df "Time") as [time|]; [|done].
  cbn [mbind result_bind] in Hload.
  destruct (str_cat date " " time) as [stamp|]; [|done].
  cbn [mbind result_bind] in Hload.
  destruct (to_datetime parse_datetime same_format stamp) as [dts|]; [|done].
  cbn [mbind result_bind] in Hload. unfold drop_columns in Hload.
  destruct (forallb _ _); [|done]. injection Hload as <-. split_and!.
  - exists dts. rewrite getitem_filter_out; [apply getitem_setitem_eq|].
    intros H. repeat (apply elem_of_cons in H as [[=]|H]). by apply elem_of_nil in H.
  - rewrite columns_filter_out. intros [H _]%list_elem_of_filter. apply H. left.
  - rewrite columns_filter_out. intros [H _]%list_elem_of_filter. apply H. right; left.
  - rewrite get_scb_columns_filter_out.
    + by apply get_scb_columns_setitem.
    + intros k Hk. by repeat (apply elem_of_cons in Hk as [->|Hk]; [done|]);
        apply elem_of_nil in Hk.
Qed.

Lemma validate_cb_file_true (df : DataFrame) :
  (validate_cb_file df).1 = true →
  validate_cb_file df = (true, "Valid CB data file") ∧ get_scb_columns df ≠ [].
Proof.
  unfold validate_cb_file. fold (get_scb_columns df).
  destruct (negb (issubset ["Date"; "Time"] df)); [done|].
  by destruct (get_scb_columns df).
Qed.

(** The two ways an upload block of the reading file can end. *)
Lemma upload_cb_cases read_csv read_excel parse_datetime same_format file
    (ss : SessionState) :
  (∃ df T, read_table read_csv read_excel file = Ok df ∧
           (validate_cb_file df).1 = true ∧
           endswith (name file) "csv" = false ∧
           load_cb_file read_csv read_excel parse_datetime same_format file = Ok T ∧
           upload_cb read_csv read_excel parse_datetime same_format file ss
           = (store_cb T ss, true, [success "Valid CB data file"])) ∨
  ((upload_cb read_csv read_excel parse_datetime same_format file ss).1 = (ss, false) ∧
   ¬ ∃ df T, read_table read_csv read_excel file = Ok df ∧
             (validate_cb_file df).1 = true ∧
             endswith (name file) "csv" = false ∧
             load_cb_file read_csv read_excel parse_datetime same_format file = Ok T).
Proof.
  unfold upload_cb.
  destruct (read_table read_csv read_excel file) as [df|e] eqn:Hread.
  2:{ right. split; [done|]. by intros (df & T & [=] & _). }
  destruct (validate_cb_file df) as [ok msg] eqn:Hvalid. destruct ok.
  2:{ right. split; [done|]. intros (df' & T & [= <-] & Hok & _).
      rewrite Hvalid in Hok. done. }
  destruct (validate_cb_file_true df) as [Hmsg _]; [by rewrite Hvalid|].
  assert (msg = "Valid CB data file") as -> by congruence.
  destruct (endswith (name file) "csv") eqn:Hcsv.
  { rewrite load_cb_file_at_end_csv by done.
    right. split; [done|]. by intros (df' & T & _ & _ & [=] & _). }
  rewrite (load_cb_file_at_end_other read_csv) by done.
  destruct (load_cb_file read_csv read_excel parse_datetime same_format file)
    as [T|e] eqn:Hload.
  - left. exists df, T. by rewrite Hvalid.
  - right. split; [done|]. by intros (df' & T & _ & _ & _ & [=]).
Qed.

(** The two ways an upload block of the capacity file can end. *)
Lemma upload_dc_cases read_csv read_excel file (ss : SessionState) :
  (∃ df t msg, read_table read_csv read_excel file = Ok df ∧
               validate_dc_file df = Ok (true, msg) ∧
               endswith (name file) "csv" = false ∧
               load_dc_file read_csv read_excel file = Ok t ∧
               dc_table_ok t ∧
               upload_dc read_csv read_excel file ss
               = (store_dc t ss, true, [success msg])) ∨
  ((upload_dc read_csv read_excel file ss).1 = (ss, false) ∧
   ¬ ∃ df msg, read_table read_csv read_excel file = Ok df ∧
               validate_dc_file df = Ok (true, msg) ∧
               endswith (name file) "csv" = false).
Proof.
  destruct (read_table read_csv read_excel file) as [df|e] eqn:Hread.
  2:{ right. unfold upload_dc. rewrite Hread. split; [done|].
      by intros (df & msg & [=] & _). }
  destruct (validate_dc_file df) as [[[] msg]|e] eqn:Hvalid.
  - unfold upload_dc. rewrite Hread. cbn [mbind result_bind]. rewrite Hvalid.
    destruct (endswith (name file) "csv") eqn:Hcsv.
    { rewrite load_dc_file_at_end_csv by done.
      right. split; [done|]. by intros (df' & msg' & _ & _ & [=]). }
    rewrite (load_dc_file_at_end_other read_csv) by done.
    left. unfold load_dc_file, set_index. rewrite Hread. cbn [mbind result_bind].
    assert (∃ c, getitem df "CB_INDEX" = Ok c ∧
            ∃ c', getitem df "STRINGS" = Ok c' ∧ any (isnull c') = false)
      as (c & Hc & c' & Hc' & Hnull).
    { unfold validate_dc_file in Hvalid.
      destruct (issubset ["CB_INDEX"; "STRINGS"] df) eqn:Hsub; [|done].
      rewrite issubset_true in Hsub.
      destruct (getitem_columns df "CB_INDEX") as [c Hc]; [apply Hsub; left|].
      exists c. split; [done|]. simpl in Hvalid.
      destruct (getitem df "STRINGS") as [c'|] eqn:Hc'; [|done].
      exists c'. split; [done|]. cbn [mbind result_bind] in Hvalid.
      by destruct (any (isnull c')). }
    rewrite Hc. cbn [mbind result_bind].
    exists df, {| index := c; body := filter (λ p, p.1 ≠ "CB_INDEX") df |}, msg.
    split_and!; try done. split; [apply columns_filter_ne|].
    exists c'. split; [cbn [body]; by rewrite getitem_filter_ne|].
    rewrite any_false_iff, isnull_cells in Hnull.
    intros v Hv. apply Hnull. apply list_elem_of_fmap. by exists v.
  - right. unfold upload_dc. rewrite Hread. cbn [mbind result_bind]. rewrite Hvalid.
    split; [done|]. intros (df' & msg' & [= <-] & Hok & _). congruence.
  - right. unfold upload_dc. rewrite Hread. cbn [mbind result_bind]. rewrite Hvalid.
    split; [done|]. intros (df' & msg' & [= <-] & Hok & _). congruence.
Qed.

Lemma store_cb_ok (T : DataFrame) (ss : SessionState) :
  cb_table_ok T → session_ok ss → page ss = WELCOME → session_ok (store_cb T ss).
Proof.
  intros HT (Hpage & Hcb & Hdc) Hw. split_and!; simpl.
  - congruence.
  - by intros T' [= <-].
  - done.
Qed.

(** X17.  From the welcome page the session moves to the dashboard in
    exactly one case: "Proceed to Dashboard" is clicked in a run in which
    both uploaders hold a file whose name does not end in [csv], the
    reading file is read, validated and loaded, and the capacity file is
    read and validated.  Both tables are then in the session state.  A
    file whose name ends in [csv] is at its end when the loader reads it
    a second time, so that it never enables the button; nor do tables
    stored by an earlier run. *)
Theorem welcome_page_proceeds (read_csv read_excel : UploadedFile → result DataFrame)
    (parse_datetime : string → option Z) (same_format : string → string → bool)
    (w : WelcomeInputs) (ss : SessionState) :
  page ss = WELCOME →
  (page (welcome_page read_csv read_excel parse_datetime same_format w ss).1 = DASHBOARD ↔
     proceed_clicked w = true ∧
     ∃ f g df T dfc msg,
       cb_file w = Some f ∧ dc_file w = Some g ∧
       endswith (name f) "csv" = false ∧ endswith (name g) "csv" = false ∧
       read_table read_csv read_excel f = Ok df ∧
       (validate_cb_file df).1 = true ∧
       load_cb_file read_csv read_excel parse_datetime same_format f = Ok T ∧
       read_table read_csv read_excel g = Ok dfc ∧
       validate_dc_file dfc = Ok (true, msg)) ∧
  (page (welcome_page read_csv read_excel parse_datetime same_format w ss).1 = DASHBOARD →
     is_Some (cb_df (welcome_page read_csv read_excel parse_datetime same_format w ss).1) ∧
     is_Some (dc_df (welcome_page read_csv read_excel parse_datetime same_format w ss).1)).
Proof.
  intros Hpage. unfold welcome_page.
  destruct (cb_file w) as [f|] eqn:Hf.
  2:{ destruct (match dc_file w with
                | Some f => upload_dc read_csv read_excel f ss
                | None => (ss, false, [])
                end) as [[ss2 ok2] n2] eqn:Hdc.
      assert (page ss2 = WELCOME) as Hp2.
      { destruct (dc_file w) as [g|]; [|by injection Hdc as <- _ _].
        destruct (upload_dc_cases read_csv read_excel g ss)
          as [(dfc & t & msg & _ & _ & _ & _ & _ & Hup)|[Hup _]];
          rewrite Hdc in Hup; by simplify_eq/=. }
      unfold button. rewrite andb_false_l. simpl. rewrite andb_false_r. simpl.
      rewrite Hp2. split; [|done]. split; [done|].
      by intros (_ & f & g & df & T & dfc & msg & [=] & _). }
  destruct (upload_cb_cases read_csv read_excel parse_datetime same_format f ss)
    as [(df & T & Hread & Hvalid & Hcsv & Hload & Hup)|[Hup Hno]].
  2:{ destruct (upload_cb read_csv read_excel parse_datetime same_format f ss)
        as [[ss1 ok1] n1].
      simpl in Hup. injection Hup as -> ->.
      destruct (match dc_file w with
                | Some f => upload_dc read_csv read_excel f ss
                | None => (ss, false, [])
                end) as [[ss2 ok2] n2] eqn:Hdc.
      assert (page ss2 = WELCOME) as Hp2.
      { destruct (dc_file w) as [g|]; [|by injection Hdc as <- _ _].
        destruct (upload_dc_cases read_csv read_excel g ss)
          as [(dfc & t & msg & _ & _ & _ & _ & _ & Hup)|[Hup _]];
          rewrite Hdc in Hup; by simplify_eq/=. }
      unfold button. rewrite andb_false_l. simpl. rewrite andb_false_r. simpl.
      rewrite Hp2. split; [|done]. split; [done|].
      intros (_ & f' & g & df & T & dfc & msg & [= <-] & _ & Hc & _ & Hr & Hv & Hl & _).
      destruct Hno. by exists df, T. }
  rewrite Hup. destruct (dc_file w) as [g|] eqn:Hg.
  2:{ unfold button. simpl. rewrite andb_false_r. simpl. rewrite Hpage.
      split; [|done]. split; [done|].
      by intros (_ & f' & g & df' & T' & dfc & msg & _ & [=] & _). }
  destruct (upload_dc_cases read_csv read_excel g (store_cb T ss))
    as [(dfc & t & msg & Hread' & Hvalid' & Hcsv' & Hload' & _ & Hup')|[Hup' Hno']].
  - rewrite Hup'. unfold button. simpl. rewrite andb_comm. simpl.
    destruct (proceed_clicked w); simpl.
    + split; [|by eauto]. split; [|done]. intros _. split; [done|].
      by exists f, g, df, T, dfc, msg.
    + rewrite Hpage. split; [|done]. split; [done|]. by intros [[=] _].
  - destruct (upload_dc read_csv read_excel g (store_cb T ss)) as [[ss2 ok2] n2].
    simpl in Hup'. injection Hup' as -> ->.
    unfold button. simpl. rewrite andb_false_r. simpl. rewrite Hpage.
    split; [|done]. split; [done|].
    intros (_ & f' & g' & df' & T' & dfc & msg & _ & [= <-] & _ & Hc & _ & _ & _ & Hr & Hv).
    destruct Hno'. by exists dfc, msg.
Qed.

Lemma welcome_page_proceeds_witness :
  page (welcome_page read_template read_template parse_template one_format
          {| cb_file := Some cb_xlsx; dc_file := Some dc_xlsx; proceed_clicked := true |}
          initial_state).1 = DASHBOARD.
Proof.
  apply (welcome_page_proceeds read_template read_template parse_template one_format
           {| cb_file := Some cb_xlsx; dc_file := Some dc_xlsx; proceed_clicked := true |}
           initial_state eq_refl).
  split; [done|].
  eexists cb_xlsx, dc_xlsx, generate_cb_template, _, generate_dc_template, _.
  split_and!; reflexivity.
Defined.

(** ** What every session keeps *)

Lemma cb_block_ok read_csv read_excel parse_datetime same_format file
    (ss : SessionState) :
  session_ok ss → page ss = WELCOME →
  ∃ ss1 ok1 n1,
    upload_cb read_csv read_excel parse_datetime same_format file ss = (ss1, ok1, n1) ∧
    session_ok ss1 ∧ page ss1 = WELCOME ∧
    (ok1 = true → is_Some (cb_df ss1)).
Proof.
  intros Hok Hpage.
  destruct (upload_cb_cases read_csv read_excel parse_datetime same_format file ss)
    as [(df & T & Hread & Hvalid & _ & Hload & Hup)|[Hup _]].
  - rewrite Hup. do 3 eexists. split_and!; [done| |done|by eauto].
    apply store_cb_ok; [|done|done].
    destruct (load_cb_file_inv _ _ _ _ _ _ _ Hread Hload) as (Hdt & Hd & Ht & Hscb).
    split_and!; try done. rewrite Hscb. by apply validate_cb_file_true.
  - destruct (upload_cb _ _ _ _ _ _) as [[ss1 ok1] n1]. simpl in Hup.
    injection Hup as -> ->. do 3 eexists. by split_and!.
Qed.

Lemma dc_block_ok read_csv read_excel file (ss : SessionState) :
  session_ok ss → page ss = WELCOME →
  ∃ ss2 ok2 n2,
    upload_dc read_csv read_excel file ss = (ss2, ok2, n2) ∧
    session_ok ss2 ∧ page ss2 = WELCOME ∧ cb_df ss2 = cb_df ss ∧
    (ok2 = true → is_Some (dc_df ss2)).
Proof.
  intros (Hp & Hcb & Hdc) Hpage.
  destruct (upload_dc_cases read_csv read_excel file ss)
    as [(df & t & msg & _ & _ & _ & _ & Ht & Hup)|[Hup _]].
  - rewrite Hup. do 3 eexists. split_and!; [done| |done|done|by eauto].
    split_and!; simpl; [congruence|done|by intros t' [= <-]].
  - destruct (upload_dc _ _ _ _) as [[ss2 ok2] n2]. simpl in Hup.
    injection Hup as -> ->. do 3 eexists. by split_and!.
Qed.

Lemma welcome_page_ok read_csv read_excel parse_datetime same_format w
    (ss : SessionState) :
  session_ok ss → page ss = WELCOME →
  session_ok (welcome_page read_csv read_excel parse_datetime same_format w ss).1.
Proof.
  intros Hok Hpage. unfold welcome_page.
  assert (∃ ss1 ok1 n1,
            match cb_file w with
            | Some f => upload_cb read_csv read_excel parse_datetime same_format f ss
            | None => (ss, false, [])
            end = (ss1, ok1, n1) ∧
            session_ok ss1 ∧ page ss1 = WELCOME ∧ (ok1 = true → is_Some (cb_df ss1)))
    as (ss1 & ok1 & n1 & -> & Hok1 & Hpage1 & Hcb1).
  { destruct (cb_file w) as [f|]; [by apply cb_block_ok|].
    do 3 eexists. by split_and!. }
  assert (∃ ss2 ok2 n2,
            match dc_file w with
            | Some f => upload_dc read_csv read_excel f ss1
            | None => (ss1, false, [])
            end = (ss2, ok2, n2) ∧
            session_ok ss2 ∧ page ss2 = WELCOME ∧ cb_df ss2 = cb_df ss1 ∧
            (ok2 = true → is_Some (dc_df ss2)))
    as (ss2 & ok2 & n2 & -> & Hok2 & Hpage2 & Hsame & Hdc2).
  { destruct (dc_file w) as [g|]; [by apply dc_block_ok|].
    do 3 eexists. by split_and!. }
  destruct (button (proceed_clicked w) (negb (ok1 && ok2))) eqn:Hbutton; [|done].
  apply andb_true_iff in Hbutton as [_ Hboth]. rewrite negb_involutive in Hboth.
  apply andb_true_iff in Hboth as [-> ->].
  destruct Hok2 as (_ & Hcb & Hdc). split_and!; simpl; [|done|done].
  intros _. rewrite Hsame. auto.
Qed.

Lemma select_scbs_tables inp scbs (ss : SessionState) :
  page (select_scbs inp scbs ss) = page ss ∧
  cb_df (select_scbs inp scbs ss) = cb_df ss ∧
  dc_df (select_scbs inp scbs ss) = dc_df ss.
Proof.
  unfold select_scbs.
  by destruct (button (select_all_clicked inp) false),
              (button (clear_all_clicked inp) false).
Qed.

Lemma dashboard_page_state (d : DashboardInputs) (ss : SessionState) :
  cb_df (dashboard_page d ss).1 = cb_df ss ∧
  dc_df (dashboard_page d ss).1 = dc_df ss ∧
  (page (dashboard_page d ss).1 = page ss ∨ page (dashboard_page d ss).1 = WELCOME).
Proof.
  unfold dashboard_page.
  destruct (sidebar_frame ss _ _ _) as [df|e]; [|by auto].
  destruct (if remove_inactive_input d then _ else _) as [scbs|e]; [|by auto].
  destruct (select_scbs_tables d scbs ss) as (Hp & Hcb & Hdc).
  destruct (button (back_clicked d) false); [by auto|].
  destruct (main_content d df _); by auto.
Qed.

Lemma run_ok read_csv read_excel parse_datetime same_format w d (ss : SessionState) :
  session_ok ss → session_ok (run read_csv read_excel parse_datetime same_format w d ss).
Proof.
  intros Hok. unfold run. destruct (page ss) eqn:Hpage.
  - by apply welcome_page_ok.
  - destruct (dashboard_page_state d ss) as (Hcb & Hdc & Hp).
    destruct Hok as (Hboth & Hcbok & Hdcok).
    split_and!; rewrite ?Hcb, ?Hdc; try done. intros _. by apply Hboth.
Qed.

(** X18.  Whatever is uploaded and clicked during a session, the session
    is on the dashboard only while both tables are stored; a stored
    reading table has a [DATETIME] column of instants, no [Date] and no
    [Time] column and at least one channel; a stored capacity table has
    a [STRINGS] column without missing values beside its labels. *)
Theorem session_invariant (read_csv read_excel : UploadedFile → result DataFrame)
    (parse_datetime : string → option Z) (same_format : string → string → bool)
    (inputs : list (WelcomeInputs * DashboardInputs)) :
  let ss := session read_csv read_excel parse_datetime same_format inputs
              initial_state in
  (page ss = DASHBOARD → is_Some (cb_df ss) ∧ is_Some (dc_df ss)) ∧
  (∀ T, cb_df ss = Some T →
        (∃ ts, getitem T "DATETIME" = Ok (Datetime ts)) ∧
        ("Date" ∉ columns T) ∧ ("Time" ∉ columns T) ∧
        get_scb_columns T ≠ []) ∧
  (∀ t, dc_df ss = Some t →
        ("CB_INDEX" ∉ columns (body t)) ∧
        ∃ c, getitem (body t) "STRINGS" = Ok c ∧
             ∀ v, v ∈ cells c → cell_isnull v = false).
Proof.
  assert (session_ok initial_state) as Hinit by by split_and!.
  revert Hinit. generalize initial_state.
  induction inputs as [|[w d] inputs IH]; intros ss Hok; [exact Hok|].
  simpl. apply IH. by apply run_ok.
Qed.

(** ** The dashboard *)

Lemma List_filter_sublist {A} (f : A → bool) (l : list A) :
  List.filter f l `sublist_of` l.
Proof.
  induction l as [|x l IH]; simpl; [done|].
  destruct (f x); [by apply sublist_skip|by apply sublist_cons].
Qed.

Lemma get_scb_columns_sublist (df : DataFrame) :
  get_scb_columns df `sublist_of` columns df.
Proof. apply List_filter_sublist. Qed.

Lemma get_scb_columns_prefix (df : DataFrame) s :
  s ∈ get_scb_columns df → startswith s "CB_CURRENT" = true.
Proof. by intros [_ H]%list_elem_of_In%filter_In. Qed.

(** The date range keeps the columns and their kinds. *)
Lemma time_filter_kinds (T df : DataFrame) date_option start_date end_date ts :
  getitem T "DATETIME" = Ok (Datetime ts) →
  time_filter date_option start_date end_date T = Ok df →
  ∃ f : column → column,
    columns df = columns T ∧
    (∀ k, getitem df k = f <$> getitem T k) ∧
    (∀ xs, ∃ xs', f (Float64 xs) = Float64 xs') ∧
    (∀ ts, ∃ ts', f (Datetime ts) = Datetime ts').
Proof.
  intros Hts Hrun. rewrite (time_filter_run T _ _ _ ts Hts) in Hrun.
  destruct (window_start date_option ts) as [b|]; [|done].
  cbn [mbind result_bind] in Hrun. injection Hrun as <-.
  destruct (decide (date_option = All)) as [->|Hmode].
  - exists id. split_and!; try done; try by eauto.
    intros k. by destruct (getitem T k).
  - set (mask := keeps date_option start_date end_date b <$> ts).
    assert (match date_option with
            | All => T
            | _ => boolean_index mask T
            end = boolean_index mask T) as -> by by destruct date_option.
    exists (column_mask mask). split_and!.
    + apply columns_boolean_index.
    + intros k. apply getitem_boolean_index.
    + intros xs. by eexists.
    + intros ts'. by eexists.
Qed.

(** The sidebar, up to the list of channels it shows. *)
Lemma sidebar_run (d : DashboardInputs) (ss : SessionState) (T df : DataFrame) ts :
  cb_df ss = Some T →
  getitem T "DATETIME" = Ok (Datetime ts) →
  time_filter (date_option_input d) (start_date_input d) (end_date_input d) T
  = Ok df →
  ∃ (f : column → column) scbs,
    sidebar_frame ss (date_option_input d) (start_date_input d) (end_date_input d)
    = Ok df ∧
    columns df = columns T ∧
    (∀ k, getitem df k = f <$> getitem T k) ∧
    (∀ xs, ∃ xs', f (Float64 xs) = Float64 xs') ∧
    (∀ ts, ∃ ts', f (Datetime ts) = Datetime ts') ∧
    (if remove_inactive_input d
     then remove_inactive df (get_scb_columns df)
     else Ok (get_scb_columns df)) = Ok scbs ∧
    scbs `sublist_of` get_scb_columns T.
Proof.
  intros Hcb Hts Hrun.
  destruct (time_filter_kinds T df (date_option_input d) (start_date_input d)
              (end_date_input d) ts Hts Hrun) as (f & Hcols & Hget & Hf & Hdt).
  assert (get_scb_columns df = get_scb_columns T) as Hscb
    by by apply get_scb_columns_columns.
  destruct (remove_inactive_Ok df (get_scb_columns df)) as (kept & Hkept & Hsub & _).
  { intros s Hs. eapply elem_of_sublist; [done|apply get_scb_columns_sublist]. }
  exists f, (if remove_inactive_input d then kept else get_scb_columns df).
  split_and!; try done.
  - unfold sidebar_frame. by rewrite Hcb.
  - by destruct (remove_inactive_input d).
  - rewrite <- Hscb. by destruct (remove_inactive_input d).
Qed.


Lemma select_scbs_sublist inp scbs (ss : SessionState) :
  selected_scbs (select_scbs inp scbs ss) `sublist_of` scbs.
Proof. apply List_filter_sublist. Qed.


(** X20.  When every channel checkbox answers with the default it is
    created with, "Clear All" leaves no channel selected, "Select All"
    selects exactly the channels listed, and otherwise the selection is
    the earlier selection restricted to the channels listed, in the
    order of the list. *)
Theorem select_scbs_defaults (inp : DashboardInputs) (scbs : list string)
    (ss : SessionState) :
  (∀ s v, scb_checkbox inp s v = v) →
  selected_scbs (select_scbs inp scbs ss)
  = if clear_all_clicked inp then []
    else if select_all_clicked inp then scbs
    else List.filter (λ s, bool_decide (s ∈ selected_scbs ss)) scbs.
Proof.
  intros Hdefault. unfold select_scbs, button. rewrite !andb_true_r. simpl.
  assert (∀ sel : list string,
            List.filter (λ scb, scb_checkbox inp scb (bool_decide (scb ∈ sel))) scbs
            = List.filter (λ s, bool_decide (s ∈ sel)) scbs) as Hfilter.
  { intros sel. induction scbs as [|s scbs IH]; [done|]. simpl.
    by rewrite Hdefault, IH. }
  rewrite Hfilter. destruct (clear_all_clicked inp); simpl.
  - clear. by induction scbs as [|s scbs IH].
  - destruct (select_all_clicked inp); simpl; [|done].
    apply forallb_filter_id, forallb_forall.
    intros s Hs. by apply bool_decide_eq_true, list_elem_of_In.
Qed.


Lemma select_scbs_defaults_witness :
  selected_scbs (select_scbs show_all ["CB_CURRENT_1"; "CB_CURRENT_2"] on_dashboard)
  = ["CB_CURRENT_1"; "CB_CURRENT_2"].
Proof.
  by rewrite (select_scbs_defaults show_all ["CB_CURRENT_1"; "CB_CURRENT_2"]
                on_dashboard).
Defined.

Lemma call_apply_threshold_run (df : DataFrame) (scbs : list string) threshold :
  (∀ s, s ∈ scbs → ∃ xs, getitem df s = Ok (Float64 xs)) →
  ∃ T', call_apply_threshold df scbs threshold = Ok T' ∧
        columns T' = columns df ∧
        (∀ s, s ∉ scbs → getitem T' s = getitem df s) ∧
        (∀ s xs, s ∈ scbs → getitem df s = Ok (Float64 xs) →
                 getitem T' s = Ok (Float64 (suppressed threshold <$> xs))).
Proof.
  intros Hcols.
  destruct (apply_threshold_run {[ 0 := df ]} 0 df scbs threshold)
    as (T' & Hrun & Hrest); [apply lookup_singleton_eq|done|].
  exists T'. split; [|done]. unfold call_apply_threshold.
  rewrite Hrun. by rewrite lookup_insert_eq.
Qed.

(** X21.  In the raw view, in a run in which "Back to Home" is not
    clicked, the dashboard renders whenever the reading table has numeric
    channel columns and a [DATETIME] column of instants that the chosen
    date range can be taken of (in the mode "Custom" the column has no
    rows or has an instant in some row; in a relative mode the latest
    instant less the days of the mode is an instant pandas can hold),
    for every threshold and answer of the other widgets: it shows one
    line for each selected channel, in order, whose [x] is the
    [DATETIME] column of the table after the date range and whose [y]
    holds the values of the channel after the date range, with those
    above the threshold replaced by zero. *)
Theorem dashboard_renders_raw (d : DashboardInputs) (ss : SessionState)
    (T : DataFrame) (ts : list Timestamp) :
  cb_df ss = Some T →
  getitem T "DATETIME" = Ok (Datetime ts) →
  date_range_ok (date_option_input d) ts →
  (∀ s, s ∈ get_scb_columns T → ∃ xs, getitem T s = Ok (Float64 xs)) →
  mode_input d = RawCurrent →
  back_clicked d = false →
  ∃ ss' fig df,
    dashboard_page d ss = (ss', Rendered fig) ∧
    time_filter (date_option_input d) (start_date_input d) (end_date_input d) T
    = Ok df ∧
    Forall2 (λ s tr,
               trace_name tr = s ∧ trace_mode tr = "lines" ∧
               getitem df "DATETIME" = Ok (trace_x tr) ∧
               ∃ xs, getitem df s = Ok (Float64 xs) ∧
                     trace_y tr = Float64 (suppressed (threshold_input d) <$> xs))
            (selected_scbs ss') (data fig).
Proof.
  intros Hcb Hts Hok Hnum Hmode Hback.
  destruct (time_filter_in_range T (date_option_input d) (start_date_input d)
              (end_date_input d) ts Hts Hok) as (bound & _ & Hrun).
  set (df := match date_option_input d with
             | All => T
             | _ => boolean_index
                      (keeps (date_option_input d) (start_date_input d)
                         (end_date_input d) bound <$> ts) T
             end) in *.
  destruct (sidebar_run d ss T df ts Hcb Hts Hrun)
    as (f & scbs & Hside & Hcols & Hget & Hf & Hdt & Hscbs & Hsub).
  set (ss' := select_scbs d scbs ss). set (sel := selected_scbs ss').
  assert (sel `sublist_of` get_scb_columns T) as Hsel.
  { etrans; [apply select_scbs_sublist|done]. }
  assert (∀ s, s ∈ sel → ∃ xs, getitem df s = Ok (Float64 xs)) as Hfloat.
  { intros s Hs. destruct (Hnum s) as [xs Hxs]; [by eapply elem_of_sublist|].
    rewrite Hget, Hxs. destruct (Hf xs) as [xs' Hxs']. exists xs'. simpl. by f_equal. }
  destruct (call_apply_threshold_run df sel (threshold_input d) Hfloat)
    as (T' & Hcall & Hcols' & Hout & Hin).
  assert ("DATETIME" ∉ sel) as Hnosel.
  { intros Hs. by apply (elem_of_sublist _ _ _ Hs), get_scb_columns_prefix in Hsel. }
  assert (∃ fig, main_content d df ss' = Ok fig ∧ Forall2 (trace_of T') sel (data fig))
    as (fig & Hmain & Htraces).
  { unfold main_content. fold sel. rewrite Hcall. cbn [mbind result_bind].
    assert (match dc_df ss' with
            | Some dc => plot_frame (mode_input d) dc T' sel
            | None =>
                match mode_input d, sel with
                | NormalizedCurrent, _ :: _ => Raise AttributeError
                | _, _ => Ok T'
                end
            end = Ok T') as ->.
    { rewrite Hmode. by destruct (dc_df ss'). }
    cbn [mbind result_bind]. unfold plot_timeseries.
    pose proof (add_traces_spec T' sel []) as Hspec.
    destruct (add_traces T' sel []) as [traces|e]; cbn [mbind result_bind].
    - destruct Hspec as (new & -> & Hnew). by eexists.
    - exfalso. destruct Hspec as (_ & _ & [Hmiss|(s & Hs & Hmiss)]).
      + apply Hmiss. rewrite Hcols', Hcols. by eapply getitem_Ok_columns.
      + apply Hmiss. destruct (Hfloat s Hs) as [xs Hxs].
        rewrite Hcols'. by eapply getitem_Ok_columns. }
  exists ss', fig, df. split_and!; [|done|].
  - unfold dashboard_page. rewrite Hside, Hscbs. fold ss'.
    unfold button. rewrite Hback. simpl. by rewrite Hmain.
  - apply Forall2_same_length_lookup. split; [by eapply Forall2_length|].
    intros i s tr Hs Htr.
    destruct (Forall2_lookup_lr _ _ _ _ _ _ Htraces Hs Htr) as (Hn & Hm & Hx & Hy).
    split_and!; [done|done|by rewrite <- Hout|].
    assert (s ∈ sel) as Hin_sel by by eapply list_elem_of_lookup_2.
    destruct (Hfloat s Hin_sel) as [xs Hxs]. exists xs. split; [done|].
    rewrite (Hin s xs Hin_sel Hxs) in Hy. by injection Hy as <-.
Qed.

Lemma dashboard_renders_raw_witness :
  ∃ ss' fig,
    dashboard_page show_all on_dashboard = (ss', Rendered fig) ∧
    selected_scbs ss' = ["CB_CURRENT_1"] ∧
    length (data fig) = 1.
Proof.
  destruct (dashboard_renders_raw show_all on_dashboard readings
              [Some 0%Z; Some (timedelta 1); Some (timedelta 8)])
    as (ss' & fig & df & Hrun & _ & Htraces); try reflexivity; try exact I.
  - intros s Hs. simpl in Hs.
    repeat (apply elem_of_cons in Hs as [->|Hs]; [eexists; reflexivity|]).
    by apply elem_of_nil in Hs.
  - exists ss', fig.
    assert (ss' = (dashboard_page show_all on_dashboard).1) as Hss by by rewrite Hrun.
    assert (selected_scbs ss' = ["CB_CURRENT_1"]) as Hsel by by rewrite Hss.
    split_and!; [done|done|].
    apply Forall2_length in Htraces. by rewrite <- Htraces, Hsel.
Defined.

(** ** Reading an upload *)

Lemma str_app_cons a (s t : string) : String a s +:+ t = String a (s +:+ t).
Proof. reflexivity. Qed.

Lemma str_app_nil_r (s : string) : s +:+ EmptyString = s.
Proof. induction s as [|a s IH]; [done|]. by rewrite str_app_cons, IH. Qed.

Lemma str_app_assoc (a b c : string) : (a +:+ b) +:+ c = a +:+ (b +:+ c).
Proof. induction a as [|x a IH]; [done|]. by rewrite !str_app_cons, IH. Qed.

Lemma str_rev_app (s1 s2 : string) : String.rev_app s1 s2 = String.rev s1 +:+ s2.
Proof.
  revert s2. induction s1 as [|a s1 IH]; intros s2; [done|].
  unfold String.rev. cbn [String.rev_app].
  rewrite (IH (String a s2)), (IH (String a EmptyString)).
  by rewrite str_app_assoc.
Qed.

Lemma str_rev_cons a (s : string) :
  String.rev (String a s) = String.rev s +:+ String a EmptyString.
Proof. unfold String.rev. cbn [String.rev_app]. by rewrite str_rev_app. Qed.

Lemma str_rev_append (a b : string) :
  String.rev (a +:+ b) = String.rev b +:+ String.rev a.
Proof.
  induction a as [|x a IH].
  - change (String.rev b = String.rev b +:+ EmptyString). by rewrite str_app_nil_r.
  - by rewrite str_app_cons, !str_rev_cons, IH, str_app_assoc.
Qed.

Lemma str_rev_involutive (s : string) : String.rev (String.rev s) = s.
Proof.
  induction s as [|a s IH]; [done|].
  by rewrite str_rev_cons, str_rev_append, IH.
Qed.

Lemma str_prefix_spec (p s : string) :
  String.prefix p s = true ↔ ∃ suffix, s = p +:+ suffix.
Proof.
  revert s. induction p as [|a p IH]; intros s.
  - split; [intros _; by exists s|by destruct s].
  - destruct s as [|b s]; cbn [String.prefix].
    + split; [done|by intros (suffix & [=])].
    + destruct (Ascii.ascii_dec a b) as [->|Hne].
      * rewrite IH. split; intros (suffix & Hs); exists suffix.
        -- by rewrite str_app_cons, Hs.
        -- rewrite str_app_cons in Hs. congruence.
      * split; [done|]. intros (suffix & Hs). rewrite str_app_cons in Hs. congruence.
Qed.

Lemma endswith_spec (s p : string) :
  endswith s p = true ↔ ∃ before, s = before +:+ p.
Proof.
  unfold endswith. rewrite str_prefix_spec. split.
  - intros (suffix & Hs). exists (String.rev suffix).
    rewrite <- (str_rev_involutive s), Hs, str_rev_append.
    by rewrite str_rev_involutive.
  - intros (before & ->). exists (String.rev before). apply str_rev_append.
Qed.

(** X22.  An upload is parsed as CSV exactly when its name ends in the
    three characters [csv], with or without a dot before them and in
    lower case only; every other upload goes to the Excel parser. *)
Theorem read_table_dispatch (read_csv read_excel : UploadedFile → result DataFrame)
    (file : UploadedFile) :
  ((∃ before, name file = before +:+ "csv") →
     read_table read_csv read_excel file = read_csv file) ∧
  ((¬ ∃ before, name file = before +:+ "csv") →
     read_table read_csv read_excel file = read_excel file).
Proof.
  unfold read_table. split.
  - intros H%endswith_spec. by rewrite H.
  - intros H. destruct (endswith (name file) "csv") eqn:E; [|done].
    by apply endswith_spec in E.
Qed.

(** X23.  A reading file whose [Date] column was read as numbers is
    accepted by the validator, which looks at the column names only, and
    is then rejected by the loader: joining the date to the time raises
    [TypeError], the upload block shows the failure and stores nothing. *)
Theorem load_cb_file_numeric_date (read_csv read_excel : UploadedFile → result DataFrame)
    (parse_datetime : string → option Z) (same_format : string → string → bool)
    (file : UploadedFile) (df : DataFrame) (xs : list float) (ss : SessionState) :
  read_table read_csv read_excel file = Ok df →
  (validate_cb_file df).1 = true →
  getitem df "Date" = Ok (Float64 xs) →
  load_cb_file read_csv read_excel parse_datetime same_format file = Raise TypeError ∧
  upload_cb read_csv read_excel parse_datetime same_format file ss
  = (ss, false, [success "Valid CB data file"; error "Failed to read CB file"]).
Proof.
  intros Hread Hvalid Hdate.
  destruct (validate_cb_file_true df Hvalid) as [Hmsg _].
  assert ("Time" ∈ columns df) as Htime.
  { unfold validate_cb_file in Hvalid.
    destruct (issubset ["Date"; "Time"] df) eqn:Hsub; [|done].
    rewrite issubset_true in Hsub. apply Hsub. right; left. }
  destruct (getitem_columns df "Time" Htime) as [time Ht].
  assert (load_cb_file read_csv read_excel parse_datetime same_format file
          = Raise TypeError) as Hload.
  { unfold load_cb_file. rewrite Hread. cbn [mbind result_bind].
    by rewrite Hdate, Ht. }
  split; [done|]. unfold upload_cb. rewrite Hread, Hmsg.
  destruct (endswith (name file) "csv") eqn:Hcsv.
  - by rewrite load_cb_file_at_end_csv.
  - by rewrite (load_cb_file_at_end_other read_csv), Hload.
Qed.

Lemma load_cb_file_numeric_date_witness :
  load_cb_file (λ _, Ok numeric_dates) (λ _, Ok numeric_dates) parse_template
               one_format cb_csv
  = Raise TypeError ∧
  upload_cb (λ _, Ok numeric_dates) (λ _, Ok numeric_dates) parse_template
            one_format cb_csv initial_state
  = (initial_state, false,
     [success "Valid CB data file"; error "Failed to read CB file"]).
Proof.
  by apply (load_cb_file_numeric_date (λ _, Ok numeric_dates) (λ _, Ok numeric_dates)
              parse_template one_format cb_csv numeric_dates [20250101%float]
              initial_state).
Defined.
